(** * lambda-trading-bot: the orchestration core, embedded and verified

    A shallow embedding of the parts of the trading bot that its
    specification makes promises about:

    - [Cache]  : [src/memory/cache.py], the TTL cache;
    - [Solana] : [src/blockchain/solana_client.py], the balance query and
                 the two transaction-submission paths;
    - [Trade]  : the execution action of
                 [src/agent/langgraph_trading_agent.py] and
                 [src/agent/pure_ai_agent.py], with
                 [get_swap_transaction] of [src/data/jupiter.py];
    - [Cycle]  : one trading cycle, [run_trading_agent] of
                 [src/agent/__init__.py] around [run_trading_cycle] of the
                 LangGraph agent;
    - [Runner] : the background worker, [background_trading_loop] of
                 [src/agent/__init__.py];
    - [Starter]: [start_agent_background] of the same file, with the
                 threads it creates;
    - [Status] : [get_agent_status] and [_determine_status] of the same
                 file.

    Each module gives the embedding of the code first and then what is
    proved about it.

    Python values are the JSON-like universe [PyVal]; dictionaries are
    stdpp finite maps keyed by strings; floats are the kernel's IEEE-754
    binary64 numbers, which is what CPython uses.  Code that talks to the
    outside world (RPC node, HTTP, the reasoning oracle, the clock) is
    written in a state-and-exception monad over an explicit world; what the
    outside answers is a parameter of the section that embeds the code. *)

From Stdlib Require Import ZArith QArith String List Lia Bool.
From Stdlib Require Import Floats.PrimFloat Floats.SpecFloat Floats.FloatOps.
From stdpp Require Import base option gmap strings list pretty.

Set Warnings "-register-all".

Local Open Scope string_scope.
Local Open Scope list_scope.
Local Open Scope Z_scope.

(* ===================================================================== *)
(** ** Python values *)
(* ===================================================================== *)

Module Py.

(** The values that flow through the modelled code: what [json] can
    carry, which is also what the agent state and the tool envelopes are
    made of. *)
Inductive PyVal : Type :=
| VNone
| VBool (b : bool)
| VInt (z : Z)
| VFloat (f : float)
| VStr (s : string)
| VList (l : list PyVal)
| VDict (d : gmap string PyVal).

(** A raised exception: its class name and [str(e)]. *)
Record Exn : Type := mkExn { exn_type : string; exn_msg : string }.

Inductive Res (A : Type) : Type :=
| Ok (a : A)
| Raise (e : Exn).
Arguments Ok {A} a.
Arguments Raise {A} e.

Definition is_ok {A} (r : Res A) : bool :=
  match r with Ok _ => true | Raise _ => false end.

(** [bool(v)]: Python truthiness. *)
Definition truthy (v : PyVal) : bool :=
  match v with
  | VNone => false
  | VBool b => b
  | VInt z => negb (Z.eqb z 0)
  | VFloat f => negb (PrimFloat.eqb f 0%float)
  | VStr s => negb (String.eqb s "")
  | VList l => match l with [] => false | _ :: _ => true end
  | VDict d => negb (Nat.eqb (size d) 0)
  end.

(** [d.get(k)] and [d.get(k, default)] on a dictionary. *)
Definition get (d : gmap string PyVal) (k : string) : PyVal :=
  default VNone (d !! k).

Definition get_or (d : gmap string PyVal) (k : string) (dflt : PyVal) : PyVal :=
  default dflt (d !! k).

(** Python converts an [int] to a [float] by rounding to nearest and
    raises [OverflowError] when the result is not finite. *)
Definition float_of_Z (z : Z) : float :=
  SF2Prim (binary_normalize prec emax z 0 false).

Definition TypeError (msg : string) : Exn := mkExn "TypeError" msg.

(** [v / 1e9]: true division of a Python value by the float [1e9]. *)
Definition truediv_1e9 (v : PyVal) : Res PyVal :=
  match v with
  | VInt z =>
      let f := float_of_Z z in
      if PrimFloat.is_infinity f
      then Raise (mkExn "OverflowError" "int too large to convert to float")
      else Ok (VFloat (PrimFloat.div f 1e9%float))
  | VBool b => Ok (VFloat (PrimFloat.div (float_of_Z (Z.b2z b)) 1e9%float))
  | VFloat f => Ok (VFloat (PrimFloat.div f 1e9%float))
  | _ => Raise (TypeError "unsupported operand type(s) for /")
  end.

(** [a == b] for the scalars the modelled code compares.  A [bool] is the
    integer 0 or 1; an integer meets a float through its nearest float,
    which is the integer itself below 2^53. *)
Definition num_eqb (a b : PyVal) : bool :=
  match a, b with
  | VInt x, VInt y => Z.eqb x y
  | VBool x, VInt y => Z.eqb (Z.b2z x) y
  | VInt x, VBool y => Z.eqb x (Z.b2z y)
  | VBool x, VBool y => Bool.eqb x y
  | VInt x, VFloat g => PrimFloat.eqb (float_of_Z x) g
  | VFloat f, VInt y => PrimFloat.eqb f (float_of_Z y)
  | VBool x, VFloat g => PrimFloat.eqb (float_of_Z (Z.b2z x)) g
  | VFloat f, VBool y => PrimFloat.eqb f (float_of_Z (Z.b2z y))
  | VFloat f, VFloat g => PrimFloat.eqb f g
  | VStr s, VStr t => String.eqb s t
  | VNone, VNone => true
  | _, _ => false
  end.

Lemma get_or_Some (d : gmap string PyVal) (k : string) (dflt v : PyVal) :
  d !! k = Some v -> get_or d k dflt = v.
Proof. unfold get_or. by intros ->. Qed.

Lemma get_or_None (d : gmap string PyVal) (k : string) (dflt : PyVal) :
  d !! k = None -> get_or d k dflt = dflt.
Proof. unfold get_or. by intros ->. Qed.

Lemma get_None (d : gmap string PyVal) (k : string) :
  d !! k = None -> get d k = VNone.
Proof. unfold get. by intros ->. Qed.

End Py.
Export Py.

(* ===================================================================== *)
(** ** The state-and-exception monad *)
(* ===================================================================== *)

Section Monad.
Context {W : Type}.

(** A computation reads and writes the world [W] and either returns or
    raises; the world survives a raise, as in Python. *)
Definition M (A : Type) : Type := W -> Res A * W.

Definition ret {A} (a : A) : M A := fun w => (Ok a, w).

Definition raise {A} (e : Exn) : M A := fun w => (Raise e, w).

Definition bind {A B} (m : M A) (k : A -> M B) : M B :=
  fun w =>
    match m w with
    | (Ok a, w') => k a w'
    | (Raise e, w') => (Raise e, w')
    end.

(** [try: m  except Exception as e: h e]. *)
Definition try_except {A} (m : M A) (h : Exn -> M A) : M A :=
  fun w =>
    match m w with
    | (Ok a, w') => (Ok a, w')
    | (Raise e, w') => h e w'
    end.

Definition lift {A} (r : Res A) : M A := fun w => (r, w).

Definition modify (f : W -> W) : M unit := fun w => (Ok tt, f w).

Definition gets {A} (f : W -> A) : M A := fun w => (Ok (f w), w).
End Monad.

Declare Scope py_scope.
Delimit Scope py_scope with py.
Notation "x <- m ;; k" := (bind m (fun x => k))
  (at level 100, m at next level, right associativity) : py_scope.
Notation "m ;;; k" := (bind m (fun _ => k))
  (at level 100, right associativity) : py_scope.

(* ===================================================================== *)
(** ** src/memory/cache.py *)
(* ===================================================================== *)

Module Cache.

(** One entry of [_cache]: [{"data", "expiry", "created_at"}].  Times are
    readings of [time.time()], counted in clock ticks; the code only adds
    the TTL to a reading and compares readings. *)
Record CacheEntry : Type := mkEntry {
  data : PyVal;
  expiry : Z;
  created_at : Z
}.

(** [cache_data(key, data, ttl_seconds)], run when the clock reads [now]. *)
Definition cache_data (now : Z) (key : string) (v : PyVal) (ttl_seconds : Z)
    (c : gmap string CacheEntry) : gmap string CacheEntry :=
  <[key := mkEntry v (now + ttl_seconds) now]> c.

(** [get_cached_data(key)], run when the clock reads [now]: the value
    returned ([VNone] for Python's [None]) and the cache afterwards. *)
Definition get_cached_data (now : Z) (key : string)
    (c : gmap string CacheEntry) : PyVal * gmap string CacheEntry :=
  match c !! key with
  | None => (VNone, c)
  | Some cache_entry =>
      if now >? expiry cache_entry
      then (VNone, delete key c)
      else (data cache_entry, c)
  end.

(** [clear_cache(key)]; [None] clears everything. *)
Definition clear_cache (key : option string)
    (c : gmap string CacheEntry) : gmap string CacheEntry :=
  match key with
  | None => ∅
  | Some k => delete k c
  end.

(** [clear_expired_entries()], the body of the periodic sweeper: the
    number of entries removed and the cache afterwards. *)
Definition clear_expired_entries (now : Z)
    (c : gmap string CacheEntry) : nat * gmap string CacheEntry :=
  let keys_to_clear :=
    filter (fun ke => expiry ke.2 < now) (map_to_list c) in
  (length keys_to_clear,
   foldr (fun ke acc => delete ke.1 acc) c keys_to_clear).

(** What other threads may do to the cache between a [cache_data] and a
    later [get_cached_data] of the same key: the sweeper runs, or other
    calls read or write.  Each step carries the clock reading it ran at. *)
Inductive Op : Type :=
| OSweep (now : Z)
| OGet (now : Z) (key : string)
| OPut (now : Z) (key : string) (v : PyVal) (ttl_seconds : Z)
| OClear (key : string).

Definition op_time (o : Op) : option Z :=
  match o with
  | OSweep t | OGet t _ | OPut t _ _ _ => Some t
  | OClear _ => None
  end.

Definition run_op (o : Op) (c : gmap string CacheEntry) : gmap string CacheEntry :=
  match o with
  | OSweep t => (clear_expired_entries t c).2
  | OGet t k => (get_cached_data t k c).2
  | OPut t k v ttl => cache_data t k v ttl c
  | OClear k => clear_cache (Some k) c
  end.

Definition run_ops (ops : list Op) (c : gmap string CacheEntry) : gmap string CacheEntry :=
  fold_left (fun acc o => run_op o acc) ops c.

(** An operation leaves key [k] to the put under study: it does not
    overwrite or clear [k], and it runs no later than the final read at
    [t] (the clock does not run backwards). *)
Definition quiet (k : string) (t : Z) (o : Op) : Prop :=
  match o with
  | OSweep s => s <= t
  | OGet s _ => s <= t
  | OPut s k' _ _ => k' <> k /\ s <= t
  | OClear k' => k' <> k
  end.

(** What [get_cache_stats()] returns.  Clock readings are integers here,
    so the average of the remaining lifetimes, a true division, is a
    rational number. *)
Record CacheStats : Type := mkStats {
  total_entries : Z;
  active_entries : Z;
  expired_entries : Z;
  avg_remaining_ttl_seconds : Q;
  timestamp : Z
}.

(** [get_cache_stats()], run when the clock reads [now]. *)
Definition get_cache_stats (now : Z) (c : gmap string CacheEntry) : CacheStats :=
  let values := (map_to_list c).*2 in
  let total_entries := Z.of_nat (size c) in
  let expired_entries :=
    Z.of_nat (length (filter (fun entry => expiry entry < now) values)) in
  let active_entries := total_entries - expired_entries in
  let avg_ttl :=
    if 0 <? active_entries then
      let ttl_sum :=
        foldr Z.add 0
          ((fun entry => Z.max 0 (expiry entry - now)) <$>
           filter (fun entry => now <= expiry entry) values) in
      Qmake ttl_sum (Z.to_pos active_entries)
    else 0%Q in
  mkStats total_entries active_entries expired_entries avg_ttl now.

(** An operation that only looks at the cache, a sweep or a read, and runs
    no later than the read at [t]. *)
Definition looks_only (t : Z) (o : Op) : Prop :=
  match o with
  | OSweep s | OGet s _ => s <= t
  | OPut _ _ _ _ | OClear _ => False
  end.

(** *** Properties of the cache *)

Lemma foldr_delete_lookup (l : list (string * CacheEntry))
    (c : gmap string CacheEntry) (k : string) :
  foldr (fun ke acc => delete ke.1 acc) c l !! k =
  if decide (k ∈ l.*1) then None else c !! k.
Proof.
  induction l as [|[k' e'] l IH]; [done|].
  rewrite fmap_cons. cbn [foldr fst].
  destruct (decide (k' = k)) as [->|Hne].
  - rewrite lookup_delete_eq, decide_True; [done|]. apply list_elem_of_here.
  - rewrite lookup_delete_ne by done. rewrite IH.
    destruct (decide (k ∈ l.*1)) as [Hin|Hin].
    + rewrite decide_True; [done|]. by apply list_elem_of_further.
    + rewrite decide_False; [done|].
      intros H. apply elem_of_cons in H as [?|?]; congruence.
Qed.

(** The sweeper removes exactly the entries whose expiry lies strictly
    before its clock reading. *)
Lemma clear_expired_entries_lookup (now : Z) (c : gmap string CacheEntry)
    (k : string) :
  (clear_expired_entries now c).2 !! k =
  match c !! k with
  | Some e => if now >? expiry e then None else Some e
  | None => None
  end.
Proof.
  unfold clear_expired_entries; simpl. rewrite foldr_delete_lookup.
  destruct (c !! k) as [e|] eqn:Hk.
  - destruct (Z.gtb_spec now (expiry e)) as [Hgt|Hle].
    + case_decide as Hin; [done|]. exfalso. apply Hin.
      apply list_elem_of_fmap. exists (k, e). split; [done|].
      apply list_elem_of_filter. split; [simpl; lia|].
      by apply elem_of_map_to_list.
    + case_decide as Hin; [|done]. exfalso.
      apply list_elem_of_fmap in Hin as [[k' e'] [-> Hin]].
      apply list_elem_of_filter in Hin as [Hexp Hin].
      apply elem_of_map_to_list in Hin. simpl in *.
      rewrite Hk in Hin. injection Hin as <-. lia.
  - case_decide; done.
Qed.

(** One quiet step keeps the entry under [k], or drops it only because a
    clock reading beyond its expiry was seen. *)
Lemma run_op_quiet (o : Op) (k : string) (t : Z) (e : CacheEntry)
    (c : gmap string CacheEntry) :
  quiet k t o ->
  c !! k = Some e ->
  run_op o c !! k = Some e \/ (run_op o c !! k = None /\ expiry e < t).
Proof.
  intros Hq Hk. destruct o as [s|s k'|s k' v' ttl|k']; unfold run_op, quiet in *.
  - rewrite clear_expired_entries_lookup, Hk.
    destruct (Z.gtb_spec s (expiry e)); [right; split; [done|lia] | by left].
  - unfold get_cached_data. destruct (c !! k') as [e'|] eqn:Hk'; [|by left].
    destruct (Z.gtb_spec s (expiry e')); simpl; [|by left].
    destruct (decide (k' = k)) as [->|Hne].
    + rewrite lookup_delete_eq. right. split; [done|].
      rewrite Hk in Hk'. injection Hk' as <-. lia.
    + rewrite lookup_delete_ne by done. by left.
  - destruct Hq as [Hne _]. unfold cache_data.
    rewrite lookup_insert_ne by done. by left.
  - unfold clear_cache. rewrite lookup_delete_ne by done. by left.
Qed.

Lemma run_op_quiet_absent (o : Op) (k : string) (t : Z)
    (c : gmap string CacheEntry) :
  quiet k t o -> c !! k = None -> run_op o c !! k = None.
Proof.
  intros Hq Hk. destruct o as [s|s k'|s k' v' ttl|k']; unfold run_op, quiet in *.
  - by rewrite clear_expired_entries_lookup, Hk.
  - unfold get_cached_data. destruct (c !! k') as [e'|] eqn:Hk'; [|done].
    destruct (s >? expiry e'); simpl; [|done].
    destruct (decide (k' = k)) as [->|Hne];
      [by rewrite lookup_delete_eq | by rewrite lookup_delete_ne].
  - destruct Hq as [Hne _]. unfold cache_data. by rewrite lookup_insert_ne.
  - unfold clear_cache. by rewrite lookup_delete_ne.
Qed.

Lemma run_ops_quiet (ops : list Op) (k : string) (t : Z) (e : CacheEntry)
    (c : gmap string CacheEntry) :
  Forall (quiet k t) ops ->
  c !! k = Some e ->
  run_ops ops c !! k = Some e \/ (run_ops ops c !! k = None /\ expiry e < t).
Proof.
  unfold run_ops. revert c. induction ops as [|o ops IH]; intros c Hq Hk.
  - by left.
  - apply Forall_cons in Hq as [Ho Hq]. simpl.
    destruct (run_op_quiet o k t e c Ho Hk) as [Hs|[Hn Hlt]].
    + by apply IH.
    + right. split; [|done]. clear IH Hk Ho.
      revert Hn. generalize (run_op o c). induction ops as [|o' ops IH'];
        intros c' Hn; [done|].
      apply Forall_cons in Hq as [Ho' Hq]. simpl. apply IH'; [done|].
      by eapply run_op_quiet_absent.
Qed.

(** C7, as the code has it.  After [cache_data(k, v, T)] at clock reading
    [t0], and whatever sweeps, reads and writes of other keys happen in
    between, [get_cached_data(k)] at reading [t] returns [v] when
    [t <= t0 + T] and [None] when [t0 + T < t]: the entry is readable up to
    and including its expiry instant, and the check is made by the read
    itself, whether or not the sweeper has run. *)
Theorem get_cached_data_ttl (c : gmap string CacheEntry) (k : string)
    (v : PyVal) (T t0 t : Z) (ops : list Op) :
  Forall (quiet k t) ops ->
  let c' := run_ops ops (cache_data t0 k v T c) in
  (t <= t0 + T -> (get_cached_data t k c').1 = v) /\
  (t0 + T < t -> (get_cached_data t k c').1 = VNone).
Proof.
  intros Hq c'.
  assert (Hput : cache_data t0 k v T c !! k = Some (mkEntry v (t0 + T) t0))
    by apply lookup_insert_eq.
  destruct (run_ops_quiet ops k t _ _ Hq Hput) as [Hs|[Hn Hlt]];
    fold c' in Hs || fold c' in Hn; unfold get_cached_data; simpl in *.
  - rewrite Hs. simpl. split; intros Ht.
    + destruct (Z.gtb_spec t (t0 + T)); [lia|done].
    + destruct (Z.gtb_spec t (t0 + T)); [done|lia].
  - rewrite Hn. simpl. split; [lia|done].
Qed.

(** The sweeper running at minute 1 and a read of another key change
    nothing: the value is returned at the expiry instant 300. *)
Lemma get_cached_data_ttl_witness :
  Forall (quiet "sol_price" 300) [OSweep 60; OGet 70 "other"] /\
  (get_cached_data 300 "sol_price"
     (run_ops [OSweep 60; OGet 70 "other"]
        (cache_data 0 "sol_price" (VInt 42) 300 ∅))).1 = VInt 42.
Proof.
  assert (Hq : Forall (quiet "sol_price" 300) [OSweep 60; OGet 70 "other"])
    by (repeat constructor; simpl; lia).
  split; [exact Hq|].
  apply (get_cached_data_ttl ∅ "sol_price" (VInt 42) 300 0 300
           [OSweep 60; OGet 70 "other"] Hq).
  lia.
Defined.

(** C7 as the specification words it ("absent whenever now is not less
    than expiry") fails at the expiry instant itself: a value cached at
    reading 0 with a TTL of 5 is still returned at reading 5. *)
Lemma get_cached_data_at_expiry_instant :
  let c := cache_data 0 "k" (VInt 1) 5 ∅ in
  ~ (5 < 0 + 5) /\ (get_cached_data 5 "k" c).1 = VInt 1
  /\ (get_cached_data 5 "k" c).1 <> VNone.
Proof.
  simpl. split; [lia|]. split; [reflexivity|discriminate].
Qed.

(** *** The sweeper, the statistics and the reads *)

Lemma get_cached_data_value (t : Z) (k : string) (c : gmap string CacheEntry) :
  (get_cached_data t k c).1 =
  match c !! k with
  | Some e => if t >? expiry e then VNone else data e
  | None => VNone
  end.
Proof.
  unfold get_cached_data. destruct (c !! k) as [e|]; [|done].
  by destruct (t >? expiry e).
Qed.

Lemma get_cached_data_lookup (t : Z) (k k' : string)
    (c : gmap string CacheEntry) :
  (get_cached_data t k c).2 !! k' =
  match c !! k' with
  | Some e => if decide (k' = k) then
                if t >? expiry e then None else Some e
              else Some e
  | None => None
  end.
Proof.
  unfold get_cached_data. destruct (decide (k' = k)) as [->|Hne].
  - destruct (c !! k) as [e|] eqn:Hk; simpl; [|by rewrite Hk].
    destruct (t >? expiry e); simpl; [by rewrite lookup_delete_eq|by rewrite Hk].
  - destruct (c !! k) as [e|] eqn:Hk; simpl; [|by destruct (c !! k')].
    destruct (t >? expiry e); simpl;
      [rewrite lookup_delete_ne by done|]; by destruct (c !! k').
Qed.

(** What the sweeper leaves is the cache filtered by "not yet expired". *)
Lemma clear_expired_entries_filter (now : Z) (c : gmap string CacheEntry) :
  (clear_expired_entries now c).2 =
  filter (fun ke => now <= expiry ke.2) c.
Proof.
  apply map_eq. intros k. rewrite clear_expired_entries_lookup.
  destruct (c !! k) as [e|] eqn:Hk.
  - destruct (Z.gtb_spec now (expiry e)) as [Hgt|Hle]; symmetry.
    + apply map_lookup_filter_None. right. intros e' He'. simpl.
      rewrite Hk in He'. injection He' as <-. lia.
    + by apply map_lookup_filter_Some.
  - symmetry. apply map_lookup_filter_None. by left.
Qed.

Lemma map_to_list_filter_perm (P : string * CacheEntry -> Prop)
    `{!forall x, Decision (P x)} (c : gmap string CacheEntry) :
  map_to_list (filter P c) ≡ₚ filter P (map_to_list c).
Proof.
  apply NoDup_Permutation.
  - apply NoDup_map_to_list.
  - apply NoDup_filter, NoDup_map_to_list.
  - intros [k e]. rewrite elem_of_map_to_list, map_lookup_filter_Some.
    rewrite list_elem_of_filter, elem_of_map_to_list. tauto.
Qed.

Lemma length_filter_split {A} (P Q : A -> Prop) `{!forall x, Decision (P x)}
    `{!forall x, Decision (Q x)} (l : list A) :
  (forall x, P x <-> ~ Q x) ->
  (length (filter P l) + length (filter Q l) = length l)%nat.
Proof.
  intros HPQ. induction l as [|x l IH]; [done|].
  rewrite !filter_cons. specialize (HPQ x).
  destruct (decide (P x)), (decide (Q x)); simpl; try lia; tauto.
Qed.

Lemma filter_snd_fmap (P : CacheEntry -> Prop) `{!forall x, Decision (P x)}
    (l : list (string * CacheEntry)) :
  filter P (l.*2) = (filter (fun ke => P ke.2) l).*2.
Proof.
  induction l as [|[k e] l IH]; [done|].
  rewrite fmap_cons, !filter_cons. simpl.
  destruct (decide (P e)); simpl; by rewrite IH.
Qed.

Lemma filter_filter_same {A} (P : A -> Prop) `{!forall x, Decision (P x)}
    (l : list A) :
  filter P (filter P l) = filter P l.
Proof.
  induction l as [|x l IH]; [done|]. rewrite filter_cons.
  destruct (decide (P x)) as [HP|HP]; [|done].
  rewrite filter_cons, decide_True by done. by rewrite IH.
Qed.

Lemma filter_filter_none {A} (P Q : A -> Prop) `{!forall x, Decision (P x)}
    `{!forall x, Decision (Q x)} (l : list A) :
  (forall x, P x -> ~ Q x) ->
  filter Q (filter P l) = [].
Proof.
  intros HPQ. induction l as [|x l IH]; [done|]. rewrite filter_cons.
  destruct (decide (P x)) as [HP|HP]; [|done].
  rewrite filter_cons, decide_False by auto. done.
Qed.

Lemma foldr_add_perm (l1 l2 : list Z) :
  l1 ≡ₚ l2 -> foldr Z.add 0 l1 = foldr Z.add 0 l2.
Proof. induction 1; simpl; lia. Qed.

Lemma foldr_add_nonneg (l : list Z) :
  Forall (fun z => 0 <= z) l -> 0 <= foldr Z.add 0 l.
Proof. induction 1; simpl; lia. Qed.

(** One sweep or read that runs no later than [t] does not change what a
    read at [t] returns, for any key. *)
Lemma run_op_looks_only (o : Op) (t : Z) (k : string)
    (c : gmap string CacheEntry) :
  looks_only t o ->
  (get_cached_data t k (run_op o c)).1 = (get_cached_data t k c).1.
Proof.
  intros Hl. rewrite !get_cached_data_value.
  destruct o as [s|s k'|s k' v' ttl|k']; unfold run_op, looks_only in *;
    try done.
  - rewrite clear_expired_entries_lookup. destruct (c !! k) as [e|]; [|done].
    destruct (Z.gtb_spec s (expiry e)); [|done].
    destruct (Z.gtb_spec t (expiry e)); [done|lia].
  - rewrite get_cached_data_lookup. destruct (c !! k) as [e|]; [|done].
    destruct (decide (k = k')); [|done].
    destruct (Z.gtb_spec s (expiry e)); [|done].
    destruct (Z.gtb_spec t (expiry e)); [done|lia].
Qed.

Lemma clear_expired_entries_size (now : Z) (c : gmap string CacheEntry) :
  (size (clear_expired_entries now c).2 + (clear_expired_entries now c).1 =
   size c)%nat.
Proof.
  rewrite clear_expired_entries_filter.
  unfold clear_expired_entries. cbn [fst].
  rewrite <- !length_map_to_list, map_to_list_filter_perm.
  apply length_filter_split. intros [k e]. simpl. lia.
Qed.

(** The sweeper removes exactly the entries that have expired at its clock
    reading, and reports how many they were: what is left, with the count,
    makes up the cache it found; an entry is still there exactly when its
    expiry has not passed; and a further sweep at the same or an earlier
    reading finds nothing to remove. *)
Theorem clear_expired_entries_sweeps_exactly (now : Z)
    (c : gmap string CacheEntry) :
  let r := clear_expired_entries now c in
  (size r.2 + r.1 = size c)%nat /\
  (forall k e, r.2 !! k = Some e <-> c !! k = Some e /\ now <= expiry e) /\
  (forall s, s <= now -> clear_expired_entries s r.2 = (0%nat, r.2)).
Proof.
  intros r. subst r. split; [|split].
  - apply clear_expired_entries_size.
  - intros k e. rewrite clear_expired_entries_lookup.
    destruct (c !! k) as [e'|]; [|split; [done|by intros [? _]]].
    destruct (Z.gtb_spec now (expiry e')).
    + split; [done|]. intros [[= ->] ?]. lia.
    + split; [intros [= ->]; by split|by intros [? _]].
  - intros s Hs. rewrite clear_expired_entries_filter.
    unfold clear_expired_entries.
    assert (Hnone : filter (fun ke : string * CacheEntry => expiry ke.2 < s)
              (map_to_list (filter (fun ke => now <= expiry ke.2) c)) = []).
    { apply Permutation_nil_r.
      rewrite map_to_list_filter_perm.
      rewrite filter_filter_none; [done|]. intros [k e]. simpl. lia. }
    by rewrite Hnone.
Qed.

(** The statistics agree with the sweeper.  At one clock reading, the
    number of expired entries reported is the number the sweeper removes;
    active and expired entries add up to the total; and once the sweeper
    has run, the statistics show no expired entry, the same active entries
    and the same average remaining lifetime, which is never negative. *)
Theorem get_cache_stats_agrees_with_sweeper (now : Z)
    (c : gmap string CacheEntry) :
  let st := get_cache_stats now c in
  let r := clear_expired_entries now c in
  let st' := get_cache_stats now r.2 in
  expired_entries st = Z.of_nat r.1 /\
  total_entries st = active_entries st + expired_entries st /\
  0 <= active_entries st /\
  expired_entries st' = 0 /\
  total_entries st' = active_entries st /\
  active_entries st' = active_entries st /\
  avg_remaining_ttl_seconds st' = avg_remaining_ttl_seconds st /\
  (0 <= avg_remaining_ttl_seconds st)%Q.
Proof.
  intros st r st'.
  assert (Hexp : expired_entries st = Z.of_nat r.1).
  { unfold st, r, get_cache_stats, clear_expired_entries. cbn [expired_entries fst].
    by rewrite (filter_snd_fmap (fun e => expiry e < now)), length_fmap. }
  assert (Hsize : (size r.2 + r.1 = size c)%nat)
    by apply (clear_expired_entries_size now c).
  assert (Hvals : (map_to_list r.2).*2 ≡ₚ
                  filter (fun e => now <= expiry e) (map_to_list c).*2).
  { unfold r. rewrite clear_expired_entries_filter, map_to_list_filter_perm.
    by rewrite (filter_snd_fmap (fun e => now <= expiry e)). }
  assert (Hexp' : expired_entries st' = 0).
  { unfold st', get_cache_stats. cbn [expired_entries].
    rewrite Hvals, filter_filter_none; [done|]. intros e. lia. }
  assert (Hact : active_entries st = Z.of_nat (size c) - expired_entries st)
    by reflexivity.
  assert (Htot : total_entries st = active_entries st + expired_entries st)
    by (rewrite Hact; change (total_entries st) with (Z.of_nat (size c)); lia).
  assert (Htot' : total_entries st' = active_entries st).
  { change (total_entries st') with (Z.of_nat (size r.2)). lia. }
  assert (Hact' : active_entries st' = active_entries st).
  { change (active_entries st') with
      (Z.of_nat (size r.2) - expired_entries st'). lia. }
  assert (Hsum : forall l : list CacheEntry,
            0 <= foldr Z.add 0 ((fun e => Z.max 0 (expiry e - now)) <$> l)).
  { intros l. apply foldr_add_nonneg, Forall_fmap, Forall_forall.
    intros e _. simpl. lia. }
  repeat split; try done.
  - lia.
  - pose proof Hact' as Ha.
    unfold st', st, get_cache_stats in Ha |- *.
    cbn [active_entries avg_remaining_ttl_seconds] in Ha |- *.
    rewrite Ha. destruct (0 <? _); [|done]. f_equal.
    apply foldr_add_perm. rewrite Hvals. by rewrite filter_filter_same.
  - unfold st, get_cache_stats. cbn [avg_remaining_ttl_seconds].
    destruct (0 <? _); [|done]. unfold Qle. simpl. specialize (Hsum
      (filter (fun e => now <= expiry e) (map_to_list c).*2)). lia.
Qed.

(** Sweeps and reads are invisible to later reads: whatever sweeps and
    reads of any keys run before a read at [t], that read returns what it
    would have returned without them. *)
Theorem sweeps_and_reads_are_invisible (ops : list Op) (t : Z) (k : string)
    (c : gmap string CacheEntry) :
  Forall (looks_only t) ops ->
  (get_cached_data t k (run_ops ops c)).1 = (get_cached_data t k c).1.
Proof.
  unfold run_ops. revert c. induction ops as [|o ops IH]; intros c Hl; [done|].
  apply Forall_cons in Hl as [Ho Hl]. simpl.
  rewrite IH by done. by apply run_op_looks_only.
Qed.

(** The sweeper at minute 1 and at minute 2 and a read in between do not
    change what the read at reading 150 returns. *)
Lemma sweeps_and_reads_are_invisible_witness :
  Forall (looks_only 150) [OSweep 60; OGet 90 "sol_price"; OSweep 120] /\
  (get_cached_data 150 "sol_price"
     (run_ops [OSweep 60; OGet 90 "sol_price"; OSweep 120]
        (cache_data 0 "sol_price" (VInt 42) 100 ∅))).1 =
  (get_cached_data 150 "sol_price"
     (cache_data 0 "sol_price" (VInt 42) 100 ∅)).1.
Proof.
  assert (Hl : Forall (looks_only 150)
                 [OSweep 60; OGet 90 "sol_price"; OSweep 120])
    by (repeat constructor; simpl; lia).
  split; [exact Hl|].
  exact (sweeps_and_reads_are_invisible _ 150 "sol_price" _ Hl).
Defined.

(** A cleared key stays cleared.  After [clear_cache(k)] or
    [clear_cache()], and whatever sweeps, reads and writes of other keys
    follow, a read of [k] returns [None]. *)
Theorem cleared_key_reads_none (ops : list Op) (t : Z) (k : string)
    (key : option string) (c : gmap string CacheEntry) :
  Forall (quiet k t) ops ->
  key = None \/ key = Some k ->
  (get_cached_data t k (run_ops ops (clear_cache key c))).1 = VNone.
Proof.
  intros Hq Hkey.
  assert (Habs : clear_cache key c !! k = None).
  { destruct Hkey as [->| ->]; unfold clear_cache;
      [apply lookup_empty|apply lookup_delete_eq]. }
  rewrite get_cached_data_value.
  enough (run_ops ops (clear_cache key c) !! k = None) as -> by done.
  revert Habs. generalize (clear_cache key c). unfold run_ops.
  induction ops as [|o ops IH]; intros c' Hc'; [done|].
  apply Forall_cons in Hq as [Ho Hq]. simpl. apply IH; [done|].
  by eapply run_op_quiet_absent.
Qed.

(** A price is cached, the key is cleared, another key is written and the
    sweeper runs: the price is gone. *)
Lemma cleared_key_reads_none_witness :
  Forall (quiet "sol_price" 100) [OPut 10 "other" (VInt 1) 300; OSweep 60] /\
  (get_cached_data 100 "sol_price"
     (run_ops [OPut 10 "other" (VInt 1) 300; OSweep 60]
        (clear_cache (Some "sol_price")
           (cache_data 0 "sol_price" (VInt 42) 300 ∅)))).1 = VNone.
Proof.
  assert (Hq : Forall (quiet "sol_price" 100)
                 [OPut 10 "other" (VInt 1) 300; OSweep 60])
    by (repeat constructor; simpl; (lia || done)).
  split; [exact Hq|].
  exact (cleared_key_reads_none _ 100 "sol_price" (Some "sol_price") _ Hq
           (or_intror eq_refl)).
Defined.

(** A read changes the cache in one way only: it evicts the entry it was
    asked for when that entry has expired.  Every other key is left as it
    was, a read that returns a value leaves the whole cache as it was, and
    the cache never grows. *)
Theorem get_cached_data_evicts_only_its_expired_key (t : Z) (k : string)
    (c : gmap string CacheEntry) :
  let r := get_cached_data t k c in
  (forall k', k' <> k -> r.2 !! k' = c !! k') /\
  (r.1 <> VNone -> r.2 = c) /\
  (r.2 !! k = match c !! k with
              | Some e => if t >? expiry e then None else Some e
              | None => None
              end) /\
  r.2 ⊆ c.
Proof.
  intros r. subst r. split; [|split; [|split]].
  - intros k' Hne. rewrite get_cached_data_lookup.
    destruct (c !! k'); [|done]. by rewrite decide_False.
  - unfold get_cached_data. destruct (c !! k) as [e|]; [|done].
    by destruct (t >? expiry e).
  - rewrite get_cached_data_lookup. destruct (c !! k); [|done].
    by rewrite decide_True.
  - apply map_subseteq_spec. intros k' e'. rewrite get_cached_data_lookup.
    destruct (c !! k') as [e|]; [|done].
    destruct (decide (k' = k)); [|done]. by destruct (t >? expiry e).
Qed.

End Cache.

(* ===================================================================== *)
(** ** Python operations on JSON values *)
(* ===================================================================== *)

Module PyOps.

(** [needle in hay] for two strings. *)
Fixpoint is_substring (needle hay : string) : bool :=
  String.prefix needle hay ||
  match hay with
  | EmptyString => false
  | String _ hay' => is_substring needle hay'
  end.

(** [key in v] for a string [key]: dictionary membership, list
    membership, substring; [TypeError] on what is not a container. *)
Definition contains (key : string) (v : PyVal) : Res bool :=
  match v with
  | VDict d => Ok (bool_decide (is_Some (d !! key)))
  | VList l => Ok (existsb (num_eqb (VStr key)) l)
  | VStr s => Ok (is_substring key s)
  | _ => Raise (TypeError "argument is not iterable")
  end.

(** [any(n in hay for n in needles)]: stops at the first hit, and a
    [TypeError] of the first test ends it. *)
Fixpoint any_in (needles : list string) (hay : PyVal) : Res bool :=
  match needles with
  | [] => Ok false
  | n :: rest =>
      match contains n hay with
      | Raise e => Raise e
      | Ok true => Ok true
      | Ok false => any_in rest hay
      end
  end.

(** [v[key]] for a string [key]. *)
Definition getitem (v : PyVal) (key : string) : Res PyVal :=
  match v with
  | VDict d =>
      match d !! key with
      | Some x => Ok x
      | None => Raise (mkExn "KeyError" key)
      end
  | VList _ => Raise (TypeError "list indices must be integers or slices, not str")
  | VStr _ => Raise (TypeError "string indices must be integers, not 'str'")
  | _ => Raise (TypeError "object is not subscriptable")
  end.

(** [v.get(key, dflt)]: only dictionaries have [get]. *)
Definition dict_get (v : PyVal) (key : string) (dflt : PyVal) : Res PyVal :=
  match v with
  | VDict d => Ok (get_or d key dflt)
  | _ => Raise (mkExn "AttributeError" "object has no attribute 'get'")
  end.

(** [len(v)]. *)
Definition len (v : PyVal) : Res Z :=
  match v with
  | VStr s => Ok (Z.of_nat (String.length s))
  | VList l => Ok (Z.of_nat (length l))
  | VDict d => Ok (Z.of_nat (size d))
  | _ => Raise (TypeError "object has no len()")
  end.

(** The first character of a string: its first byte and the UTF-8
    continuation bytes that follow it. *)
Fixpoint continuation_bytes (s : string) : string :=
  match s with
  | String a rest =>
      if (128 <=? Z.of_N (Ascii.N_of_ascii a)) && (Z.of_N (Ascii.N_of_ascii a) <? 192)
      then String a (continuation_bytes rest)
      else EmptyString
  | EmptyString => EmptyString
  end.

(** [v[0]]. *)
Definition getitem0 (v : PyVal) : Res PyVal :=
  match v with
  | VList (x :: _) => Ok x
  | VList [] => Raise (mkExn "IndexError" "list index out of range")
  | VStr (String a rest) => Ok (VStr (String a (continuation_bytes rest)))
  | VStr EmptyString => Raise (mkExn "IndexError" "string index out of range")
  | VDict _ => Raise (mkExn "KeyError" "0")
  | _ => Raise (TypeError "object is not subscriptable")
  end.

(** [v[k1][k2]...[kn]] for string keys. *)
Fixpoint getpath (v : PyVal) (keys : list string) : Res PyVal :=
  match keys with
  | [] => Ok v
  | k :: rest =>
      match getitem v k with
      | Ok x => getpath x rest
      | Raise e => Raise e
      end
  end.

Lemma contains_singleton (k : string) (v : PyVal) :
  contains k (VDict {[ k := v ]}) = Ok true.
Proof.
  unfold contains. rewrite lookup_singleton_eq.
  by rewrite bool_decide_true by eauto.
Qed.

Lemma getitem_singleton (k : string) (v : PyVal) :
  getitem (VDict {[ k := v ]}) k = Ok v.
Proof. unfold getitem. by rewrite lookup_singleton_eq. Qed.

End PyOps.
Export PyOps.

(* ===================================================================== *)
(** ** src/blockchain/solana_client.py *)
(* ===================================================================== *)

Module Solana.

Local Open Scope py_scope.

(** What the process does to the outside world, in the order it does it.
    The world of this module is the history of such events. *)
Inductive Event : Type :=
| EvSendRaw (tx : string)          (* client.send_raw_transaction(bytes(signed_tx), ...) *)
| EvConfirm (txid : PyVal)         (* client.confirm_transaction(txid.value, ...) *)
| EvRpcPost (method : string)      (* requests.post(rpc_url, json={"method": ...}) *)
| EvGetBalance (pubkey : string)   (* client.get_balance(pubkey) *)
| EvJupiterPost                    (* requests.post(JUPITER_SWAP_URL, ...) *)
| EvSleep (secs : Z).              (* time.sleep(secs) *)

(** An object handed back by the RPC client: its truth value and its
    [value] attribute, when it has one. *)
Record RpcResp : Type := mkResp {
  resp_truthy : bool;
  resp_value : option PyVal
}.

(** A [requests] response: status code, what [json()] gives, and text. *)
Record HttpResponse : Type := mkHttp {
  status_code : Z;
  json : Res PyVal;
  text : string
}.

(** Is the event a submission of a transaction to the network? *)
Definition is_submission (e : Event) : bool :=
  match e with
  | EvSendRaw _ => true
  | EvRpcPost method => String.eqb method "sendTransaction"
  | _ => false
  end.

Definition is_sleep (e : Event) : bool :=
  match e with EvSleep _ => true | _ => false end.

(** The seconds slept in a history. *)
Definition slept (evs : list Event) : Z :=
  foldr (fun e acc => match e with EvSleep s => s + acc | _ => acc end) 0 evs.

(** The submissions and sleeps of a history, in order. *)
Definition schedule_of (evs : list Event) : list Event :=
  List.filter (fun e => is_submission e || is_sleep e) evs.

(** [time.sleep(secs)]: raises [ValueError] on a negative length. *)
Definition sleep (secs : Z) : @M (list Event) unit :=
  fun w =>
    if secs <? 0
    then (Raise (mkExn "ValueError" "sleep length must be non-negative"), w)
    else (Ok tt, w ++ [EvSleep secs]).

(** [{"error": {"message": msg}}] and [{"result": v}]. *)
Definition error_message (msg : string) : gmap string PyVal :=
  {[ "error" := VDict {[ "message" := VStr msg ]} ]}.

Definition result_of (v : PyVal) : gmap string PyVal :=
  {[ "result" := v ]}.

(** The placeholder signature of 64 ones. *)
Definition placeholder_signature : string :=
  "1111111111111111111111111111111111111111111111111111111111111111".

Definition retryable_errors : list string :=
  ["timeout"; "rate limit"; "too busy"; "blockhash"; "timed out"].

(** *** Concrete nodes *)

(** A wallet that signs anything, a node that is down, one that only
    answers with the placeholder, and one that reports an empty wallet. *)
Definition sign_ok : PyVal -> Res string := fun _ => Ok "signed-bytes".

Definition node_down {A} : list Event -> Res A :=
  fun _ => Raise (mkExn "ConnectionError" "node unreachable").

Definition confirm_ok : list Event -> Res unit := fun _ => Ok tt.

Definition placeholder_node : list Event -> Res HttpResponse :=
  fun _ =>
    Ok (mkHttp 200
          (Ok (VDict {[ "result" := VStr placeholder_signature ]})) "").

Definition empty_wallet_node : list Event -> Res RpcResp :=
  fun _ => Ok (mkResp true (Some (VInt 0))).

(** A node that turns every transaction down with the same RPC error, and
    a gateway that answers every request with the same HTTP status. *)
Definition rejecting_node (message : string) : list Event -> Res HttpResponse :=
  fun _ =>
    Ok (mkHttp 200
          (Ok (VDict {[ "error" := VDict {[ "message" := VStr message ]} ]})) "").

Definition failing_gateway (code : Z) : list Event -> Res HttpResponse :=
  fun _ => Ok (mkHttp code (Raise (mkExn "JSONDecodeError" "no body")) "").

(** A node that accepts the first submission. *)
Definition accepting_node (txid : string) : list Event -> Res RpcResp :=
  fun _ => Ok (mkResp true (Some (VStr txid))).

Section Node.

(** The outside world.  Every answer may depend on all that happened
    before the call. *)

(** Lines 127-135: base64-decode, parse, sign with the wallet, rebuild the
    signed transaction; gives the bytes to submit, or raises. *)
Variable prepare : PyVal -> Res string.
Variable send_raw_transaction : list Event -> Res RpcResp.
Variable confirm_transaction : list Event -> Res unit.
Variable rpc_post : list Event -> Res HttpResponse.
Variable get_balance : list Event -> Res RpcResp.
Variable wallet_pubkey : string.

Definition call_send_raw (tx : string) : @M (list Event) RpcResp :=
  fun w => (send_raw_transaction w, w ++ [EvSendRaw tx]).

Definition call_confirm (txid : PyVal) : @M (list Event) unit :=
  fun w => (confirm_transaction w, w ++ [EvConfirm txid]).

Definition call_rpc_post (method : string) : @M (list Event) HttpResponse :=
  fun w => (rpc_post w, w ++ [EvRpcPost method]).

Definition call_get_balance (pubkey : string) : @M (list Event) RpcResp :=
  fun w => (get_balance w, w ++ [EvGetBalance pubkey]).

(** [retry_delay * (2 ** attempt)]. *)
Definition backoff (retry_delay : Z) (attempt : nat) : Z :=
  retry_delay * 2 ^ Z.of_nat attempt.

(** [if attempt < max_retries - 1: time.sleep(...); continue], after which
    control reaches the next iteration either way. *)
Definition backoff_if_attempts_left (max_retries retry_delay : Z)
    (attempt : nat) : @M (list Event) unit :=
  if Z.of_nat attempt <? max_retries - 1
  then sleep (backoff retry_delay attempt)
  else ret tt.

(** One pass through the body of the [for] loop of
    [send_serialized_transaction]: [Some r] when the pass returns [r] from
    the function, [None] when the loop goes on. *)
Definition send_attempt (max_retries retry_delay : Z) (signed_tx : string)
    (attempt : nat) : @M (list Event) (option (gmap string PyVal)) :=
  try_except
    (txid <- call_send_raw signed_tx ;;
     match resp_truthy txid, resp_value txid with
     | true, Some v =>
         try_except (call_confirm v) (fun confirm_error => ret tt) ;;;
         ret (Some (result_of v))
     | _, _ =>
         backoff_if_attempts_left max_retries retry_delay attempt ;;;
         ret None
     end)
    (fun e =>
       backoff_if_attempts_left max_retries retry_delay attempt ;;;
       ret None).

Fixpoint send_loop (max_retries retry_delay : Z) (signed_tx : string)
    (attempts : list nat) : @M (list Event) (gmap string PyVal) :=
  match attempts with
  | [] => ret (error_message "All transaction attempts failed")
  | attempt :: rest =>
      r <- send_attempt max_retries retry_delay signed_tx attempt ;;
      match r with
      | Some d => ret d
      | None => send_loop max_retries retry_delay signed_tx rest
      end
  end.

(** [send_serialized_transaction(serialized_tx_base64, max_retries,
    retry_delay)]. *)
Definition send_serialized_transaction (serialized_tx_base64 : PyVal)
    (max_retries retry_delay : Z) : @M (list Event) (gmap string PyVal) :=
  try_except
    (signed_tx <- lift (prepare serialized_tx_base64) ;;
     send_loop max_retries retry_delay signed_tx
       (seq 0 (Z.to_nat max_retries)))
    (fun e => ret (error_message (exn_msg e))).

(** One pass through the body of the [for] loop of
    [send_serialized_transaction_fallback]. *)
Definition fallback_attempt (max_retries retry_delay : Z) (attempt : nat)
    : @M (list Event) (option (gmap string PyVal)) :=
  try_except
    (response <- call_rpc_post "sendTransaction" ;;
     if status_code response =? 200 then
       result <- lift (json response) ;;
       has_result <- lift (contains "result" result) ;;
       if has_result then
         tx_sig <- lift (getitem result "result") ;;
         if num_eqb tx_sig (VStr placeholder_signature) then
           if Z.of_nat attempt <? max_retries - 1
           then sleep (backoff retry_delay attempt) ;;; ret None
           else ret (Some (result_of tx_sig))
         else ret (Some (result_of tx_sig))
       else
         has_error <- lift (contains "error" result) ;;
         if has_error then
           err <- lift (dict_get result "error" (VDict ∅)) ;;
           error_msg <- lift (dict_get err "message" (VStr "Unknown error")) ;;
           retryable <- lift (any_in retryable_errors error_msg) ;;
           if retryable then
             if Z.of_nat attempt <? max_retries - 1
             then sleep (backoff retry_delay attempt) ;;; ret None
             else
               e <- lift (getitem result "error") ;;
               ret (Some ({[ "error" := e ]} : gmap string PyVal))
           else
             e <- lift (getitem result "error") ;;
             ret (Some ({[ "error" := e ]} : gmap string PyVal))
         else ret None
     else
       if Z.of_nat attempt <? max_retries - 1
       then sleep (backoff retry_delay attempt) ;;; ret None
       else ret (Some (error_message
                         ("HTTP error: " +:+ pretty (status_code response)))))
    (fun e =>
       if Z.of_nat attempt <? max_retries - 1
       then sleep (backoff retry_delay attempt) ;;; ret None
       else ret (Some (error_message (exn_msg e)))).

Fixpoint fallback_loop (max_retries retry_delay : Z) (attempts : list nat)
    : @M (list Event) (gmap string PyVal) :=
  match attempts with
  | [] => ret (error_message "All transaction attempts failed")
  | attempt :: rest =>
      r <- fallback_attempt max_retries retry_delay attempt ;;
      match r with
      | Some d => ret d
      | None => fallback_loop max_retries retry_delay rest
      end
  end.

(** [send_serialized_transaction_fallback(serialized_tx_base64,
    max_retries, retry_delay)].  The payload is built from the argument
    without inspecting it. *)
Definition send_serialized_transaction_fallback
    (serialized_tx_base64 : PyVal) (max_retries retry_delay : Z)
    : @M (list Event) (gmap string PyVal) :=
  fallback_loop max_retries retry_delay (seq 0 (Z.to_nat max_retries)).

(** [get_wallet_balance(pubkey)]; [None] stands for the default argument,
    which is replaced by the wallet's own key. *)
Definition get_wallet_balance (pubkey : option string)
    : @M (list Event) PyVal :=
  let pubkey := default wallet_pubkey pubkey in
  try_except
    (balance_resp <- call_get_balance pubkey ;;
     balance_lamports <-
       lift (match resp_value balance_resp with
             | Some v => Ok v
             | None => Raise (mkExn "AttributeError" "no attribute 'value'")
             end) ;;
     lift (truediv_1e9 balance_lamports))
    (fun e =>
       try_except
         (response <- call_rpc_post "getBalance" ;;
          if status_code response =? 200 then
            result <- lift (json response) ;;
            has_result <- lift (contains "result" result) ;;
            has_value <-
              (if has_result
               then inner <- lift (getitem result "result") ;;
                    lift (contains "value" inner)
               else ret false) ;;
            if has_value then
              inner <- lift (getitem result "result") ;;
              lamports <- lift (getitem inner "value") ;;
              lift (truediv_1e9 lamports)
            else ret (VInt 0)
          else ret (VInt 0))
         (fun fallback_error => ret (VInt 0))).

(** Python's [int(x)], [10 ** x] and [x / y] on the values of a reply. *)
Variable py_int : PyVal -> Res PyVal.
Variable pow10 : PyVal -> Res PyVal.
Variable truediv : PyVal -> PyVal -> Res PyVal.

(** [get_token_balance(token_mint, owner_pubkey)]; [None] stands for the
    default owner, the wallet's own key. *)
Definition get_token_balance (token_mint : PyVal) (owner_pubkey : option string)
    : @M (list Event) PyVal :=
  let owner_pubkey := default wallet_pubkey owner_pubkey in
  try_except
    (response <- call_rpc_post "getTokenAccountsByOwner" ;;
     if status_code response =? 200 then
       result <- lift (json response) ;;
       has_result <- lift (contains "result" result) ;;
       has_value <-
         (if has_result
          then inner <- lift (getitem result "result") ;;
               lift (contains "value" inner)
          else ret false) ;;
       if has_value then
         accounts <- lift (getpath result ["result"; "value"]) ;;
         if negb (truthy accounts) then ret (VInt 0)
         else
           account <- lift (getitem0 accounts) ;;
           token_amount <-
             lift (getpath account
                     ["account"; "data"; "parsed"; "info"; "tokenAmount"]) ;;
           raw <- lift (getitem token_amount "amount") ;;
           amount <- lift (py_int raw) ;;
           decimals <- lift (getitem token_amount "decimals") ;;
           scale <- lift (pow10 decimals) ;;
           lift (truediv amount scale)
       else ret (VInt 0)
     else ret (VInt 0))
    (fun e => ret (VInt 0)).

(** *** Schedules and failures, for the statements below *)
(** The reply is an HTTP 200 whose first account parses all the way down
    to an amount and a number of decimals, and [v] is the quotient the code
    computes from them. *)
Definition reply_gives_balance (resp : HttpResponse) (v : PyVal) : Prop :=
  exists body accounts account token_amount raw amount decimals scale,
    status_code resp = 200 /\
    json resp = Ok body /\
    getpath body ["result"; "value"] = Ok accounts /\
    truthy accounts = true /\
    getitem0 accounts = Ok account /\
    getpath account ["account"; "data"; "parsed"; "info"; "tokenAmount"] =
      Ok token_amount /\
    getitem token_amount "amount" = Ok raw /\ py_int raw = Ok amount /\
    getitem token_amount "decimals" = Ok decimals /\
    pow10 decimals = Ok scale /\
    truediv amount scale = Ok v.


(** What one failed attempt leaves in the history: the submission, and a
    backoff sleep when an attempt is left. *)
Definition attempt_schedule (max_retries retry_delay : Z) (tx : string)
    (attempt : nat) : list Event :=
  EvSendRaw tx ::
  (if Z.of_nat attempt <? max_retries - 1
   then [EvSleep (backoff retry_delay attempt)] else []).

Fixpoint full_schedule (max_retries retry_delay : Z) (tx : string)
    (attempts : list nat) : list Event :=
  match attempts with
  | [] => []
  | a :: rest =>
      attempt_schedule max_retries retry_delay tx a ++
      full_schedule max_retries retry_delay tx rest
  end.

(** A submission fails when the client raises or hands back nothing with
    a transaction id. *)
Definition submission_fails (r : Res RpcResp) : Prop :=
  match r with
  | Raise _ => True
  | Ok resp => resp_truthy resp = false \/ resp_value resp = None
  end.

(** Every reply of the node is HTTP 200 carrying the placeholder. *)
Definition always_placeholder : Prop :=
  forall h, exists txt,
    rpc_post h =
    Ok (mkHttp 200 (Ok (VDict {[ "result" := VStr placeholder_signature ]})) txt).

(** What the fallback path leaves in the history when no attempt returns:
    a POST per attempt, and a backoff sleep after each but the last. *)
Fixpoint fallback_schedule (max_retries retry_delay : Z)
    (attempts : list nat) : list Event :=
  match attempts with
  | [] => []
  | a :: rest =>
      EvRpcPost "sendTransaction" ::
      (if Z.of_nat a <? max_retries - 1
       then [EvSleep (backoff retry_delay a)] else []) ++
      fallback_schedule max_retries retry_delay rest
  end.

Lemma schedule_of_app (evs1 evs2 : list Event) :
  schedule_of (evs1 ++ evs2) = schedule_of evs1 ++ schedule_of evs2.
Proof. apply List.filter_app. Qed.

Lemma send_attempt_spec (n d : Z) (tx : string) (a : nat) (w : list Event) :
  exists evs,
    (send_attempt n d tx a w).2 = w ++ evs /\
    match (send_attempt n d tx a w).1 with
    | Ok None => schedule_of evs = attempt_schedule n d tx a
    | _ => schedule_of evs = [EvSendRaw tx]
    end /\
    (submission_fails (send_raw_transaction w) -> 0 <= d ->
     (send_attempt n d tx a w).1 = Ok None).
Proof.
  assert (Hb : 0 <= d -> (backoff d a <? 0) = false).
  { intros Hd. unfold backoff. apply Z.ltb_ge.
    apply Z.mul_nonneg_nonneg; [done|]. apply Z.pow_nonneg. lia. }
  unfold send_attempt, try_except, bind, call_send_raw, call_confirm,
    backoff_if_attempts_left, attempt_schedule, sleep, ret, submission_fails.
  destruct (send_raw_transaction w) as [[[] [v|]]|e]; simpl.
  1: { destruct (confirm_transaction (w ++ [EvSendRaw tx])); simpl;
         (exists [EvSendRaw tx; EvConfirm v];
          rewrite <- app_assoc; split; [done|]; split; [done|];
          intros [?|?]; done). }
  all: destruct (Z.of_nat a <? n - 1); simpl;
         [|exists [EvSendRaw tx]; done].
  all: destruct (backoff d a <? 0) eqn:Hneg; simpl;
         [ exists [EvSendRaw tx]; split; [done|]; split; [done|];
           intros _ Hd; by specialize (Hb Hd)
         | exists [EvSendRaw tx; EvSleep (backoff d a)];
           rewrite <- app_assoc; done ].
Qed.

Lemma send_loop_spec (n d : Z) (tx : string) (attempts : list nat)
    (w : list Event) :
  exists evs,
    (send_loop n d tx attempts w).2 = w ++ evs /\
    schedule_of evs `prefix_of` full_schedule n d tx attempts /\
    ((forall h, submission_fails (send_raw_transaction h)) -> 0 <= d ->
     (send_loop n d tx attempts w).1 =
       Ok (error_message "All transaction attempts failed") /\
     schedule_of evs = full_schedule n d tx attempts).
Proof.
  revert w. induction attempts as [|a rest IH]; intros w.
  - exists []. simpl. rewrite app_nil_r. done.
  - destruct (send_attempt_spec n d tx a w) as (evs1 & Hw & Hs & Hf).
    cbn [send_loop full_schedule]. unfold bind.
    destruct (send_attempt n d tx a w) as [[[d0|]|e] w1] eqn:Ha;
      simpl in Hw, Hs, Hf; subst w1.
    + exists evs1. simpl. split; [done|]. rewrite Hs. split.
      * unfold attempt_schedule. simpl. apply prefix_cons, prefix_nil.
      * intros Hall Hd. by specialize (Hf (Hall w) Hd).
    + destruct (IH (w ++ evs1)) as (evs2 & Hw2 & Hp & Hf2).
      exists (evs1 ++ evs2). rewrite Hw2, app_assoc. split; [done|].
      rewrite schedule_of_app, Hs. split; [by apply prefix_app|].
      intros Hall Hd. destruct (Hf2 Hall Hd) as [-> ->]. done.
    + exists evs1. simpl. split; [done|]. rewrite Hs. split.
      * unfold attempt_schedule. simpl. apply prefix_cons, prefix_nil.
      * intros Hall Hd. by specialize (Hf (Hall w) Hd).
Qed.

Lemma submissions_of_schedule (evs : list Event) :
  List.filter is_submission evs = List.filter is_submission (schedule_of evs).
Proof.
  unfold schedule_of. induction evs as [|e evs IH]; [done|]. simpl.
  destruct (is_submission e) eqn:Hsub; simpl; rewrite ?Hsub.
  - by rewrite IH.
  - destruct (is_sleep e); simpl; rewrite ?Hsub; done.
Qed.

Lemma slept_of_schedule (evs : list Event) :
  slept evs = slept (schedule_of evs).
Proof.
  unfold schedule_of. induction evs as [|e evs IH]; [done|].
  destruct e; simpl; try done; try (by rewrite IH).
  destruct (String.eqb method "sendTransaction"); simpl; done.
Qed.

(** C5, as the code has it, for [max_retries = 3] and base delay [d].
    Whatever the node answers: at most three submissions are made, and
    submissions and sleeps follow the plan "submit, sleep d, submit, sleep
    2d, submit" (the sleep after attempt [k], counted from 0, is
    [d * 2^k]) up to the point where the call ends.  When every submission
    fails the call returns the error result after the whole plan, having
    slept [d * (1 + 2)] seconds: no sleep follows the last attempt. *)
Theorem send_serialized_transaction_retry_bound (tx : PyVal) (d : Z)
    (w : list Event) :
  exists evs,
    (send_serialized_transaction tx 3 d w).2 = w ++ evs /\
    (length (List.filter is_submission evs) <= 3)%nat /\
    (forall signed, prepare tx = Ok signed ->
       schedule_of evs `prefix_of`
         [EvSendRaw signed; EvSleep (d * 2 ^ 0);
          EvSendRaw signed; EvSleep (d * 2 ^ 1);
          EvSendRaw signed]) /\
    (forall signed, prepare tx = Ok signed ->
       (forall h, submission_fails (send_raw_transaction h)) -> 0 <= d ->
       (send_serialized_transaction tx 3 d w).1 =
         Ok (error_message "All transaction attempts failed") /\
       schedule_of evs =
         [EvSendRaw signed; EvSleep (d * 2 ^ 0);
          EvSendRaw signed; EvSleep (d * 2 ^ 1);
          EvSendRaw signed] /\
       slept evs = d * (1 + 2)).
Proof.
  unfold send_serialized_transaction, try_except, bind, lift.
  destruct (prepare tx) as [signed|e] eqn:Hprep.
  - destruct (send_loop_spec 3 d signed (seq 0 (Z.to_nat 3)) w)
      as (evs & Hw & Hp & Hf).
    change (full_schedule 3 d signed (seq 0 (Z.to_nat 3))) with
      [EvSendRaw signed; EvSleep (d * 2 ^ 0);
       EvSendRaw signed; EvSleep (d * 2 ^ 1);
       EvSendRaw signed] in Hp, Hf.
    exists evs.
    destruct (send_loop 3 d signed (seq 0 (Z.to_nat 3)) w) as [[r|e] w'] eqn:Hl;
      simpl in Hw |- *; (split; [done|]); split.
    1,3: rewrite submissions_of_schedule;
         destruct Hp as [k Hk];
         apply (f_equal (List.filter is_submission)) in Hk;
         rewrite List.filter_app in Hk; simpl in Hk;
         apply (f_equal (@length _)) in Hk;
         rewrite length_app in Hk; simpl in Hk; lia.
    all: split; [intros s [= <-]; exact Hp|].
    all: intros s [= <-] Hall Hd; destruct (Hf Hall Hd) as [Hr Hs];
         simpl in Hr; try discriminate.
    injection Hr as ->. split; [done|]. split; [done|].
    rewrite slept_of_schedule, Hs. simpl. lia.
  - exists []. simpl. rewrite app_nil_r. split; [done|]. split; [lia|].
    split; intros s [=].
Qed.

(** *** The fallback path and the placeholder signature *)

Lemma fallback_attempt_placeholder (n d : Z) (a : nat) (w : list Event) :
  always_placeholder -> 0 <= d ->
  fallback_attempt n d a w =
  if Z.of_nat a <? n - 1
  then (Ok None, w ++ [EvRpcPost "sendTransaction"; EvSleep (backoff d a)])
  else (Ok (Some (result_of (VStr placeholder_signature))),
        w ++ [EvRpcPost "sendTransaction"]).
Proof.
  intros Hp Hd. destruct (Hp w) as [txt Hw].
  assert (Hb : (backoff d a <? 0) = false).
  { unfold backoff. apply Z.ltb_ge.
    apply Z.mul_nonneg_nonneg; [done|]. apply Z.pow_nonneg. lia. }
  unfold fallback_attempt, try_except, bind, call_rpc_post, lift.
  rewrite Hw. cbn [status_code json].
  change (200 =? 200) with true. cbv iota.
  rewrite contains_singleton, getitem_singleton.
  cbn [num_eqb]. rewrite String.eqb_refl.
  destruct (Z.of_nat a <? n - 1); [|done].
  unfold sleep, ret. rewrite Hb. by rewrite <- app_assoc.
Qed.

(** On a node that only ever answers with the placeholder, the fallback
    path backs off and retries while attempts are left, and then hands the
    placeholder back as the result of the last attempt. *)
Lemma fallback_loop_placeholder (n d : Z) (m k : nat) (w : list Event) :
  always_placeholder -> 0 <= d ->
  Z.of_nat k + Z.of_nat (S m) = n ->
  fallback_loop n d (seq k (S m)) w =
  (Ok (result_of (VStr placeholder_signature)),
   w ++ fallback_schedule n d (seq k (S m))).
Proof.
  intros Hp Hd. revert k w. induction m as [|m IH]; intros k w Hn.
  - cbn [seq fallback_loop fallback_schedule]. unfold bind.
    rewrite fallback_attempt_placeholder by done.
    destruct (Z.ltb_spec (Z.of_nat k) (n - 1)); [lia|done].
  - change (seq k (S (S m))) with (k :: seq (S k) (S m)).
    cbn [fallback_loop fallback_schedule]. unfold bind.
    rewrite fallback_attempt_placeholder by done.
    destruct (Z.ltb_spec (Z.of_nat k) (n - 1)); [|lia].
    rewrite (IH (S k)) by lia. by rewrite <- app_assoc.
Qed.

(** C6 on the code.  Against a node that answers every attempt with the
    placeholder signature, for any positive number of attempts and any
    delay: the fallback path does back off and retry after every attempt
    but the last, and the last attempt returns the placeholder as
    [{"result": ...}], not an error. *)
Theorem send_serialized_transaction_fallback_returns_placeholder
    (tx : PyVal) (n d : Z) (w : list Event) :
  always_placeholder -> 0 < n -> 0 <= d ->
  send_serialized_transaction_fallback tx n d w =
  (Ok (result_of (VStr placeholder_signature)),
   w ++ fallback_schedule n d (seq 0 (Z.to_nat n))).
Proof.
  intros Hp Hn Hd. unfold send_serialized_transaction_fallback.
  destruct (Z.to_nat n) as [|m] eqn:Hm; [lia|].
  apply fallback_loop_placeholder; [done..|lia].
Qed.

(** *** The balance query *)

(** C10, as the code has it.  [get_wallet_balance] never raises.  Its
    answer is the balance the client reported, or the balance in a
    well-formed HTTP 200 reply of the direct call, and the integer 0 in
    every other case; in particular when both calls raise.  A balance read
    from a reply is always a float, so a wallet that really holds 0
    lamports gives [0.0]: a number that Python's [==] and truth test do not
    tell from the [0] of a failure, and that differs from it in type. *)
Theorem get_wallet_balance_never_raises (pubkey : option string)
    (w : list Event) :
  let pk := default wallet_pubkey pubkey in
  let w1 := w ++ [EvGetBalance pk] in
  (exists v, (get_wallet_balance pubkey w).1 = Ok v /\
     (v = VInt 0 \/
      (exists t lamports,
         get_balance w = Ok (mkResp t (Some lamports)) /\
         truediv_1e9 lamports = Ok v) \/
      (exists resp body inner lamports,
         rpc_post w1 = Ok resp /\ status_code resp = 200 /\
         json resp = Ok body /\ getitem body "result" = Ok inner /\
         getitem inner "value" = Ok lamports /\
         truediv_1e9 lamports = Ok v))) /\
  (forall e1 e2, get_balance w = Raise e1 -> rpc_post w1 = Raise e2 ->
     (get_wallet_balance pubkey w).1 = Ok (VInt 0)) /\
  (forall lamports v, truediv_1e9 lamports = Ok v -> exists f, v = VFloat f) /\
  (forall t, get_balance w = Ok (mkResp t (Some (VInt 0))) ->
     (get_wallet_balance pubkey w).1 = Ok (VFloat 0%float) /\
     num_eqb (VInt 0) (VFloat 0%float) = true /\
     truthy (VFloat 0%float) = truthy (VInt 0) /\
     VFloat 0%float <> VInt 0).
Proof.
  intros pk w1. unfold get_wallet_balance, try_except, bind, call_get_balance,
    call_rpc_post, lift, ret. fold pk. fold w1.
  split; [|split; [|split]].
  - destruct (get_balance w) as [[t [lam|]]|e1]; simpl.
    1: destruct (truediv_1e9 lam) as [v|e] eqn:Hdiv; simpl;
         [exists v; split; [done|]; right; left; eauto|].
    all: destruct (rpc_post w1) as [resp|e2]; simpl; [|eauto].
    all: destruct (Z.eqb_spec (status_code resp) 200) as [Hst|Hst]; [|eauto].
    all: destruct (json resp) as [body|ej] eqn:Hj; simpl; [|eauto].
    all: destruct (contains "result" body) as [[]|ec]; simpl; [|eauto..].
    all: destruct (getitem body "result") as [inner|eg] eqn:Hg; simpl; [|eauto].
    all: destruct (contains "value" inner) as [[]|ec]; simpl; [|eauto..].
    all: destruct (getitem inner "value") as [lamports|eg] eqn:Hg2; simpl;
           [|eauto].
    all: destruct (truediv_1e9 lamports) as [v|ed] eqn:Hd; simpl; [|eauto].
    all: exists v; split; [done|]; right; right;
           exists resp, body, inner, lamports; done.
  - intros e1 e2 -> ->. done.
  - intros lamports v Hv. unfold truediv_1e9 in Hv.
    destruct lamports as [|b|z|f|s|l|d]; try discriminate.
    + injection Hv as <-. eauto.
    + destruct (PrimFloat.is_infinity _); [discriminate|].
      injection Hv as <-. eauto.
    + injection Hv as <-. eauto.
  - intros t ->. simpl. split; [reflexivity|]. split; [reflexivity|].
    split; [reflexivity|discriminate].
Qed.

(** *** More on the submission path *)

Lemma slept_app (evs1 evs2 : list Event) :
  slept (evs1 ++ evs2) = slept evs1 + slept evs2.
Proof.
  unfold slept. induction evs1 as [|e evs1 IH]; [done|].
  simpl. destruct e; lia.
Qed.

Lemma submissions_full_schedule (n d : Z) (tx : string) (attempts : list nat) :
  length (List.filter is_submission (full_schedule n d tx attempts)) =
  length attempts.
Proof.
  induction attempts as [|a rest IH]; [done|].
  cbn [full_schedule]. unfold attempt_schedule.
  destruct (Z.of_nat a <? n - 1); simpl; by rewrite IH.
Qed.

Lemma slept_full_schedule (n d : Z) (tx : string) (m a : nat) :
  Z.of_nat a + Z.of_nat (S m) = n ->
  slept (full_schedule n d tx (seq a (S m))) =
  d * (2 ^ (n - 1) - 2 ^ Z.of_nat a).
Proof.
  revert a. induction m as [|m IH]; intros a Hn.
  - cbn [seq full_schedule]. unfold attempt_schedule.
    destruct (Z.ltb_spec (Z.of_nat a) (n - 1)); [lia|]. simpl.
    replace (n - 1) with (Z.of_nat a) by lia. lia.
  - change (seq a (S (S m))) with (a :: seq (S a) (S m)).
    cbn [full_schedule]. unfold attempt_schedule.
    destruct (Z.ltb_spec (Z.of_nat a) (n - 1)); [|lia].
    rewrite slept_app, (IH (S a)) by lia. unfold backoff. simpl.
    replace (Z.of_nat (S a)) with (Z.of_nat a + 1) by lia.
    rewrite Z.pow_add_r by lia. lia.
Qed.

(** What [send_loop] can answer: the transaction id of a submission the
    node accepted, or the error of the exhausted loop; what it raises is
    caught by the caller. *)
Lemma send_loop_answer (n d : Z) (tx : string) (attempts : list nat)
    (w : list Event) :
  match (send_loop n d tx attempts w).1 with
  | Ok r =>
      (exists h v, send_raw_transaction h = Ok (mkResp true (Some v)) /\
                   r = result_of v) \/
      r = error_message "All transaction attempts failed"
  | Raise _ => True
  end.
Proof.
  revert w. induction attempts as [|a rest IH]; intros w; [by right|].
  cbn [send_loop]. unfold bind.
  destruct (send_attempt n d tx a w) as [[[r|]|e] w1] eqn:Ha; [| |done].
  - left. revert Ha.
    unfold send_attempt, try_except, bind, call_send_raw, call_confirm,
      backoff_if_attempts_left, sleep, ret.
    destruct (send_raw_transaction w) as [[[] [v|]]|e] eqn:Hraw; simpl.
    1: destruct (confirm_transaction (w ++ [EvSendRaw tx])); simpl;
         intros [= <- <-]; eauto.
    all: destruct (Z.of_nat a <? n - 1); simpl; try discriminate.
    all: destruct (backoff d a <? 0); simpl; discriminate.
  - apply IH.
Qed.

(** [send_serialized_transaction] never raises.  It answers with
    [{"result": id}] only for an id that the node handed back for a
    submission, and with [{"error": {"message": ...}}] otherwise.  When the
    transaction cannot be decoded or signed, the message is that of the
    exception and nothing is submitted; with no attempt allowed
    ([max_retries <= 0]) nothing is submitted either. *)
Theorem send_serialized_transaction_answers (tx : PyVal) (n d : Z)
    (w : list Event) :
  exists r evs,
    send_serialized_transaction tx n d w = (Ok r, w ++ evs) /\
    ((exists h v, send_raw_transaction h = Ok (mkResp true (Some v)) /\
                  r = result_of v) \/
     exists message, r = error_message message) /\
    (forall e, prepare tx = Raise e ->
       r = error_message (exn_msg e) /\ evs = []) /\
    (forall signed, prepare tx = Ok signed -> n <= 0 ->
       r = error_message "All transaction attempts failed" /\ evs = []).
Proof.
  unfold send_serialized_transaction, try_except, bind, lift.
  destruct (prepare tx) as [signed|e] eqn:Hprep.
  - destruct (send_loop_spec n d signed (seq 0 (Z.to_nat n)) w)
      as (evs & Hw & _ & _).
    pose proof (send_loop_answer n d signed (seq 0 (Z.to_nat n)) w) as Hans.
    destruct (send_loop n d signed (seq 0 (Z.to_nat n)) w) as [[r|e] w'] eqn:Hl;
      simpl in Hw, Hans; subst w'.
    + exists r, evs. split; [done|]. split.
      * destruct Hans as [?| ->]; [by left|right; eauto].
      * split; [done|]. intros s [= <-] Hn.
        replace (Z.to_nat n) with 0%nat in Hl by lia. simpl in Hl.
        injection Hl as <- Hevs. split; [done|].
        by apply (app_inv_head w), symmetry; rewrite app_nil_r.
    + exists (error_message (exn_msg e)), evs. split; [done|].
      split; [right; eauto|]. split; [done|]. intros s [= <-] Hn.
      replace (Z.to_nat n) with 0%nat in Hl by lia. discriminate.
  - exists (error_message (exn_msg e)), []. rewrite app_nil_r.
    split; [done|]. split; [right; eauto|]. split; [|done].
    by intros e' [= <-].
Qed.

(** The first submission that the node accepts ends the call: its id is
    the result, no retry and no sleep follow, and a confirmation that
    fails does not change the answer. *)
Theorem send_serialized_transaction_first_success (tx : PyVal)
    (signed : string) (v : PyVal) (n d : Z) (w : list Event) :
  prepare tx = Ok signed ->
  0 < n ->
  send_raw_transaction w = Ok (mkResp true (Some v)) ->
  send_serialized_transaction tx n d w =
  (Ok (result_of v), w ++ [EvSendRaw signed; EvConfirm v]).
Proof.
  intros Hprep Hn Hraw.
  unfold send_serialized_transaction, try_except, bind, lift. rewrite Hprep.
  destruct (Z.to_nat n) as [|m] eqn:Hm; [lia|].
  cbn [seq send_loop]. unfold bind, send_attempt, try_except, bind,
    call_send_raw, call_confirm, ret.
  rewrite Hraw. simpl.
  destruct (confirm_transaction (w ++ [EvSendRaw signed])); simpl;
    by rewrite <- app_assoc.
Qed.

(** When every submission fails, for any number of attempts [n] and any
    delay [d >= 0]: the call makes [n] submissions (none when [n <= 0]),
    sleeps [d * (2^(n-1) - 1)] seconds in all, and answers with the error
    ["All transaction attempts failed"]. *)
Theorem send_serialized_transaction_all_attempts_fail (tx : PyVal)
    (signed : string) (n d : Z) (w : list Event) :
  prepare tx = Ok signed ->
  (forall h, submission_fails (send_raw_transaction h)) ->
  0 <= d ->
  exists evs,
    send_serialized_transaction tx n d w =
      (Ok (error_message "All transaction attempts failed"), w ++ evs) /\
    length (List.filter is_submission evs) = Z.to_nat n /\
    slept evs = if 0 <? n then d * (2 ^ (n - 1) - 1) else 0.
Proof.
  intros Hprep Hall Hd.
  unfold send_serialized_transaction, try_except, bind, lift. rewrite Hprep.
  destruct (send_loop_spec n d signed (seq 0 (Z.to_nat n)) w)
    as (evs & Hw & _ & Hf).
  destruct (Hf Hall Hd) as [Hr Hs]. exists evs.
  destruct (send_loop n d signed (seq 0 (Z.to_nat n)) w) as [r w'].
  simpl in Hw, Hr. subst. split; [done|]. split.
  - by rewrite submissions_of_schedule, Hs, submissions_full_schedule,
      length_seq.
  - rewrite slept_of_schedule, Hs.
    destruct (Z.ltb_spec 0 n) as [Hpos|Hneg].
    + destruct (Z.to_nat n) as [|m] eqn:Hm; [lia|].
      rewrite slept_full_schedule by lia. simpl. lia.
    + by replace (Z.to_nat n) with 0%nat by lia.
Qed.

(** *** More on the fallback path *)

(** An RPC error that is not one of the retryable kinds is handed back at
    once: one request, no sleep, and the node's [error] object as the
    answer. *)
Theorem send_serialized_transaction_fallback_rpc_error (tx : PyVal) (n d : Z)
    (w : list Event) (body err : gmap string PyVal) (txt : string) :
  0 < n ->
  rpc_post w = Ok (mkHttp 200 (Ok (VDict body)) txt) ->
  body !! "result" = None ->
  body !! "error" = Some (VDict err) ->
  any_in retryable_errors (get_or err "message" (VStr "Unknown error")) =
    Ok false ->
  send_serialized_transaction_fallback tx n d w =
  (Ok {[ "error" := VDict err ]}, w ++ [EvRpcPost "sendTransaction"]).
Proof.
  intros Hn Hpost Hres Herr Hany.
  unfold send_serialized_transaction_fallback.
  destruct (Z.to_nat n) as [|m] eqn:Hm; [lia|].
  cbn [seq fallback_loop]. unfold bind, fallback_attempt, try_except, bind,
    call_rpc_post, lift.
  rewrite Hpost. cbn [status_code json].
  change (200 =? 200) with true. cbv iota.
  unfold contains, getitem, dict_get. rewrite Hres, Herr.
  rewrite bool_decide_false by (by intros [? ?]).
  rewrite bool_decide_true by eauto.
  cbv iota. rewrite (get_or_Some body "error" _ _ Herr). cbv iota.
  by rewrite Hany.
Qed.

Lemma fallback_attempt_http_error (code n d : Z) (a : nat) (w : list Event) :
  code <> 200 ->
  (forall h, exists body txt, rpc_post h = Ok (mkHttp code body txt)) ->
  0 <= d ->
  fallback_attempt n d a w =
  if Z.of_nat a <? n - 1
  then (Ok None, w ++ [EvRpcPost "sendTransaction"; EvSleep (backoff d a)])
  else (Ok (Some (error_message ("HTTP error: " +:+ pretty code))),
        w ++ [EvRpcPost "sendTransaction"]).
Proof.
  intros Hcode Hp Hd. destruct (Hp w) as (body & txt & Hw).
  assert (Hb : (backoff d a <? 0) = false).
  { unfold backoff. apply Z.ltb_ge.
    apply Z.mul_nonneg_nonneg; [done|]. apply Z.pow_nonneg. lia. }
  unfold fallback_attempt, try_except, bind, call_rpc_post, lift.
  rewrite Hw. cbn [status_code].
  destruct (Z.eqb_spec code 200); [done|].
  destruct (Z.of_nat a <? n - 1); [|done].
  unfold sleep, ret. rewrite Hb. by rewrite <- app_assoc.
Qed.

Lemma fallback_loop_http_error (code n d : Z) (m k : nat) (w : list Event) :
  code <> 200 ->
  (forall h, exists body txt, rpc_post h = Ok (mkHttp code body txt)) ->
  0 <= d ->
  Z.of_nat k + Z.of_nat (S m) = n ->
  fallback_loop n d (seq k (S m)) w =
  (Ok (error_message ("HTTP error: " +:+ pretty code)),
   w ++ fallback_schedule n d (seq k (S m))).
Proof.
  intros Hcode Hp Hd. revert k w. induction m as [|m IH]; intros k w Hn.
  - cbn [seq fallback_loop fallback_schedule]. unfold bind.
    rewrite (fallback_attempt_http_error code) by done.
    destruct (Z.ltb_spec (Z.of_nat k) (n - 1)); [lia|done].
  - change (seq k (S (S m))) with (k :: seq (S k) (S m)).
    cbn [fallback_loop fallback_schedule]. unfold bind.
    rewrite (fallback_attempt_http_error code) by done.
    destruct (Z.ltb_spec (Z.of_nat k) (n - 1)); [|lia].
    rewrite (IH (S k)) by lia. by rewrite <- app_assoc.
Qed.

(** Behind a gateway that answers every request with the same HTTP status
    other than 200, the fallback path backs off and retries after every
    attempt but the last, and then answers with the error
    ["HTTP error: <status>"]: here the last attempt does report the
    failure. *)
Theorem send_serialized_transaction_fallback_http_error (tx : PyVal)
    (code n d : Z) (w : list Event) :
  code <> 200 ->
  (forall h, exists body txt, rpc_post h = Ok (mkHttp code body txt)) ->
  0 < n -> 0 <= d ->
  send_serialized_transaction_fallback tx n d w =
  (Ok (error_message ("HTTP error: " +:+ pretty code)),
   w ++ fallback_schedule n d (seq 0 (Z.to_nat n))).
Proof.
  intros Hcode Hp Hn Hd. unfold send_serialized_transaction_fallback.
  destruct (Z.to_nat n) as [|m] eqn:Hm; [lia|].
  apply (fallback_loop_http_error code); [done..|lia].
Qed.

(** *** The token balance *)

(** [get_token_balance] never raises and makes exactly one request.  Its
    answer is the integer 0 unless the reply is an HTTP 200 whose first
    account parses all the way down to an amount and a number of decimals;
    then it is the quotient the code computes.  A failed request, another
    status or an empty list of accounts all give 0. *)
Theorem get_token_balance_never_raises (token_mint : PyVal)
    (owner_pubkey : option string) (w : list Event) :
  exists v,
    get_token_balance token_mint owner_pubkey w =
      (Ok v, w ++ [EvRpcPost "getTokenAccountsByOwner"]) /\
    (v = VInt 0 \/
     exists resp, rpc_post w = Ok resp /\ reply_gives_balance resp v) /\
    (forall e, rpc_post w = Raise e -> v = VInt 0) /\
    (forall resp, rpc_post w = Ok resp -> status_code resp <> 200 ->
       v = VInt 0) /\
    (forall resp body, rpc_post w = Ok resp -> json resp = Ok body ->
       getpath body ["result"; "value"] = Ok (VList []) -> v = VInt 0).
Proof.
  unfold get_token_balance, try_except, bind, call_rpc_post, lift, ret.
  set (w1 := w ++ [EvRpcPost "getTokenAccountsByOwner"]).
  destruct (rpc_post w) as [resp|e0] eqn:Hpost; cbv beta iota zeta.
  2: { exists (VInt 0). split; [done|]. split; [by left|].
       split; [done|]. split; intros; discriminate. }
  destruct (Z.eqb_spec (status_code resp) 200) as [Hst|Hst].
  2: { exists (VInt 0). split; [done|]. split; [by left|]. split; [done|].
       split; [done|]. intros r' b' [= <-] _ _. done. }
  destruct (json resp) as [body|ej] eqn:Hj; cbv beta iota zeta.
  2: { exists (VInt 0). split; [done|]. split; [by left|]. split; [done|].
       split; [intros r' [= <-] ?; done|]. intros r' b' [= <-]. done. }
  assert (Hdone : forall v,
    (v = VInt 0 \/ reply_gives_balance resp v) ->
    (getpath body ["result"; "value"] = Ok (VList []) -> v = VInt 0) ->
    exists v', (Ok v, w1) = (Ok v', w1) /\
      (v' = VInt 0 \/
       exists resp0, Ok resp = Ok resp0 /\ reply_gives_balance resp0 v') /\
      (forall e, Ok resp = Raise e -> v' = VInt 0) /\
      (forall r', Ok resp = Ok r' -> status_code r' <> 200 -> v' = VInt 0) /\
      (forall resp0 body0, Ok resp = Ok resp0 -> json resp0 = Ok body0 ->
         getpath body0 ["result"; "value"] = Ok (VList []) -> v' = VInt 0)).
  { intros v H1 H2. exists v. split; [done|]. split.
    - destruct H1 as [?|?]; [by left|right; eauto].
    - split; [done|]. split; [by intros r' [= <-] ?|].
      intros resp0 body0 [= <-] Hj0. rewrite Hj in Hj0.
      injection Hj0 as <-. done. }
  assert (Hz : exists v', (Ok (VInt 0), w1) = (Ok v', w1) /\
      (v' = VInt 0 \/
       exists resp0, Ok resp = Ok resp0 /\ reply_gives_balance resp0 v') /\
      (forall e, Ok resp = Raise e -> v' = VInt 0) /\
      (forall r', Ok resp = Ok r' -> status_code r' <> 200 -> v' = VInt 0) /\
      (forall resp0 body0, Ok resp = Ok resp0 -> json resp0 = Ok body0 ->
         getpath body0 ["result"; "value"] = Ok (VList []) -> v' = VInt 0))
    by (apply Hdone; [by left|done]).
  destruct (contains "result" body) as [[]|ec] eqn:Hc1; cbv beta iota zeta;
    [|exact Hz..].
  destruct (getitem body "result") as [inner|eg] eqn:Hg1; cbv beta iota zeta;
    [|exact Hz].
  destruct (contains "value" inner) as [[]|ec] eqn:Hc2; cbv beta iota zeta;
    [|exact Hz..].
  destruct (getpath body ["result"; "value"]) as [accounts|eg] eqn:Hpath;
    cbv beta iota zeta; [|exact Hz].
  destruct (truthy accounts) eqn:Hacc; cbv beta iota zeta; [|exact Hz].
  assert (Hne : forall v, Ok accounts = Ok (VList []) -> v = VInt 0)
    by (intros v [= ->]; discriminate).
  destruct (getitem0 accounts) as [account|e1] eqn:H0; cbv beta iota zeta;
    [|exact Hz].
  destruct (getpath account _) as [token_amount|e1] eqn:H1; cbv beta iota zeta;
    [|exact Hz].
  destruct (getitem token_amount "amount") as [raw|e1] eqn:H2;
    cbv beta iota zeta; [|exact Hz].
  destruct (py_int raw) as [amount|e1] eqn:H3; cbv beta iota zeta;
    [|exact Hz].
  destruct (getitem token_amount "decimals") as [decimals|e1] eqn:H4;
    cbv beta iota zeta; [|exact Hz].
  destruct (pow10 decimals) as [scale|e1] eqn:H5; cbv beta iota zeta;
    [|exact Hz].
  destruct (truediv amount scale) as [v|e1] eqn:H6; cbv beta iota zeta;
    [|exact Hz].
  apply Hdone; [|apply Hne]. right.
  exists body, accounts, account, token_amount, raw, amount, decimals, scale.
  repeat split; done.
Qed.

(** *** Facts used by the callers *)

Lemma send_serialized_transaction_exhausted (tx : PyVal) (signed : string)
    (n d : Z) (w : list Event) :
  prepare tx = Ok signed ->
  (forall h, submission_fails (send_raw_transaction h)) ->
  0 <= d ->
  exists evs,
    send_serialized_transaction tx n d w =
      (Ok (error_message "All transaction attempts failed"), w ++ evs) /\
    schedule_of evs = full_schedule n d signed (seq 0 (Z.to_nat n)).
Proof.
  intros Hprep Hall Hd.
  unfold send_serialized_transaction, try_except, bind, lift. rewrite Hprep.
  destruct (send_loop_spec n d signed (seq 0 (Z.to_nat n)) w)
    as (evs & Hw & _ & Hf).
  destruct (Hf Hall Hd) as [Hr Hs]. exists evs.
  destruct (send_loop n d signed (seq 0 (Z.to_nat n)) w) as [r w'].
  simpl in Hw, Hr. by subst.
Qed.

Lemma get_wallet_balance_returns (pubkey : option string) (w : list Event) :
  exists v evs,
    get_wallet_balance pubkey w = (Ok v, w ++ evs) /\
    List.filter is_submission evs = [].
Proof.
  unfold get_wallet_balance, try_except, bind, call_get_balance,
    call_rpc_post, lift, ret.
  set (pk := default wallet_pubkey pubkey).
  set (w1 := w ++ [EvGetBalance pk]).
  assert (H1 : forall v : PyVal, exists (v' : PyVal) evs,
            (Ok v, w1) = (Ok v', w ++ evs) /\
            List.filter is_submission evs = [])
    by (intros v; by exists v, [EvGetBalance pk]).
  assert (H2 : forall v : PyVal, exists (v' : PyVal) evs,
            (Ok v, w1 ++ [EvRpcPost "getBalance"]) = (Ok v', w ++ evs) /\
            List.filter is_submission evs = []).
  { intros v. exists v, [EvGetBalance pk; EvRpcPost "getBalance"].
    unfold w1. by rewrite <- app_assoc. }
  destruct (get_balance w) as [[t [lam|]]|e1]; simpl.
  1: destruct (truediv_1e9 lam) as [v|e]; simpl; [apply H1|].
  all: destruct (rpc_post w1) as [resp|e2]; simpl; [|apply H2].
  all: destruct (status_code resp =? 200); [|apply H2].
  all: destruct (json resp) as [body|ej]; simpl; [|apply H2].
  all: destruct (contains "result" body) as [[]|ec]; simpl;
         [|apply H2..].
  all: destruct (getitem body "result") as [inner|eg]; simpl;
         [|apply H2].
  all: destruct (contains "value" inner) as [[]|ec]; simpl;
         [|apply H2..].
  all: destruct (getitem inner "value") as [lamports|eg]; simpl;
         [|apply H2].
  all: destruct (truediv_1e9 lamports) as [v|ed]; apply H2.
Qed.

Lemma get_wallet_balance_both_fail (pubkey : option string) (w : list Event)
    (e1 e2 : Exn) :
  get_balance w = Raise e1 ->
  rpc_post (w ++ [EvGetBalance (default wallet_pubkey pubkey)]) = Raise e2 ->
  get_wallet_balance pubkey w =
  (Ok (VInt 0),
   w ++ [EvGetBalance (default wallet_pubkey pubkey); EvRpcPost "getBalance"]).
Proof.
  intros H1 H2. unfold get_wallet_balance, try_except, bind, call_get_balance,
    call_rpc_post, lift, ret.
  rewrite H1. cbv beta iota zeta. rewrite H2. by rewrite <- app_assoc.
Qed.

End Node.

(** With the node down and a base delay of 2 seconds, the three attempts
    are separated by sleeps of 2 and 4 seconds. *)
Lemma send_serialized_transaction_retry_bound_witness :
  (send_serialized_transaction sign_ok node_down confirm_ok
     (VStr "dHg=") 3 2 []).1 =
    Ok (error_message "All transaction attempts failed") /\
  slept (send_serialized_transaction sign_ok node_down confirm_ok
           (VStr "dHg=") 3 2 []).2 = 2 * (1 + 2).
Proof.
  destruct (send_serialized_transaction_retry_bound sign_ok node_down
              confirm_ok (VStr "dHg=") 2 []) as (evs & Hw & _ & _ & Hall).
  destruct (Hall "signed-bytes" eq_refl (fun _ => I) ltac:(lia))
    as (Hr & _ & Hs).
  split; [exact Hr|]. rewrite Hw. exact Hs.
Defined.

(** C5 as the specification words it (a total wait of about
    [d * (1 + 2 + 4)]) fails: with [d = 2] and every attempt failing the
    call sleeps 6 seconds in all, not 14. *)
Lemma send_serialized_transaction_total_sleep :
  let r := send_serialized_transaction sign_ok node_down confirm_ok
             (VStr "dHg=") 3 2 [] in
  r.1 = Ok (error_message "All transaction attempts failed") /\
  r.2 = [EvSendRaw "signed-bytes"; EvSleep 2;
         EvSendRaw "signed-bytes"; EvSleep 4;
         EvSendRaw "signed-bytes"] /\
  slept r.2 = 6 /\
  slept r.2 <> 2 * (1 + 2 + 4).
Proof.
  split; [reflexivity|]. split; [reflexivity|]. split; [reflexivity|].
  discriminate.
Qed.

(** Three attempts, two seconds of base delay: the first two placeholders
    are backed off and retried, the third is returned as the result. *)
Lemma send_serialized_transaction_fallback_returns_placeholder_witness :
  always_placeholder placeholder_node /\ 0 < 3 /\ 0 <= 2 /\
  send_serialized_transaction_fallback placeholder_node (VStr "dHg=") 3 2 [] =
  (Ok (result_of (VStr placeholder_signature)),
   [EvRpcPost "sendTransaction"; EvSleep 2;
    EvRpcPost "sendTransaction"; EvSleep 4;
    EvRpcPost "sendTransaction"]).
Proof.
  assert (Hp : always_placeholder placeholder_node)
    by (intros h; exists ""; reflexivity).
  split; [exact Hp|]. split; [lia|]. split; [lia|].
  exact (send_serialized_transaction_fallback_returns_placeholder
           placeholder_node (VStr "dHg=") 3 2 [] Hp ltac:(lia) ltac:(lia)).
Defined.

(** Both calls fail and the answer is 0; the wallet is empty and the
    answer is a float that equals 0. *)
Lemma get_wallet_balance_never_raises_witness :
  (get_wallet_balance node_down node_down "wallet-pubkey" None []).1 =
    Ok (VInt 0) /\
  (get_wallet_balance node_down empty_wallet_node "wallet-pubkey" None []).1 =
    Ok (VFloat 0%float) /\
  num_eqb (VInt 0) (VFloat 0%float) = true /\
  truthy (VFloat 0%float) = truthy (VInt 0) /\
  VFloat 0%float <> VInt 0.
Proof.
  split.
  - apply (proj1 (proj2 (get_wallet_balance_never_raises node_down node_down
                           "wallet-pubkey" None []))
             (mkExn "ConnectionError" "node unreachable")
             (mkExn "ConnectionError" "node unreachable")); reflexivity.
  - apply (proj2 (proj2 (proj2 (get_wallet_balance_never_raises node_down
                                  empty_wallet_node "wallet-pubkey" None [])))
             true). reflexivity.
Defined.

(** C10 as the specification words it (a returned 0 cannot be told from
    an empty wallet) fails: with both calls failing the answer is the int
    [0], for a wallet that holds 0 lamports it is the float [0.0], and the
    two answers are different values. *)
Lemma failed_query_differs_from_empty_wallet :
  let failed :=
    (get_wallet_balance node_down node_down "wallet-pubkey" None []).1 in
  let empty :=
    (get_wallet_balance node_down empty_wallet_node "wallet-pubkey" None []).1
  in
  failed = Ok (VInt 0) /\ empty = Ok (VFloat 0%float) /\ failed <> empty.
Proof. split; [reflexivity|]. split; [reflexivity|discriminate]. Qed.

(** The node accepts the first submission and is then unreachable for the
    confirmation: the id is returned all the same. *)
Lemma send_serialized_transaction_first_success_witness :
  sign_ok (VStr "dHg=") = Ok "signed-bytes" /\ 0 < 3 /\
  accepting_node "5VERv8NMvzbJMEkV8xnrLkEaWRtSz9CosKDYjCJjBRnb" [] =
    Ok (mkResp true (Some (VStr "5VERv8NMvzbJMEkV8xnrLkEaWRtSz9CosKDYjCJjBRnb"))) /\
  send_serialized_transaction sign_ok
    (accepting_node "5VERv8NMvzbJMEkV8xnrLkEaWRtSz9CosKDYjCJjBRnb") node_down
    (VStr "dHg=") 3 2 [] =
  (Ok (result_of (VStr "5VERv8NMvzbJMEkV8xnrLkEaWRtSz9CosKDYjCJjBRnb")),
   [EvSendRaw "signed-bytes";
    EvConfirm (VStr "5VERv8NMvzbJMEkV8xnrLkEaWRtSz9CosKDYjCJjBRnb")]).
Proof.
  split; [reflexivity|]. split; [lia|]. split; [reflexivity|].
  exact (send_serialized_transaction_first_success sign_ok
           (accepting_node "5VERv8NMvzbJMEkV8xnrLkEaWRtSz9CosKDYjCJjBRnb")
           node_down (VStr "dHg=") "signed-bytes" _ 3 2 []
           eq_refl ltac:(lia) eq_refl).
Defined.

(** Five attempts with a base delay of one second against a node that is
    down: five submissions, and sleeps of 1, 2, 4 and 8 seconds. *)
Lemma send_serialized_transaction_all_attempts_fail_witness :
  sign_ok (VStr "dHg=") = Ok "signed-bytes" /\
  (forall h, submission_fails (@node_down RpcResp h)) /\ 0 <= 1 /\
  exists evs,
    send_serialized_transaction sign_ok node_down confirm_ok
      (VStr "dHg=") 5 1 [] =
      (Ok (error_message "All transaction attempts failed"), [] ++ evs) /\
    length (List.filter is_submission evs) = 5%nat /\
    slept evs = 15.
Proof.
  split; [reflexivity|]. split; [intros h; exact I|]. split; [lia|].
  exact (send_serialized_transaction_all_attempts_fail sign_ok node_down
           confirm_ok (VStr "dHg=") "signed-bytes" 5 1 []
           eq_refl (fun _ => I) ltac:(lia)).
Defined.

(** The node turns the transaction down for lack of funds: the error comes
    back after a single request. *)
Lemma send_serialized_transaction_fallback_rpc_error_witness :
  0 < 3 /\
  send_serialized_transaction_fallback (rejecting_node "insufficient funds")
    (VStr "dHg=") 3 2 [] =
  (Ok {[ "error" := VDict {[ "message" := VStr "insufficient funds" ]} ]},
   [EvRpcPost "sendTransaction"]).
Proof.
  split; [lia|].
  exact (send_serialized_transaction_fallback_rpc_error
           (rejecting_node "insufficient funds") (VStr "dHg=") 3 2 []
           {[ "error" := VDict {[ "message" := VStr "insufficient funds" ]} ]}
           {[ "message" := VStr "insufficient funds" ]} ""
           ltac:(lia) eq_refl eq_refl eq_refl eq_refl).
Defined.

(** A gateway that answers 502 three times. *)
Lemma send_serialized_transaction_fallback_http_error_witness :
  502 <> 200 /\
  (forall h, exists body txt, failing_gateway 502 h = Ok (mkHttp 502 body txt)) /\
  0 < 3 /\ 0 <= 2 /\
  send_serialized_transaction_fallback (failing_gateway 502)
    (VStr "dHg=") 3 2 [] =
  (Ok (error_message "HTTP error: 502"),
   [EvRpcPost "sendTransaction"; EvSleep 2;
    EvRpcPost "sendTransaction"; EvSleep 4;
    EvRpcPost "sendTransaction"]).
Proof.
  assert (Hg : forall h, exists body txt,
            failing_gateway 502 h = Ok (mkHttp 502 body txt))
    by (intros h; eexists _, _; reflexivity).
  split; [lia|]. split; [exact Hg|]. split; [lia|]. split; [lia|].
  exact (send_serialized_transaction_fallback_http_error
           (failing_gateway 502) (VStr "dHg=") 502 3 2 []
           ltac:(lia) Hg ltac:(lia) ltac:(lia)).
Defined.

End Solana.

(* ===================================================================== *)
(** ** src/blockchain/solana_client.py: verify_transaction *)
(* ===================================================================== *)

Module Verify.

Local Open Scope py_scope.

(** What [verify_transaction] does to the outside world, in order. *)
Inductive Event : Type :=
| EvSleep (secs : Z)                    (* time.sleep(secs) *)
| EvGetTransaction (signature : PyVal). (* client.get_transaction(signature) *)

(** [tx_data.value]: its truth value and its [err] attribute, when it has
    one. *)
Record TxValue : Type := mkTxValue {
  value_truthy : bool;
  err : option PyVal
}.

(** What [client.get_transaction] hands back: its truth value and its
    [value] attribute, when it has one. *)
Record TxData : Type := mkTxData {
  data_truthy : bool;
  value : option TxValue
}.

Definition is_query (e : Event) : bool :=
  match e with EvGetTransaction _ => true | EvSleep _ => false end.

(** The seconds slept in a history. *)
Definition slept (evs : list Event) : Z :=
  foldr (fun e acc => match e with EvSleep s => s + acc | _ => acc end) 0 evs.

(** [time.sleep(secs)]: raises [ValueError] on a negative length. *)
Definition sleep (secs : Z) : @M (list Event) unit :=
  fun w =>
    if secs <? 0
    then (Raise (mkExn "ValueError" "sleep length must be non-negative"), w)
    else (Ok tt, w ++ [EvSleep secs]).

(** *** Concrete nodes *)

(** A node that has not seen the transaction, a node that is down, and a
    node that reports the transaction as landed without error. *)
Definition unseen_node : list Event -> Res TxData :=
  fun _ => Ok (mkTxData true (Some (mkTxValue false None))).

Definition down_node : list Event -> Res TxData :=
  fun _ => Raise (mkExn "ConnectionError" "node unreachable").

Definition landed_node : list Event -> Res TxData :=
  fun _ => Ok (mkTxData true (Some (mkTxValue true (Some VNone)))).

Section Node.

Variable get_transaction : list Event -> Res TxData.

Definition call_get_transaction (signature : PyVal) : @M (list Event) TxData :=
  fun w => (get_transaction w, w ++ [EvGetTransaction signature]).

(** One pass through the body of the [for] loop of [verify_transaction]:
    [Some b] when the pass returns [b] from the function, [None] when the
    loop goes on.  Reading [tx_data.value.err] for the log line raises when
    there is no such attribute. *)
Definition verify_attempt (max_retries retry_delay : Z) (signature : PyVal)
    (attempt : nat) : @M (list Event) (option bool) :=
  try_except
    (sleep retry_delay ;;;
     tx_data <- call_get_transaction signature ;;
     match value tx_data with
     | Some v =>
         if data_truthy tx_data && value_truthy v then
           match err v with
           | Some e =>
               if negb (truthy e) then ret (Some true) else ret (Some false)
           | None =>
               raise (mkExn "AttributeError" "object has no attribute 'err'")
           end
         else ret None
     | None => ret None
     end)
    (fun e =>
       if Z.of_nat attempt <? max_retries - 1
       then sleep (Solana.backoff retry_delay attempt) ;;; ret None
       else ret (Some false)).

Fixpoint verify_loop (max_retries retry_delay : Z) (signature : PyVal)
    (attempts : list nat) : @M (list Event) bool :=
  match attempts with
  | [] => ret false
  | attempt :: rest =>
      r <- verify_attempt max_retries retry_delay signature attempt ;;
      match r with
      | Some b => ret b
      | None => verify_loop max_retries retry_delay signature rest
      end
  end.

(** [verify_transaction(signature, max_retries, retry_delay)]. *)
Definition verify_transaction (signature : PyVal) (max_retries retry_delay : Z)
    : @M (list Event) bool :=
  verify_loop max_retries retry_delay signature (seq 0 (Z.to_nat max_retries)).

(** *** Answers of the node, for the statements below *)

(** The node does not know the transaction yet. *)
Definition not_found (r : Res TxData) : Prop :=
  match r with
  | Ok d =>
      data_truthy d = false \/
      match value d with
      | Some v => value_truthy v = false
      | None => True
      end
  | Raise _ => False
  end.

(** The query raises, or what it hands back has no [err] to read. *)
Definition query_fails (r : Res TxData) : Prop :=
  match r with
  | Ok d =>
      data_truthy d = true /\
      exists v, value d = Some v /\ value_truthy v = true /\ err v = None
  | Raise _ => True
  end.

(** The node reports the transaction with an [err] that is falsy. *)
Definition landed (r : Res TxData) : Prop :=
  exists v e, r = Ok (mkTxData true (Some v)) /\ value_truthy v = true /\
              err v = Some e /\ truthy e = false.

(** What the call leaves in the history while the node does not know the
    transaction: a wait and a query per attempt. *)
Fixpoint waiting_schedule (retry_delay : Z) (signature : PyVal)
    (attempts : list nat) : list Event :=
  match attempts with
  | [] => []
  | _ :: rest =>
      EvSleep retry_delay :: EvGetTransaction signature ::
      waiting_schedule retry_delay signature rest
  end.

(** And while every query fails: a wait, a query, and a backoff sleep
    after each attempt but the last. *)
Fixpoint failing_schedule (max_retries retry_delay : Z) (signature : PyVal)
    (attempts : list nat) : list Event :=
  match attempts with
  | [] => []
  | a :: rest =>
      EvSleep retry_delay :: EvGetTransaction signature ::
      (if Z.of_nat a <? max_retries - 1
       then [EvSleep (Solana.backoff retry_delay a)] else []) ++
      failing_schedule max_retries retry_delay signature rest
  end.

(** *** Properties of the verification *)

Lemma backoff_nonneg (d : Z) (a : nat) :
  0 <= d -> (Solana.backoff d a <? 0) = false.
Proof.
  intros Hd. unfold Solana.backoff. apply Z.ltb_ge.
  apply Z.mul_nonneg_nonneg; [done|]. apply Z.pow_nonneg. lia.
Qed.

Lemma verify_attempt_spec (n d : Z) (sig : PyVal) (a : nat) (w : list Event) :
  exists evs,
    (verify_attempt n d sig a w).2 = w ++ evs /\
    (length (List.filter is_query evs) <= 1)%nat /\
    match (verify_attempt n d sig a w).1 with
    | Ok (Some true) => exists h, landed (get_transaction h)
    | Ok _ => True
    | Raise _ => d < 0
    end.
Proof.
  unfold verify_attempt, try_except, bind, sleep, call_get_transaction, ret,
    raise.
  destruct (Z.ltb_spec d 0) as [Hneg|Hpos].
  - destruct (Z.of_nat a <? n - 1); [|exists []; rewrite app_nil_r; simpl; eauto].
    destruct (Solana.backoff d a <? 0); simpl.
    + exists []. rewrite app_nil_r. simpl. eauto.
    + eexists. split; [reflexivity|]. simpl. split; [lia|done].
  - pose proof (backoff_nonneg d a Hpos) as Hb.
    destruct (get_transaction (w ++ [EvSleep d])) as [[t [[vt [e|]]|]]|ex]
      eqn:Hq; simpl.
    + destruct t, vt; simpl.
      1: destruct (truthy e) eqn:He; simpl.
      all: try (exists [EvSleep d; EvGetTransaction sig];
                rewrite <- app_assoc; split; [done|]; split; [simpl; lia|];
                try done).
      exists (w ++ [EvSleep d]). exists (mkTxValue true (Some e)), e.
      rewrite Hq. done.
    + destruct t, vt; simpl.
      2-4: exists [EvSleep d; EvGetTransaction sig];
           rewrite <- app_assoc; split; [done|]; split; [simpl; lia|done].
      destruct (Z.of_nat a <? n - 1); simpl; rewrite ?Hb; simpl.
      * exists [EvSleep d; EvGetTransaction sig; EvSleep (Solana.backoff d a)].
        rewrite <- !app_assoc. split; [done|]. split; [simpl; lia|done].
      * exists [EvSleep d; EvGetTransaction sig].
        rewrite <- app_assoc. split; [done|]. split; [simpl; lia|done].
    + exists [EvSleep d; EvGetTransaction sig].
      rewrite <- app_assoc; split; [done|]; split; [simpl; lia|done].
    + destruct (Z.of_nat a <? n - 1); simpl; rewrite ?Hb; simpl.
      * exists [EvSleep d; EvGetTransaction sig; EvSleep (Solana.backoff d a)].
        rewrite <- !app_assoc. split; [done|]. split; [simpl; lia|done].
      * exists [EvSleep d; EvGetTransaction sig].
        rewrite <- app_assoc. split; [done|]. split; [simpl; lia|done].
Qed.

Lemma verify_loop_spec (n d : Z) (sig : PyVal) (attempts : list nat)
    (w : list Event) :
  exists evs,
    (verify_loop n d sig attempts w).2 = w ++ evs /\
    (length (List.filter is_query evs) <= length attempts)%nat /\
    match (verify_loop n d sig attempts w).1 with
    | Ok true => exists h, landed (get_transaction h)
    | Ok false => True
    | Raise _ => d < 0
    end.
Proof.
  revert w. induction attempts as [|a rest IH]; intros w.
  - exists []. simpl. rewrite app_nil_r. split; [done|]. split; [lia|done].
  - destruct (verify_attempt_spec n d sig a w) as (evs1 & Hw & Hq & Hr).
    cbn [verify_loop]. unfold bind.
    destruct (verify_attempt n d sig a w) as [[[b|]|e] w1] eqn:Ha;
      simpl in Hw, Hr; subst w1.
    + exists evs1. simpl. split; [done|]. split; [lia|by destruct b].
    + destruct (IH (w ++ evs1)) as (evs2 & Hw2 & Hq2 & Hr2).
      exists (evs1 ++ evs2). rewrite Hw2, app_assoc. split; [done|].
      rewrite List.filter_app, length_app. simpl. split; [lia|done].
    + exists evs1. simpl. split; [done|]. split; [lia|done].
Qed.

(** [verify_transaction] answers [True] only when the node reported the
    transaction with an [err] that is falsy; it queries the node at most
    [max_retries] times; and it raises only when the delay is negative. *)
Theorem verify_transaction_answers (signature : PyVal) (n d : Z)
    (w : list Event) :
  exists evs,
    (verify_transaction signature n d w).2 = w ++ evs /\
    (length (List.filter is_query evs) <= Z.to_nat n)%nat /\
    match (verify_transaction signature n d w).1 with
    | Ok true => exists h, landed (get_transaction h)
    | Ok false => True
    | Raise _ => d < 0
    end.
Proof.
  unfold verify_transaction.
  destruct (verify_loop_spec n d signature (seq 0 (Z.to_nat n)) w)
    as (evs & Hw & Hq & Hr).
  exists evs. rewrite length_seq in Hq. done.
Qed.

Lemma verify_loop_not_found (n d : Z) (sig : PyVal) (attempts : list nat)
    (w : list Event) :
  0 <= d ->
  (forall h, not_found (get_transaction h)) ->
  verify_loop n d sig attempts w =
  (Ok false, w ++ waiting_schedule d sig attempts).
Proof.
  intros Hd Hnf. revert w. induction attempts as [|a rest IH]; intros w.
  - simpl. unfold ret. by rewrite app_nil_r.
  - cbn [verify_loop waiting_schedule]. unfold bind, verify_attempt,
      try_except, bind, sleep, call_get_transaction, ret.
    destruct (Z.ltb_spec d 0); [lia|].
    specialize (Hnf (w ++ [EvSleep d])).
    destruct (get_transaction (w ++ [EvSleep d])) as [[t [[vt e]|]]|ex];
      cbn [value data_truthy value_truthy err not_found] in *; [| |done].
    + assert (t && vt = false) as ->
        by (destruct Hnf as [->| ->]; [done|by destruct t]).
      cbv iota. rewrite IH. by rewrite <- !app_assoc.
    + cbv iota. rewrite IH. by rewrite <- !app_assoc.
Qed.

Lemma verify_loop_query_fails (n d : Z) (sig : PyVal) (m k : nat)
    (w : list Event) :
  0 <= d ->
  (forall h, query_fails (get_transaction h)) ->
  Z.of_nat k + Z.of_nat (S m) = n ->
  verify_loop n d sig (seq k (S m)) w =
  (Ok false, w ++ failing_schedule n d sig (seq k (S m))).
Proof.
  intros Hd Hqf. revert k w.
  assert (Hstep : forall a w,
    verify_attempt n d sig a w =
    if Z.of_nat a <? n - 1
    then (Ok None, w ++ [EvSleep d; EvGetTransaction sig;
                         EvSleep (Solana.backoff d a)])
    else (Ok (Some false), w ++ [EvSleep d; EvGetTransaction sig])).
  { intros a w. pose proof (backoff_nonneg d a Hd) as Hb.
    unfold verify_attempt, try_except, bind, sleep, call_get_transaction,
      ret, raise.
    destruct (Z.ltb_spec d 0); [lia|].
    specialize (Hqf (w ++ [EvSleep d])).
    destruct (get_transaction (w ++ [EvSleep d])) as [[t vo]|ex];
      simpl in Hqf |- *.
    - destruct Hqf as (-> & [vt e] & -> & Hvt & He). simpl in *. subst.
      simpl. destruct (Z.of_nat a <? n - 1); rewrite ?Hb;
        by rewrite <- !app_assoc.
    - destruct (Z.of_nat a <? n - 1); rewrite ?Hb; by rewrite <- !app_assoc. }
  induction m as [|m IH]; intros k w Hn.
  - cbn [seq verify_loop failing_schedule]. unfold bind. rewrite Hstep.
    destruct (Z.ltb_spec (Z.of_nat k) (n - 1)); [lia|]. done.
  - change (seq k (S (S m))) with (k :: seq (S k) (S m)).
    cbn [verify_loop failing_schedule]. unfold bind. rewrite Hstep.
    destruct (Z.ltb_spec (Z.of_nat k) (n - 1)); [|lia].
    rewrite (IH (S k)) by lia. by rewrite <- !app_assoc.
Qed.

Lemma slept_waiting_schedule (d : Z) (sig : PyVal) (attempts : list nat) :
  slept (waiting_schedule d sig attempts) = Z.of_nat (length attempts) * d.
Proof. induction attempts as [|a rest IH]; simpl in *; lia. Qed.

Lemma slept_concat (evs1 evs2 : list Event) :
  slept (evs1 ++ evs2) = slept evs1 + slept evs2.
Proof.
  unfold slept. induction evs1 as [|e evs1 IH]; [done|].
  simpl. destruct e; lia.
Qed.

Lemma slept_failing_schedule (n d : Z) (sig : PyVal) (m a : nat) :
  Z.of_nat a + Z.of_nat (S m) = n ->
  slept (failing_schedule n d sig (seq a (S m))) =
  Z.of_nat (S m) * d + d * (2 ^ (n - 1) - 2 ^ Z.of_nat a).
Proof.
  revert a. induction m as [|m IH]; intros a Hn.
  - cbn [seq failing_schedule].
    destruct (Z.ltb_spec (Z.of_nat a) (n - 1)); [lia|]. simpl.
    replace (n - 1) with (Z.of_nat a) by lia. lia.
  - change (seq a (S (S m))) with (a :: seq (S a) (S m)).
    cbn [failing_schedule].
    destruct (Z.ltb_spec (Z.of_nat a) (n - 1)); [|lia].
    change (slept (EvSleep d :: EvGetTransaction sig :: ?l)) with (d + slept l).
    cbn [slept foldr]. fold (slept ([EvSleep (Solana.backoff d a)] ++
      failing_schedule n d sig (seq (S a) (S m)))).
    rewrite slept_concat, (IH (S a)) by lia. unfold Solana.backoff. simpl.
    replace (Z.of_nat (S a)) with (Z.of_nat a + 1) by lia.
    rewrite Z.pow_add_r by lia. lia.
Qed.

Lemma queries_waiting_schedule (d : Z) (sig : PyVal) (attempts : list nat) :
  length (List.filter is_query (waiting_schedule d sig attempts)) =
  length attempts.
Proof. induction attempts as [|a rest IH]; simpl; [done|by rewrite IH]. Qed.

Lemma queries_failing_schedule (n d : Z) (sig : PyVal) (attempts : list nat) :
  length (List.filter is_query (failing_schedule n d sig attempts)) =
  length attempts.
Proof.
  induction attempts as [|a rest IH]; [done|]. cbn [failing_schedule].
  destruct (Z.of_nat a <? n - 1); simpl; by rewrite IH.
Qed.

(** How long the verification waits, for [n] attempts and a delay
    [d >= 0].  While the node does not know the transaction, the call
    waits [d] seconds before each of its [n] queries, [n * d] in all, and
    answers [False].  While every query fails, it also backs off after each
    attempt but the last, [n * d + d * (2^(n-1) - 1)] seconds in all, and
    answers [False]. *)
Theorem verify_transaction_waits (signature : PyVal) (n d : Z)
    (w : list Event) :
  0 < n -> 0 <= d ->
  ((forall h, not_found (get_transaction h)) ->
   exists evs,
     verify_transaction signature n d w = (Ok false, w ++ evs) /\
     length (List.filter is_query evs) = Z.to_nat n /\
     slept evs = n * d) /\
  ((forall h, query_fails (get_transaction h)) ->
   exists evs,
     verify_transaction signature n d w = (Ok false, w ++ evs) /\
     length (List.filter is_query evs) = Z.to_nat n /\
     slept evs = n * d + d * (2 ^ (n - 1) - 1)).
Proof.
  intros Hn Hd. unfold verify_transaction. split; intros Hall.
  - rewrite verify_loop_not_found by done.
    eexists. split; [reflexivity|]. split.
    + by rewrite queries_waiting_schedule, length_seq.
    + rewrite slept_waiting_schedule, length_seq. lia.
  - destruct (Z.to_nat n) as [|m] eqn:Hm; [lia|].
    rewrite verify_loop_query_fails by (done || lia).
    eexists. split; [reflexivity|]. split.
    + by rewrite queries_failing_schedule, length_seq.
    + rewrite slept_failing_schedule by lia. simpl (2 ^ Z.of_nat 0). lia.
Qed.

End Node.

(** Five attempts two seconds apart against a node that has not seen the
    transaction, and against a node that is down. *)
Lemma verify_transaction_waits_witness :
  0 < 5 /\ 0 <= 2 /\
  (forall h, not_found (unseen_node h)) /\
  (forall h, query_fails (down_node h)) /\
  (exists evs,
     verify_transaction unseen_node (VStr "5VERv8NM") 5 2 [] =
       (Ok false, [] ++ evs) /\
     length (List.filter is_query evs) = 5%nat /\ slept evs = 10) /\
  (exists evs,
     verify_transaction down_node (VStr "5VERv8NM") 5 2 [] =
       (Ok false, [] ++ evs) /\
     length (List.filter is_query evs) = 5%nat /\ slept evs = 40).
Proof.
  assert (H1 : forall h, not_found (unseen_node h)) by (intros h; by right).
  assert (H2 : forall h, query_fails (down_node h)) by (intros h; exact I).
  split; [lia|]. split; [lia|]. split; [exact H1|]. split; [exact H2|].
  split.
  - exact (proj1 (verify_transaction_waits unseen_node (VStr "5VERv8NM") 5 2 []
                    ltac:(lia) ltac:(lia)) H1).
  - exact (proj2 (verify_transaction_waits down_node (VStr "5VERv8NM") 5 2 []
                    ltac:(lia) ltac:(lia)) H2).
Defined.

(** A node that reports the transaction as landed: one wait, one query,
    and the answer is [True]. *)
Lemma verify_transaction_landed :
  verify_transaction landed_node (VStr "5VERv8NM") 5 2 [] =
  (Ok true, [EvSleep 2; EvGetTransaction (VStr "5VERv8NM")]).
Proof. reflexivity. Qed.

End Verify.

(* ===================================================================== *)
(** ** The execution action: src/data/jupiter.py,
       src/agent/langgraph_trading_agent.py, src/agent/pure_ai_agent.py *)
(* ===================================================================== *)

Module Trade.

Import Solana.
Local Open Scope py_scope.

(** A dictionary display [{k1: v1, ...}]. *)
Definition dict_of (items : list (string * PyVal)) : gmap string PyVal :=
  list_to_map items.

(** The envelope both agents return for a live call without a quote. *)
Definition no_quote_envelope : gmap string PyVal :=
  dict_of [("success", VBool false);
           ("error", VStr "No quote data provided")].


(** *** A concrete setting *)

Definition clock0 : list Event -> string := fun _ => "2025-07-06T03:37:22".

Definition render (v : PyVal) : string :=
  match v with
  | VStr s => s
  | VInt z => pretty z
  | VNone => "None"
  | VBool true => "True"
  | VBool false => "False"
  | _ => "<value>"
  end.

Definition no_other_tools (tool_name : string) (kwargs : gmap string PyVal)
    : @M (list Event) (gmap string PyVal) :=
  ret (dict_of [("success", VBool false);
                ("error", VStr ("Unknown tool: " +:+ tool_name))]).

(** A schema that takes the other arguments as they are given, and the
    heading of the library's error message. *)
Definition accept_as_given (args : gmap string PyVal)
    : Res (gmap string PyVal) := Ok args.

Definition validation_heading (args : gmap string PyVal) : string :=
  "1 validation error for execute_trade_tool".

(** A live call of the tool by the oracle, with [quote_data] set to
    [None]. *)
Definition live_call_with_none : gmap string PyVal :=
  dict_of [("trade_type", VStr "buy");
           ("token_address", VStr "So11111111111111111111111111111111111111112");
           ("amount_sol", VFloat 0.5%float);
           ("quote_data", VNone);
           ("dry_run", VBool false);
           ("reasoning", VStr "momentum")].

(** A swap endpoint that builds the transaction ["dHg="] for any quote. *)
Definition jupiter_ok : list Event -> Res HttpResponse :=
  fun _ => Ok (mkHttp 200 (Ok (VDict {[ "swapTransaction" := VStr "dHg=" ]})) "").

Section Tools.

(** The outside world of [Solana.Node], the swap endpoint, the clock
    ([datetime.now().isoformat()]) and the rendering of a value inside an
    f-string. *)
Variable prepare : PyVal -> Res string.
Variable send_raw_transaction : list Event -> Res RpcResp.
Variable confirm_transaction : list Event -> Res unit.
Variable rpc_post : list Event -> Res HttpResponse.
Variable get_balance : list Event -> Res RpcResp.
Variable wallet_pubkey : string.
Variable jupiter_post : list Event -> Res HttpResponse.
Variable clock : list Event -> string.
Variable py_str : PyVal -> string.

Definition call_jupiter_post : @M (list Event) HttpResponse :=
  fun w => (jupiter_post w, w ++ [EvJupiterPost]).

(** [response.raise_for_status()]. *)
Definition raise_for_status (response : HttpResponse) : @M (list Event) unit :=
  if (400 <=? status_code response) && (status_code response <? 600)
  then raise (mkExn "HTTPError" (pretty (status_code response)))
  else ret tt.

(** [get_swap_transaction(quote_response, user_pubkey)] of
    [src/data/jupiter.py]: the base64 transaction, or [None]. *)
Definition get_swap_transaction (quote_response user_pubkey : PyVal)
    : @M (list Event) PyVal :=
  try_except
    (response <- call_jupiter_post ;;
     raise_for_status response ;;;
     swap_data <- lift (json response) ;;
     has_tx <- lift (contains "swapTransaction" swap_data) ;;
     if negb has_tx then ret VNone
     else
       tx_base64 <- lift (getitem swap_data "swapTransaction") ;;
       _ <- lift (len tx_base64) ;;
       ret tx_base64)
    (fun e => ret VNone).

(** A call of [get_swap_transaction] with the given positional arguments:
    the function has two required parameters. *)
Definition call_get_swap_transaction (args : list PyVal)
    : @M (list Event) PyVal :=
  match args with
  | [quote_response; user_pubkey] =>
      get_swap_transaction quote_response user_pubkey
  | _ =>
      raise (TypeError
        "get_swap_transaction() missing 1 required positional argument: 'user_pubkey'")
  end.

(** [send_serialized_transaction(tx)] with its default arguments
    [max_retries=3, retry_delay=2]. *)
Definition submit (tx : PyVal) : @M (list Event) (gmap string PyVal) :=
  send_serialized_transaction prepare send_raw_transaction
    confirm_transaction tx 3 2.

(** [execute_trade_tool] of the LangGraph agent. *)
Definition execute_trade_tool
    (trade_type token_address amount_sol quote_data dry_run reasoning : PyVal)
    : @M (list Event) (gmap string PyVal) :=
  try_except
    (if truthy dry_run then
       timestamp <- gets clock ;;
       ret (dict_of
         [("success", VBool true);
          ("message", VStr ("Dry run: " +:+ py_str trade_type +:+ " " +:+
                            py_str amount_sol +:+ " SOL of " +:+
                            py_str token_address));
          ("trade_type", trade_type);
          ("token_address", token_address);
          ("amount_sol", amount_sol);
          ("dry_run", VBool true);
          ("reasoning", reasoning);
          ("simulated_result", VDict (dict_of
             [("transaction_id", VStr "dry_run_simulation");
              ("status", VStr "simulated_success")]));
          ("timestamp", VStr timestamp)])
     else
       if negb (truthy quote_data) then ret no_quote_envelope
       else
         transaction <- call_get_swap_transaction [quote_data] ;;
         if negb (truthy transaction) then
           ret (dict_of
             [("success", VBool false);
              ("error", VStr "Failed to get transaction from Jupiter")])
         else
           result <- submit transaction ;;
           timestamp <- gets clock ;;
           ret (dict_of
             [("success", VBool true);
              ("message", VStr ("Executed " +:+ py_str trade_type +:+ " of " +:+
                                py_str amount_sol +:+ " SOL for " +:+
                                py_str token_address));
              ("trade_type", trade_type);
              ("token_address", token_address);
              ("amount_sol", amount_sol);
              ("dry_run", VBool false);
              ("reasoning", reasoning);
              ("transaction_result", VDict result);
              ("timestamp", VStr timestamp)]))
    (fun e =>
       ret (dict_of [("success", VBool false); ("error", VStr (exn_msg e))])).

(** The branches of [_execute_tool] for the other tools. *)
Variable other_tools :
  string -> gmap string PyVal -> @M (list Event) (gmap string PyVal).

(** The [execute_trade] branch of [_execute_tool] of the pure-AI agent. *)
Definition execute_trade (kwargs : gmap string PyVal)
    : @M (list Event) (gmap string PyVal) :=
  let trade_type := get kwargs "trade_type" in
  let token_address := get kwargs "token_address" in
  let amount_sol := get kwargs "amount_sol" in
  let quote_data := get kwargs "quote_data" in
  let dry_run := get_or kwargs "dry_run" (VBool true) in
  let reasoning := get kwargs "reasoning" in
  if truthy dry_run then
    ret (dict_of
      [("success", VBool true);
       ("message", VStr ("Dry run - " +:+ py_str trade_type +:+ " " +:+
                         py_str amount_sol +:+ " SOL of " +:+
                         py_str token_address));
       ("reasoning", reasoning);
       ("quote", quote_data)])
  else
    if truthy quote_data then
      balance <- get_wallet_balance rpc_post get_balance wallet_pubkey None ;;
      swap_tx <- call_get_swap_transaction [quote_data; balance] ;;
      if truthy swap_tx then
        result <- submit swap_tx ;;
        ret (dict_of
          [("success", VBool true);
           ("transaction_result", VDict result);
           ("reasoning", reasoning)])
      else
        ret (dict_of
          [("success", VBool false);
           ("error", VStr "Failed to get swap transaction")])
    else ret no_quote_envelope.

(** [EnhancedPureAITradingAgent._execute_tool(tool_name, **kwargs)]. *)
Definition _execute_tool (tool_name : string) (kwargs : gmap string PyVal)
    : @M (list Event) (gmap string PyVal) :=
  try_except
    (if String.eqb tool_name "execute_trade"
     then execute_trade kwargs
     else other_tools tool_name kwargs)
    (fun e =>
       ret (dict_of [("success", VBool false); ("error", VStr (exn_msg e))])).

(** [execute_trade_tool] is declared with [@tool] (lines 407-414): a call
    reaches the body through the argument schema that the decorator builds
    from the signature.  [quote_data: Dict] has no default, so the schema
    refuses a call in which it is missing or is not a dictionary, with a
    [ValidationError], before the body runs.  What the schema makes of the
    other arguments (which values it takes, how it converts them, the
    defaults [dry_run=True] and [reasoning=""] aside) and the text of its
    error message belong to the library and are parameters here. *)
Variable validate_arguments : gmap string PyVal -> Res (gmap string PyVal).
Variable validation_message : gmap string PyVal -> string.

Definition ValidationError (args : gmap string PyVal) : Exn :=
  mkExn "ValidationError" (validation_message args).

(** [execute_trade_tool.invoke(args)]: the tool as the LangGraph agent
    calls it. *)
Definition invoke_execute_trade_tool (args : gmap string PyVal)
    : @M (list Event) (gmap string PyVal) :=
  match args !! "quote_data" with
  | Some (VDict quote_data) =>
      validated <- lift (validate_arguments args) ;;
      execute_trade_tool
        (get validated "trade_type") (get validated "token_address")
        (get validated "amount_sol") (VDict quote_data)
        (get_or validated "dry_run" (VBool true))
        (get_or validated "reasoning" (VStr ""))
  | _ => raise (ValidationError args)
  end.

(** [get_wallet_balance_tool] of the LangGraph agent. *)
Definition get_wallet_balance_tool : @M (list Event) (gmap string PyVal) :=
  try_except
    (balance <- get_wallet_balance rpc_post get_balance wallet_pubkey None ;;
     timestamp <- gets clock ;;
     ret (dict_of [("success", VBool true);
                   ("balance_sol", balance);
                   ("timestamp", VStr timestamp)]))
    (fun e =>
       ret (dict_of [("success", VBool false); ("error", VStr (exn_msg e))])).

(** The swap endpoint answers every request with an HTTP 200 that carries
    the transaction [tx]. *)
Definition jupiter_gives (tx : string) : Prop :=
  forall h, exists body txt,
    jupiter_post h = Ok (mkHttp 200 (Ok (VDict body)) txt) /\
    body !! "swapTransaction" = Some (VStr tx).

(** *** The safety gate *)

(** C1, as the code has it.  A live call ([dry_run] false) without a
    quote never submits anything, but only some of these calls are answered
    with an envelope.  The pure-AI action returns the failure envelope at
    once when the quote is missing, [None] or empty, whatever the other
    arguments are.  The LangGraph tool returns it when the quote is the
    empty dictionary, whatever the other arguments that its schema accepts
    are; a call in which the quote is missing or [None] does not reach the
    body: the schema raises a [ValidationError] and there is no envelope.
    In every case the history of the world is left as it was: nothing was
    sent anywhere. *)
Theorem live_trade_without_quote_is_refused (w : list Event) :
  (forall kwargs : gmap string PyVal,
     truthy (get_or kwargs "dry_run" (VBool true)) = false ->
     truthy (get kwargs "quote_data") = false ->
     _execute_tool "execute_trade" kwargs w = (Ok no_quote_envelope, w)) /\
  (forall args validated : gmap string PyVal,
     args !! "quote_data" = Some (VDict ∅) ->
     validate_arguments args = Ok validated ->
     truthy (get_or validated "dry_run" (VBool true)) = false ->
     invoke_execute_trade_tool args w = (Ok no_quote_envelope, w)) /\
  (forall args : gmap string PyVal,
     args !! "quote_data" = None \/ args !! "quote_data" = Some VNone ->
     invoke_execute_trade_tool args w = (Raise (ValidationError args), w)) /\
  no_quote_envelope !! "success" = Some (VBool false).
Proof.
  split; [|split; [|split]].
  - intros kwargs Hdry Hquote.
    unfold _execute_tool, execute_trade, try_except. simpl.
    by rewrite Hdry, Hquote.
  - intros args validated Hq Hv Hdry.
    unfold invoke_execute_trade_tool. rewrite Hq.
    unfold bind, lift. rewrite Hv.
    unfold execute_trade_tool, try_except. by rewrite Hdry.
  - intros args [Hq|Hq]; unfold invoke_execute_trade_tool; by rewrite Hq.
  - reflexivity.
Qed.

(** *** Dry run *)




(** *** The swap request and the live path *)

(** [get_swap_transaction] never raises and sends exactly one request.
    It returns [None], or else the [swapTransaction] field of a reply whose
    status is no HTTP error; a field that has no length (a number, [null])
    gives [None] as well. *)
Theorem get_swap_transaction_never_raises (quote_response user_pubkey : PyVal)
    (w : list Event) :
  exists v,
    get_swap_transaction quote_response user_pubkey w =
      (Ok v, w ++ [EvJupiterPost]) /\
    (v = VNone \/
     exists resp body n,
       jupiter_post w = Ok resp /\
       ~ (400 <= status_code resp < 600) /\
       json resp = Ok body /\
       getitem body "swapTransaction" = Ok v /\ len v = Ok n).
Proof.
  unfold get_swap_transaction, try_except, bind, call_jupiter_post,
    raise_for_status, lift, ret, raise.
  destruct (jupiter_post w) as [resp|e] eqn:Hpost; simpl; [|eauto].
  destruct (Z.leb_spec 400 (status_code resp)) as [Hlo|Hlo];
    destruct (Z.ltb_spec (status_code resp) 600) as [Hhi|Hhi]; simpl;
    [eauto|..].
  all: destruct (json resp) as [body|ej] eqn:Hj; simpl; [|eauto].
  all: destruct (contains "swapTransaction" body) as [[]|ec]; simpl;
         [|eauto..].
  all: destruct (getitem body "swapTransaction") as [v|eg] eqn:Hg; simpl;
         [|eauto].
  all: destruct (len v) as [n|el] eqn:Hl; simpl; [|eauto].
  all: exists v; split; [done|]; right; exists resp, body, n;
         repeat split; (done || lia).
Qed.


(** The pure-AI agent reports a live trade as a success although every
    submission failed.  With a quote, a swap endpoint that builds the
    transaction and a node that accepts no submission, the [execute_trade]
    action makes its three submissions and returns [success: True] around
    the error of [send_serialized_transaction]. *)
Theorem execute_trade_reports_success_when_submission_fails
    (kwargs : gmap string PyVal) (tx signed : string) (w : list Event) :
  truthy (get_or kwargs "dry_run" (VBool true)) = false ->
  truthy (get kwargs "quote_data") = true ->
  jupiter_gives tx -> tx <> "" ->
  prepare (VStr tx) = Ok signed ->
  (forall h, submission_fails (send_raw_transaction h)) ->
  exists evs,
    _execute_tool "execute_trade" kwargs w =
      (Ok (dict_of
             [("success", VBool true);
              ("transaction_result",
               VDict (error_message "All transaction attempts failed"));
              ("reasoning", get kwargs "reasoning")]),
       w ++ evs) /\
    length (List.filter is_submission evs) = 3%nat.
Proof.
  intros Hdry Hquote Hjup Htx Hprep Hall.
  unfold _execute_tool, execute_trade, try_except. simpl.
  rewrite Hdry, Hquote. unfold bind.
  destruct (get_wallet_balance_returns rpc_post get_balance wallet_pubkey None w)
    as (bal & evs0 & -> & Hsub0).
  unfold call_get_swap_transaction, get_swap_transaction, try_except, bind,
    call_jupiter_post, raise_for_status, lift, ret.
  destruct (Hjup (w ++ evs0)) as (body & txt & -> & Hbody). simpl.
  unfold contains, getitem. rewrite Hbody.
  rewrite bool_decide_true by eauto. simpl.
  destruct (String.eqb_spec tx ""); [done|]. cbn [negb]. cbv iota.
  unfold submit.
  destruct (send_serialized_transaction_exhausted prepare send_raw_transaction
              confirm_transaction (VStr tx) signed 3 2
              ((w ++ evs0) ++ [EvJupiterPost]) Hprep Hall ltac:(lia))
    as (evs & -> & Hs).
  exists (evs0 ++ [EvJupiterPost] ++ evs). rewrite !app_assoc.
  split; [done|].
  rewrite !List.filter_app, !length_app, Hsub0. simpl.
  by rewrite submissions_of_schedule, Hs, submissions_full_schedule.
Qed.

(** [get_wallet_balance_tool] always reports success.  The balance query
    never raises, so the tool cannot tell a failed query from an empty
    wallet: with the node down on both routes it returns [success: True]
    and a balance of 0. *)
Theorem get_wallet_balance_tool_always_succeeds (w : list Event) :
  exists balance w',
    get_wallet_balance_tool w =
      (Ok (dict_of [("success", VBool true);
                    ("balance_sol", balance);
                    ("timestamp", VStr (clock w'))]), w') /\
    (forall e1 e2,
       get_balance w = Raise e1 ->
       rpc_post (w ++ [EvGetBalance wallet_pubkey]) = Raise e2 ->
       balance = VInt 0).
Proof.
  unfold get_wallet_balance_tool, try_except, bind, gets, ret.
  destruct (get_wallet_balance_returns rpc_post get_balance wallet_pubkey None w)
    as (bal & evs0 & Hrun & _).
  rewrite Hrun. exists bal, (w ++ evs0). split; [done|].
  intros e1 e2 H1 H2.
  rewrite (get_wallet_balance_both_fail rpc_post get_balance wallet_pubkey
             None w e1 e2 H1 H2) in Hrun.
  by injection Hrun as <- _.
Qed.

End Tools.

(** A live buy with an empty quote is refused by both agents. *)
Lemma live_trade_without_quote_is_refused_witness :
  _execute_tool sign_ok node_down confirm_ok node_down node_down "wallet"
    node_down render no_other_tools "execute_trade"
    (dict_of [("trade_type", VStr "buy"); ("dry_run", VBool false)]) [] =
    (Ok no_quote_envelope, []) /\
  invoke_execute_trade_tool sign_ok node_down confirm_ok node_down clock0
    render accept_as_given validation_heading
    (<["quote_data" := VDict ∅]> live_call_with_none) [] =
    (Ok no_quote_envelope, []) /\
  invoke_execute_trade_tool sign_ok node_down confirm_ok node_down clock0
    render accept_as_given validation_heading
    (delete "quote_data" live_call_with_none) [] =
    (Raise (ValidationError validation_heading
              (delete "quote_data" live_call_with_none)), []).
Proof.
  pose proof (live_trade_without_quote_is_refused sign_ok node_down
    confirm_ok node_down node_down "wallet" node_down clock0 render
    no_other_tools accept_as_given validation_heading [])
    as (Hp & Hl & Hv & _).
  split; [apply Hp; reflexivity|].
  split; [eapply Hl; reflexivity|].
  apply Hv. left. reflexivity.
Defined.

(** C1 as the specification words it (an envelope also when the quote is
    missing or [None]) fails for the LangGraph tool: the live call with
    [quote_data] set to [None] ends in the [ValidationError] of the schema
    and returns no envelope; so does the call in which [quote_data] is left
    out.  Neither sends anything. *)
Lemma live_tool_call_with_none_returns_no_envelope :
  let invoke :=
    invoke_execute_trade_tool sign_ok node_down confirm_ok node_down clock0
      render accept_as_given validation_heading in
  live_call_with_none !! "dry_run" = Some (VBool false) /\
  live_call_with_none !! "quote_data" = Some VNone /\
  invoke live_call_with_none [] =
    (Raise (ValidationError validation_heading live_call_with_none), []) /\
  (forall env w', invoke live_call_with_none [] <> (Ok env, w')) /\
  (forall env w',
     invoke (delete "quote_data" live_call_with_none) [] <> (Ok env, w')).
Proof.
  intros invoke. split; [reflexivity|]. split; [reflexivity|].
  split; [reflexivity|]. split; intros env w'; discriminate.
Qed.


(** A live buy with a quote, a swap endpoint that works and a node that is
    down: three submissions, and the envelope says [success: True]. *)
Lemma execute_trade_reports_success_when_submission_fails_witness :
  let kwargs := dict_of [("trade_type", VStr "buy"); ("dry_run", VBool false);
                         ("quote_data", VDict {[ "outAmount" := VStr "1" ]});
                         ("reasoning", VStr "momentum")] in
  truthy (get_or kwargs "dry_run" (VBool true)) = false /\
  truthy (get kwargs "quote_data") = true /\
  jupiter_gives jupiter_ok "dHg=" /\
  (forall h, submission_fails (@node_down RpcResp h)) /\
  exists evs,
    _execute_tool sign_ok node_down confirm_ok node_down node_down "wallet"
      jupiter_ok render no_other_tools "execute_trade" kwargs [] =
      (Ok (dict_of
             [("success", VBool true);
              ("transaction_result",
               VDict (error_message "All transaction attempts failed"));
              ("reasoning", VStr "momentum")]),
       [] ++ evs) /\
    length (List.filter is_submission evs) = 3%nat.
Proof.
  intros kwargs.
  assert (Hj : jupiter_gives jupiter_ok "dHg=")
    by (intros h; eexists _, _; split; reflexivity).
  split; [reflexivity|]. split; [reflexivity|]. split; [exact Hj|].
  split; [intros h; exact I|].
  exact (execute_trade_reports_success_when_submission_fails sign_ok node_down
           confirm_ok node_down node_down "wallet" jupiter_ok render
           no_other_tools kwargs "dHg=" "signed-bytes" []
           eq_refl eq_refl Hj ltac:(discriminate) eq_refl (fun _ => I)).
Defined.

End Trade.

(* ===================================================================== *)
(** ** Quotes: src/data/jupiter.py (get_quote) and its callers in
       src/agent/langgraph_trading_agent.py and src/agent/pure_ai_agent.py *)
(* ===================================================================== *)

Module Quote.

Import Solana.
Local Open Scope py_scope.

Definition SOL_MINT : string := "So11111111111111111111111111111111111111112".

(** The query parameters of a request to [JUPITER_QUOTE_URL].  The world
    of this module is the list of requests sent so far. *)
Record QuoteParams : Type := mkParams {
  inputMint : PyVal;
  outputMint : PyVal;
  amount : PyVal;
  slippageBps : PyVal
}.

(** [int(f)] for a float: truncation towards zero. *)
Definition int_of_float (f : float) : Res Z :=
  match Prim2SF f with
  | S754_zero _ => Ok 0
  | S754_infinity _ =>
      Raise (mkExn "OverflowError" "cannot convert float infinity to integer")
  | S754_nan =>
      Raise (mkExn "ValueError" "cannot convert float NaN to integer")
  | S754_finite s m e =>
      let mag := if 0 <=? e then Z.pos m * 2 ^ e else Z.pos m / 2 ^ (- e) in
      Ok (if s then - mag else mag)
  end.

(** [v * 1e9]. *)
Definition mul_1e9 (v : PyVal) : Res float :=
  match v with
  | VInt z =>
      let f := float_of_Z z in
      if PrimFloat.is_infinity f
      then Raise (mkExn "OverflowError" "int too large to convert to float")
      else Ok (PrimFloat.mul f 1e9%float)
  | VBool b => Ok (PrimFloat.mul (float_of_Z (Z.b2z b)) 1e9%float)
  | VFloat f => Ok (PrimFloat.mul f 1e9%float)
  | VStr _ | VList _ =>
      Raise (TypeError "can't multiply sequence by non-int of type 'float'")
  | VNone | VDict _ => Raise (TypeError "unsupported operand type(s) for *")
  end.

(** [int(v * 1e9)]: SOL to lamports. *)
Definition to_lamports (v : PyVal) : Res Z :=
  match mul_1e9 v with
  | Ok f => int_of_float f
  | Raise e => Raise e
  end.

(** [z / f] for an integer [z] and a float [f] that is not zero. *)
Definition int_truediv (z : Z) (f : float) : Res float :=
  let x := float_of_Z z in
  if PrimFloat.is_infinity x
  then Raise (mkExn "OverflowError" "int too large to convert to float")
  else Ok (PrimFloat.div x f).

(** [v == SOL_MINT]. *)
Definition is_sol (v : PyVal) : bool :=
  match v with
  | VStr s => String.eqb s SOL_MINT
  | _ => false
  end.

(** [response.raise_for_status()]. *)
Definition raise_for_status (response : HttpResponse) : Res unit :=
  if (400 <=? status_code response) && (status_code response <? 600)
  then Raise (mkExn "HTTPError" (pretty (status_code response)))
  else Ok tt.

(** [[step['swapInfo']['label'] for step in steps]]. *)
Fixpoint step_labels (steps : list PyVal) : Res (list PyVal) :=
  match steps with
  | [] => Ok []
  | step :: rest =>
      match getpath step ["swapInfo"; "label"] with
      | Ok label =>
          match step_labels rest with
          | Ok labels => Ok (label :: labels)
          | Raise e => Raise e
          end
      | Raise e => Raise e
      end
  end.

Definition is_str (v : PyVal) : bool :=
  match v with VStr _ => true | _ => false end.

(** Whether the log line
    [', '.join([step['swapInfo']['label'] for step in route])] can be
    built.  Iterating a dictionary or a string gives strings, which have no
    string index. *)
Definition route_line (route : PyVal) : Res unit :=
  match route with
  | VList steps =>
      match step_labels steps with
      | Ok labels =>
          if forallb is_str labels then Ok tt
          else Raise (TypeError "sequence item: expected str instance")
      | Raise e => Raise e
      end
  | VStr s =>
      if String.eqb s "" then Ok tt
      else Raise (TypeError "string indices must be integers, not 'str'")
  | VDict d =>
      if Nat.eqb (size d) 0 then Ok tt
      else Raise (TypeError "string indices must be integers, not 'str'")
  | _ => Raise (TypeError "object is not iterable")
  end.

(** *** A concrete setting *)

Definition clock0 : list QuoteParams -> string :=
  fun _ => "2025-07-06T03:37:22".

(** An endpoint that is down, and a parser of decimal digits. *)
Definition endpoint_down : list QuoteParams -> QuoteParams -> Res HttpResponse :=
  fun _ _ => Raise (mkExn "ConnectionError" "endpoint unreachable").

Definition no_int : string -> Res Z :=
  fun _ => Raise (mkExn "ValueError" "invalid literal for int() with base 10").

Section Endpoint.

(** The quote endpoint: its answer may depend on the requests made before
    and on the parameters of this one. *)
Variable quote_get : list QuoteParams -> QuoteParams -> Res HttpResponse.
(** [int(s)] for a string. *)
Variable int_of_str : string -> Res Z.
(** [datetime.now().isoformat()]. *)
Variable clock : list QuoteParams -> string.

Definition call_quote_get (params : QuoteParams)
    : @M (list QuoteParams) HttpResponse :=
  fun w => (quote_get w params, w ++ [params]).

(** [int(v)]. *)
Definition py_int (v : PyVal) : Res Z :=
  match v with
  | VInt z => Ok z
  | VBool b => Ok (Z.b2z b)
  | VFloat f => int_of_float f
  | VStr s => int_of_str s
  | _ => Raise (TypeError "int() argument must be a string or a real number")
  end.

(** Lines 32-80 of [get_quote]: the request and what follows it, all
    inside the [try]; any exception gives [None]. *)
Definition request_quote (input_mint output_mint amount slippage_bps : PyVal)
    : @M (list QuoteParams) PyVal :=
  try_except
    (response <-
       call_quote_get (mkParams input_mint output_mint amount slippage_bps) ;;
     lift (raise_for_status response) ;;;
     quote_data <- lift (json response) ;;
     in_amount <- lift (dict_get quote_data "inAmount" (VInt 0)) ;;
     input_amount <- lift (py_int in_amount) ;;
     out_amount <- lift (dict_get quote_data "outAmount" (VInt 0)) ;;
     output_amount <- lift (py_int out_amount) ;;
     lift (int_truediv input_amount
             (if is_sol input_mint then 1e9%float else 1e6%float)) ;;;
     lift (int_truediv output_amount
             (if is_sol output_mint then 1e9%float else 1e6%float)) ;;;
     route <- lift (getitem quote_data "routePlan") ;;
     lift (route_line route) ;;;
     ret quote_data)
    (fun e => ret VNone).

(** [get_quote(output_mint, amount_in_sol, input_mint, amount,
    slippage_bps)].  The amount is converted before the [try]. *)
Definition get_quote (output_mint amount_in_sol input_mint amount
    slippage_bps : PyVal) : @M (list QuoteParams) PyVal :=
  match amount_in_sol with
  | VNone => request_quote input_mint output_mint amount slippage_bps
  | _ =>
      lamports <- lift (to_lamports amount_in_sol) ;;
      request_quote (VStr SOL_MINT) output_mint (VInt lamports) slippage_bps
  end.

(** [get_swap_quote_tool(input_mint, output_mint, amount_sol,
    slippage_bps)] of the LangGraph agent.  It calls
    [get_quote(input_mint, output_mint, amount_lamports)]: by position, its
    own [output_mint] is the callee's [amount_in_sol]. *)
Definition get_swap_quote_tool (input_mint output_mint amount_sol
    slippage_bps : PyVal) : @M (list QuoteParams) (gmap string PyVal) :=
  try_except
    (amount_lamports <- lift (to_lamports amount_sol) ;;
     quote <- get_quote input_mint output_mint (VInt amount_lamports)
                VNone (VInt 100) ;;
     timestamp <- gets clock ;;
     ret (Trade.dict_of
       [("success", VBool true);
        ("quote", quote);
        ("input_mint", input_mint);
        ("output_mint", output_mint);
        ("amount_sol", amount_sol);
        ("amount_lamports", VInt amount_lamports);
        ("slippage_bps", slippage_bps);
        ("timestamp", VStr timestamp)]))
    (fun e =>
       ret (Trade.dict_of
              [("success", VBool false); ("error", VStr (exn_msg e))])).

(** The [get_swap_quote] branch of [_execute_tool] of the pure-AI agent,
    inside the [try] of that function. *)
Definition get_swap_quote (kwargs : gmap string PyVal)
    : @M (list QuoteParams) (gmap string PyVal) :=
  try_except
    (let output_mint := get kwargs "output_mint" in
     let amount_sol := get kwargs "amount_sol" in
     let slippage_bps := get_or kwargs "slippage_bps" (VInt 100) in
     _ <- lift (to_lamports amount_sol) ;;
     quote <- get_quote output_mint amount_sol VNone VNone slippage_bps ;;
     ret (Trade.dict_of [("success", VBool true); ("quote", quote)]))
    (fun e =>
       ret (Trade.dict_of
              [("success", VBool false); ("error", VStr (exn_msg e))])).

(** *** Properties of the quote request *)

Lemma request_quote_spec (input_mint output_mint amount_tokens
    slippage_bps : PyVal) (w : list QuoteParams) :
  let params := mkParams input_mint output_mint amount_tokens slippage_bps in
  exists v,
    request_quote input_mint output_mint amount_tokens slippage_bps w =
      (Ok v, w ++ [params]) /\
    (v = VNone \/
     exists resp route,
       quote_get w params = Ok resp /\
       raise_for_status resp = Ok tt /\
       json resp = Ok v /\
       getitem v "routePlan" = Ok route /\ route_line route = Ok tt).
Proof.
  intros params.
  unfold request_quote, try_except, bind, call_quote_get, lift, ret.
  fold params.
  destruct (quote_get w params) as [resp|e] eqn:Hget; cbv beta iota zeta;
    [|eauto].
  destruct (raise_for_status resp) as [[]|e] eqn:Hst; cbv beta iota zeta;
    [|eauto].
  destruct (json resp) as [body|e] eqn:Hj; cbv beta iota zeta; [|eauto].
  destruct (dict_get body "inAmount" (VInt 0)) as [ia|e]; cbv beta iota zeta;
    [|eauto].
  destruct (py_int ia) as [iz|e]; cbv beta iota zeta; [|eauto].
  destruct (dict_get body "outAmount" (VInt 0)) as [oa|e]; cbv beta iota zeta;
    [|eauto].
  destruct (py_int oa) as [oz|e]; cbv beta iota zeta; [|eauto].
  destruct (int_truediv iz _) as [ih|e]; cbv beta iota zeta; [|eauto].
  destruct (int_truediv oz _) as [oh|e]; cbv beta iota zeta; [|eauto].
  destruct (getitem body "routePlan") as [route|e] eqn:Hr; cbv beta iota zeta;
    [|eauto].
  destruct (route_line route) as [[]|e] eqn:Hl; cbv beta iota zeta; [|eauto].
  exists body. split; [done|]. right. exists resp, route. done.
Qed.

(** [get_quote] raises only while converting [amount_in_sol], before any
    request is sent.  Otherwise it sends exactly one request and returns
    [None] or the body of a reply that is no HTTP error and whose
    [routePlan] can be listed in the log.  When [amount_in_sol] is given,
    the request is for SOL as the input and the converted number of
    lamports, whatever [input_mint] and [amount] were. *)
Theorem get_quote_raises_only_before_the_request
    (output_mint amount_in_sol input_mint amount_tokens slippage_bps : PyVal)
    (w : list QuoteParams) :
  match get_quote output_mint amount_in_sol input_mint amount_tokens
          slippage_bps w
  with
  | (Raise e, w') =>
      w' = w /\ amount_in_sol <> VNone /\ to_lamports amount_in_sol = Raise e
  | (Ok v, w') =>
      exists params,
        w' = w ++ [params] /\
        outputMint params = output_mint /\
        slippageBps params = slippage_bps /\
        match amount_in_sol with
        | VNone =>
            inputMint params = input_mint /\ amount params = amount_tokens
        | _ =>
            inputMint params = VStr SOL_MINT /\
            exists lamports, to_lamports amount_in_sol = Ok lamports /\
                             amount params = VInt lamports
        end /\
        (v = VNone \/
         exists resp route,
           quote_get w params = Ok resp /\
           raise_for_status resp = Ok tt /\
           json resp = Ok v /\
           getitem v "routePlan" = Ok route /\ route_line route = Ok tt)
  end.
Proof.
  unfold get_quote.
  destruct amount_in_sol as [|b|z|f|s|l|d].
  1: { destruct (request_quote_spec input_mint output_mint amount_tokens
                   slippage_bps w) as (v & -> & Hv).
       eexists. split; [reflexivity|]. repeat split; done. }
  all: unfold bind, lift;
       match goal with |- context [to_lamports ?a] =>
         destruct (to_lamports a) as [lamports|e] eqn:Hlam end;
       [|repeat split; done].
  all: destruct (request_quote_spec (VStr SOL_MINT) output_mint (VInt lamports)
                   slippage_bps w) as (v & -> & Hv);
       eexists; split; [reflexivity|]; repeat split; eauto.
Qed.

(** [get_swap_quote_tool] of the LangGraph agent never gets a quote.  For
    any output mint that is a string it returns a failure envelope and
    sends no request: the call of [get_quote] puts the output mint where
    the amount in SOL belongs, and the conversion of that string raises. *)
Theorem get_swap_quote_tool_always_fails
    (input_mint amount_sol slippage_bps : PyVal) (output_mint : string)
    (w : list QuoteParams) :
  exists env,
    get_swap_quote_tool input_mint (VStr output_mint) amount_sol slippage_bps
      w = (Ok env, w) /\
    env !! "success" = Some (VBool false) /\
    env !! "quote" = None /\
    (is_ok (to_lamports amount_sol) = true ->
     env !! "error" =
       Some (VStr "can't multiply sequence by non-int of type 'float'")).
Proof.
  unfold get_swap_quote_tool, try_except, bind, lift.
  destruct (to_lamports amount_sol) as [lamports|e]; cbv beta iota zeta.
  - unfold get_quote, bind, lift. simpl.
    eexists. split; [reflexivity|]. repeat split; done.
  - eexists. split; [reflexivity|]. repeat split; done.
Qed.

(** The [get_swap_quote] action of the pure-AI agent reports success
    without a quote.  When the request to the endpoint fails, it returns
    [success: True] with [quote: None]; it has asked for SOL to the given
    output mint. *)
Theorem get_swap_quote_succeeds_without_a_quote (kwargs : gmap string PyVal)
    (w : list QuoteParams) :
  is_ok (to_lamports (get kwargs "amount_sol")) = true ->
  (forall h p, is_ok (quote_get h p) = false) ->
  exists params,
    get_swap_quote kwargs w =
      (Ok (Trade.dict_of [("success", VBool true); ("quote", VNone)]),
       w ++ [params]) /\
    inputMint params = VStr SOL_MINT /\
    outputMint params = get kwargs "output_mint".
Proof.
  intros Hlam Hdown.
  unfold get_swap_quote, try_except, bind at 1, lift at 1.
  destruct (to_lamports (get kwargs "amount_sol")) as [lamports|e] eqn:Hl;
    [|done].
  cbv beta iota zeta. unfold bind at 1, get_quote.
  assert (Hreq : forall im om am sl,
            request_quote im om am sl w =
            (Ok VNone, w ++ [mkParams im om am sl])).
  { intros im om am sl.
    destruct (request_quote_spec im om am sl w) as (v & Hrun & Hv).
    destruct Hv as [->|(resp & route & Hget & _)]; [done|].
    specialize (Hdown w (mkParams im om am sl)). by rewrite Hget in Hdown. }
  destruct (get kwargs "amount_sol") as [|b|z|f|s|l|d]; try discriminate.
  all: unfold bind, lift; rewrite Hl; cbv beta iota zeta; rewrite Hreq;
       eexists; split; [reflexivity|]; done.
Qed.

End Endpoint.

(** Half a SOL for a token, with the endpoint down. *)
Lemma get_swap_quote_succeeds_without_a_quote_witness :
  let kwargs := Trade.dict_of
    [("input_mint", VStr SOL_MINT);
     ("output_mint", VStr "EPjFWdd5AufqSSqeM2qN1xzybapC8G4wEGGkZwyTDt1v");
     ("amount_sol", VFloat 0.5%float)] in
  is_ok (to_lamports (get kwargs "amount_sol")) = true /\
  (forall h p, is_ok (endpoint_down h p) = false) /\
  exists params,
    get_swap_quote endpoint_down no_int kwargs [] =
      (Ok (Trade.dict_of [("success", VBool true); ("quote", VNone)]),
       [] ++ [params]) /\
    inputMint params = VStr SOL_MINT /\
    outputMint params = get kwargs "output_mint".
Proof.
  intros kwargs. split; [reflexivity|]. split; [reflexivity|].
  exact (get_swap_quote_succeeds_without_a_quote endpoint_down no_int kwargs []
           eq_refl (fun _ _ => eq_refl)).
Defined.

(** The LangGraph tool, asked for half a SOL of a token. *)
Lemma get_swap_quote_tool_type_error :
  get_swap_quote_tool endpoint_down no_int clock0
    (VStr SOL_MINT) (VStr "EPjFWdd5AufqSSqeM2qN1xzybapC8G4wEGGkZwyTDt1v")
    (VFloat 0.5%float) (VInt 100) [] =
  (Ok (Trade.dict_of
         [("success", VBool false);
          ("error",
           VStr "can't multiply sequence by non-int of type 'float'")]),
   []).
Proof. reflexivity. Qed.

End Quote.

(* ===================================================================== *)
(** ** src/data/dexscreener.py: the API call and the cached pair lookup *)
(* ===================================================================== *)

Module Dex.

Local Open Scope py_scope.

(** What the module does to the outside world, in order. *)
Inductive Event : Type :=
| EvGet (url : string) (params : PyVal)  (* requests.get(url, params=params, ...) *)
| EvSleep (secs : Z).                    (* time.sleep(secs) *)

(** The world: the history, the cache of [src/memory/cache.py], and the
    number of clock readings taken so far. *)
Record World : Type := mkWorld {
  events : list Event;
  cache : gmap string Cache.CacheEntry;
  clock_reads : nat
}.

Definition is_get (e : Event) : bool :=
  match e with EvGet _ _ => true | EvSleep _ => false end.

(** The seconds slept in a history. *)
Definition slept (evs : list Event) : Z :=
  foldr (fun e acc => match e with EvSleep s => s + acc | _ => acc end) 0 evs.

Definition add_event (e : Event) (w : World) : World :=
  mkWorld (events w ++ [e]) (cache w) (clock_reads w).

(** The world after the events [evs], with the cache and the clock as they
    were. *)
Definition with_events (w : World) (evs : list Event) : World :=
  mkWorld (events w ++ evs) (cache w) (clock_reads w).

(** [time.sleep(secs)] for a length that is not negative. *)
Definition sleep (secs : Z) : @M World unit := modify (add_event (EvSleep secs)).

(** [try: m  except C as e: h e] for the exceptions of a class [C]. *)
Definition try_except_of {A} (C : Exn -> bool) (m : @M World A)
    (h : Exn -> @M World A) : @M World A :=
  fun w =>
    match m w with
    | (Ok a, w') => (Ok a, w')
    | (Raise e, w') => if C e then h e w' else (Raise e, w')
    end.

(** [response.raise_for_status()]. *)
Definition raise_for_status (response : Solana.HttpResponse) : Res unit :=
  if (400 <=? Solana.status_code response) &&
     (Solana.status_code response <? 600)
  then Raise (mkExn "HTTPError" (pretty (Solana.status_code response)))
  else Ok tt.

Definition token_pairs_url : string :=
  "https://api.dexscreener.com/token-pairs/v1".

(** *** A concrete setting *)

(** A server that limits every request, one that is down, and one that
    answers with the given body.  The clock advances a second per reading. *)
Definition limiting_server : list Event -> Res Solana.HttpResponse :=
  fun _ => Ok (Solana.mkHttp 429 (Raise (mkExn "JSONDecodeError" "no body")) "").

Definition server_down : list Event -> Res Solana.HttpResponse :=
  fun _ => Raise (mkExn "ConnectionError" "server unreachable").

Definition serving (body : PyVal) : list Event -> Res Solana.HttpResponse :=
  fun _ => Ok (Solana.mkHttp 200 (Ok body) "").

Definition library_errors (e : Exn) : bool :=
  String.eqb (exn_type e) "ConnectionError".

Definition ticking : nat -> Z := Z.of_nat.

Definition fresh : World := mkWorld [] ∅ 0.

Section Server.

(** The server's answer to a GET, given the history; whether an exception
    raised by the HTTP library is one of its [RequestException]s; and the
    clock, by the number of the reading. *)
Variable http_get : list Event -> Res Solana.HttpResponse.
Variable from_requests : Exn -> bool.
Variable clock : nat -> Z.

(** [except requests.exceptions.RequestException]: the library's own, and
    the [HTTPError] of [raise_for_status]. *)
Definition is_request_exception (e : Exn) : bool :=
  String.eqb (exn_type e) "HTTPError" || from_requests e.

Definition call_get (url : string) (params : PyVal)
    : @M World Solana.HttpResponse :=
  fun w => (http_get (events w), add_event (EvGet url params) w).

(** One pass through the body of the [for] loop of [make_api_call]:
    [Some v] when the pass returns [v] from the function, [None] when the
    loop goes on. *)
Definition api_attempt (url : string) (params : PyVal) (max_retries : Z)
    (attempt : nat) : @M World (option PyVal) :=
  try_except_of is_request_exception
    (response <- call_get url params ;;
     if Solana.status_code response =? 429
     then sleep (2 ^ Z.of_nat attempt) ;;; ret None
     else
       lift (raise_for_status response) ;;;
       v <- lift (Solana.json response) ;;
       ret (Some v))
    (fun e =>
       (if Z.of_nat attempt <? max_retries - 1 then sleep 1 else ret tt) ;;;
       ret None).

Fixpoint api_loop (url : string) (params : PyVal) (max_retries : Z)
    (attempts : list nat) : @M World PyVal :=
  match attempts with
  | [] => ret VNone
  | attempt :: rest =>
      r <- api_attempt url params max_retries attempt ;;
      match r with
      | Some v => ret v
      | None => api_loop url params max_retries rest
      end
  end.

(** [make_api_call(url, params, timeout, max_retries)]. *)
Definition make_api_call (url : string) (params : PyVal) (max_retries : Z)
    : @M World PyVal :=
  api_loop url params max_retries (seq 0 (Z.to_nat max_retries)).

(** [time.time()]. *)
Definition read_clock : @M World Z :=
  fun w => (Ok (clock (clock_reads w)),
            mkWorld (events w) (cache w) (S (clock_reads w))).

(** [get_cached_data(key)] and [cache_data(key, data, ttl_seconds)] of
    [src/memory/cache.py], run on the cache of this world. *)
Definition get_cached_data (key : string) : @M World PyVal :=
  now <- read_clock ;;
  fun w =>
    let r := Cache.get_cached_data now key (cache w) in
    (Ok r.1, mkWorld (events w) r.2 (clock_reads w)).

Definition cache_data (key : string) (v : PyVal) (ttl_seconds : Z)
    : @M World unit :=
  now <- read_clock ;;
  modify (fun w =>
    mkWorld (events w) (Cache.cache_data now key v ttl_seconds (cache w))
            (clock_reads w)).

(** [get_token_pairs(chain_id, token_address)]. *)
Definition get_token_pairs (chain_id token_address : string)
    : @M World PyVal :=
  let cache_key := "dex_token_pairs_" +:+ chain_id +:+ "_" +:+ token_address in
  cached_data <- get_cached_data cache_key ;;
  if truthy cached_data then ret cached_data
  else
    try_except
      (let url := token_pairs_url +:+ "/" +:+ chain_id +:+ "/" +:+
                  token_address in
       data <- make_api_call url VNone 3 ;;
       if negb (truthy data) then ret (VList [])
       else
         let pairs_list :=
           match data with VList _ => data | _ => VList [data] end in
         cache_data cache_key pairs_list 300 ;;;
         ret pairs_list)
      (fun e => ret (VList [])).

(** *** Answers of the server, for the statements below *)

(** The server limits the request: HTTP 429. *)
Definition rate_limited (r : Res Solana.HttpResponse) : Prop :=
  exists resp, r = Ok resp /\ Solana.status_code resp = 429.

(** The request fails with a [RequestException]: the library raises one,
    the status is an HTTP error other than 429, or the body of a good
    status cannot be decoded by a library that counts that as one. *)
Definition request_fails (r : Res Solana.HttpResponse) : Prop :=
  match r with
  | Raise e => from_requests e = true
  | Ok resp =>
      Solana.status_code resp <> 429 /\
      (is_ok (raise_for_status resp) = false \/
       exists e, Solana.json resp = Raise e /\ from_requests e = true)
  end.

(** What the call leaves in the history when every request is limited: a
    request and a sleep of [2^attempt] seconds per attempt, also after the
    last one. *)
Fixpoint limited_schedule (url : string) (params : PyVal)
    (attempts : list nat) : list Event :=
  match attempts with
  | [] => []
  | a :: rest =>
      EvGet url params :: EvSleep (2 ^ Z.of_nat a) ::
      limited_schedule url params rest
  end.

(** And when every request fails: a request per attempt, and a sleep of
    one second after each but the last. *)
Fixpoint failed_schedule (url : string) (params : PyVal) (max_retries : Z)
    (attempts : list nat) : list Event :=
  match attempts with
  | [] => []
  | a :: rest =>
      EvGet url params ::
      (if Z.of_nat a <? max_retries - 1 then [EvSleep 1] else []) ++
      failed_schedule url params max_retries rest
  end.

(** *** Properties of the API call *)

Lemma with_events_nil (w : World) : with_events w [] = w.
Proof. destruct w. unfold with_events. simpl. by rewrite app_nil_r. Qed.

Lemma with_events_app (w : World) (evs1 evs2 : list Event) :
  with_events (with_events w evs1) evs2 = with_events w (evs1 ++ evs2).
Proof. unfold with_events. simpl. by rewrite app_assoc. Qed.

Lemma api_attempt_spec (url : string) (params : PyVal) (n : Z) (a : nat)
    (w : World) :
  exists evs,
    (api_attempt url params n a w).2 = with_events w evs /\
    (length (List.filter is_get evs) <= 1)%nat /\
    match (api_attempt url params n a w).1 with
    | Ok (Some v) =>
        exists h resp,
          http_get h = Ok resp /\ Solana.status_code resp <> 429 /\
          raise_for_status resp = Ok tt /\ Solana.json resp = Ok v
    | Ok None => True
    | Raise e => is_request_exception e = false
    end.
Proof.
  unfold api_attempt, try_except_of, bind, call_get, lift, ret, sleep, modify.
  destruct (http_get (events w)) as [resp|e] eqn:Hget; cbv beta iota zeta.
  - destruct (Z.eqb_spec (Solana.status_code resp) 429) as [H429|H429].
    { exists [EvGet url params; EvSleep (2 ^ Z.of_nat a)].
      unfold add_event, with_events. simpl. rewrite <- app_assoc.
      split; [done|]. split; [lia|done]. }
    destruct (raise_for_status resp) as [[]|e] eqn:Hst; cbv beta iota zeta.
    + destruct (Solana.json resp) as [v|e] eqn:Hj; cbv beta iota zeta.
      * exists [EvGet url params]. split; [done|]. split; [simpl; lia|].
        exists (events w), resp. done.
      * destruct (is_request_exception e) eqn:He.
        -- destruct (Z.of_nat a <? n - 1); cbv beta iota zeta.
           ++ exists [EvGet url params; EvSleep 1].
              unfold add_event, with_events. simpl. rewrite <- app_assoc.
              split; [done|]. split; [lia|done].
           ++ exists [EvGet url params]. split; [done|]. split; [simpl; lia|done].
        -- exists [EvGet url params]. split; [done|]. split; [simpl; lia|done].
    + assert (He : is_request_exception e = true).
      { unfold raise_for_status in Hst.
        destruct (_ && _); [|done]. by injection Hst as <-. }
      rewrite He.
      destruct (Z.of_nat a <? n - 1); cbv beta iota zeta.
      * exists [EvGet url params; EvSleep 1].
        unfold add_event, with_events. simpl. rewrite <- app_assoc.
        split; [done|]. split; [lia|done].
      * exists [EvGet url params]. split; [done|]. split; [simpl; lia|done].
  - destruct (is_request_exception e) eqn:He.
    + destruct (Z.of_nat a <? n - 1); cbv beta iota zeta.
      * exists [EvGet url params; EvSleep 1].
        unfold add_event, with_events. simpl. rewrite <- app_assoc.
        split; [done|]. split; [lia|done].
      * exists [EvGet url params]. split; [done|]. split; [simpl; lia|done].
    + exists [EvGet url params]. split; [done|]. split; [simpl; lia|done].
Qed.

Lemma api_loop_spec (url : string) (params : PyVal) (n : Z)
    (attempts : list nat) (w : World) :
  exists evs,
    (api_loop url params n attempts w).2 = with_events w evs /\
    (length (List.filter is_get evs) <= length attempts)%nat /\
    match (api_loop url params n attempts w).1 with
    | Ok v =>
        v = VNone \/
        exists h resp,
          http_get h = Ok resp /\ Solana.status_code resp <> 429 /\
          raise_for_status resp = Ok tt /\ Solana.json resp = Ok v
    | Raise e => is_request_exception e = false
    end.
Proof.
  revert w. induction attempts as [|a rest IH]; intros w.
  - exists []. simpl. rewrite with_events_nil. split; [done|].
    split; [lia|by left].
  - destruct (api_attempt_spec url params n a w) as (evs1 & Hw & Hq & Hr).
    cbn [api_loop]. unfold bind.
    destruct (api_attempt url params n a w) as [[[v|]|e] w1] eqn:Ha;
      simpl in Hw, Hr; subst w1.
    + exists evs1. simpl. split; [done|]. split; [lia|by right].
    + destruct (IH (with_events w evs1)) as (evs2 & Hw2 & Hq2 & Hr2).
      exists (evs1 ++ evs2). rewrite Hw2, with_events_app. split; [done|].
      rewrite List.filter_app, length_app. simpl. split; [lia|done].
    + exists evs1. simpl. split; [done|]. split; [lia|done].
Qed.

(** Whatever the server does, [make_api_call] sends at most [max_retries]
    requests and leaves the cache alone.  What it returns is [None] or the
    decoded body of a reply whose status is neither 429 nor an HTTP error;
    what it raises is no [RequestException]. *)
Theorem make_api_call_answers (url : string) (params : PyVal) (n : Z)
    (w : World) :
  exists evs,
    (make_api_call url params n w).2 = with_events w evs /\
    (length (List.filter is_get evs) <= Z.to_nat n)%nat /\
    match (make_api_call url params n w).1 with
    | Ok v =>
        v = VNone \/
        exists h resp,
          http_get h = Ok resp /\ Solana.status_code resp <> 429 /\
          raise_for_status resp = Ok tt /\ Solana.json resp = Ok v
    | Raise e => is_request_exception e = false
    end.
Proof.
  unfold make_api_call.
  destruct (api_loop_spec url params n (seq 0 (Z.to_nat n)) w)
    as (evs & Hw & Hq & Hr).
  exists evs. rewrite length_seq in Hq. done.
Qed.

Lemma api_loop_limited (url : string) (params : PyVal) (n : Z)
    (attempts : list nat) (w : World) :
  (forall h, rate_limited (http_get h)) ->
  api_loop url params n attempts w =
  (Ok VNone, with_events w (limited_schedule url params attempts)).
Proof.
  intros Hall. revert w. induction attempts as [|a rest IH]; intros w.
  - simpl. unfold ret. by rewrite with_events_nil.
  - cbn [api_loop limited_schedule]. unfold bind at 1.
    assert (Ha : api_attempt url params n a w =
              (Ok None, with_events w [EvGet url params;
                                       EvSleep (2 ^ Z.of_nat a)])).
    { unfold api_attempt, try_except_of, bind, call_get, lift, ret, sleep,
        modify.
      destruct (Hall (events w)) as (resp & -> & Hst). cbv beta iota zeta.
      rewrite Hst. simpl. unfold add_event, with_events. simpl.
      by rewrite <- app_assoc. }
    rewrite Ha, IH, with_events_app. done.
Qed.

Lemma api_loop_failed (url : string) (params : PyVal) (n : Z)
    (attempts : list nat) (w : World) :
  (forall h, request_fails (http_get h)) ->
  api_loop url params n attempts w =
  (Ok VNone, with_events w (failed_schedule url params n attempts)).
Proof.
  intros Hall. revert w. induction attempts as [|a rest IH]; intros w.
  - simpl. unfold ret. by rewrite with_events_nil.
  - cbn [api_loop failed_schedule]. unfold bind at 1.
    assert (Ha : api_attempt url params n a w =
              (Ok None,
               with_events w
                 (EvGet url params ::
                  (if Z.of_nat a <? n - 1 then [EvSleep 1] else [])))).
    { unfold api_attempt, try_except_of, bind, call_get, lift, ret, sleep,
        modify.
      specialize (Hall (events w)).
      destruct (http_get (events w)) as [resp|e]; simpl in Hall;
        cbv beta iota zeta.
      - destruct Hall as [H429 Hfail].
        destruct (Z.eqb_spec (Solana.status_code resp) 429); [done|].
        destruct (raise_for_status resp) as [[]|e] eqn:Hst; cbv beta iota zeta.
        + destruct Hfail as [?|(e & -> & He)]; [done|]. cbv beta iota zeta.
          unfold is_request_exception. rewrite He, orb_true_r.
          destruct (Z.of_nat a <? n - 1); cbv beta iota zeta;
            unfold add_event, with_events; simpl; by rewrite <- ?app_assoc.
        + assert (He : is_request_exception e = true).
          { unfold raise_for_status in Hst.
            destruct (_ && _); [|done]. by injection Hst as <-. }
          rewrite He.
          destruct (Z.of_nat a <? n - 1); cbv beta iota zeta;
            unfold add_event, with_events; simpl; by rewrite <- ?app_assoc.
      - unfold is_request_exception. rewrite Hall, orb_true_r.
        destruct (Z.of_nat a <? n - 1); cbv beta iota zeta;
          unfold add_event, with_events; simpl; by rewrite <- ?app_assoc. }
    rewrite Ha, IH, with_events_app. done.
Qed.

Lemma gets_limited_schedule (url : string) (params : PyVal)
    (attempts : list nat) :
  length (List.filter is_get (limited_schedule url params attempts)) =
  length attempts.
Proof. induction attempts as [|a rest IH]; simpl; [done|by rewrite IH]. Qed.

Lemma gets_failed_schedule (url : string) (params : PyVal) (n : Z)
    (attempts : list nat) :
  length (List.filter is_get (failed_schedule url params n attempts)) =
  length attempts.
Proof.
  induction attempts as [|a rest IH]; [done|]. cbn [failed_schedule].
  destruct (Z.of_nat a <? n - 1); simpl; by rewrite IH.
Qed.

Lemma slept_limited_schedule (url : string) (params : PyVal) (m a : nat) :
  slept (limited_schedule url params (seq a m)) =
  2 ^ Z.of_nat (a + m) - 2 ^ Z.of_nat a.
Proof.
  revert a. induction m as [|m IH]; intros a.
  - simpl. replace (a + 0)%nat with a by lia. lia.
  - cbn [seq limited_schedule].
    change (slept (EvGet url params :: EvSleep ?s :: ?l)) with (s + slept l).
    rewrite (IH (S a)).
    replace (Z.of_nat (S a)) with (Z.of_nat a + 1) by lia.
    replace (Z.of_nat (S a + m)) with (Z.of_nat (a + S m)) by lia.
    rewrite Z.pow_add_r by lia. lia.
Qed.

Lemma slept_failed_schedule (url : string) (params : PyVal) (n : Z)
    (m a : nat) :
  Z.of_nat a + Z.of_nat (S m) = n ->
  slept (failed_schedule url params n (seq a (S m))) = Z.of_nat m.
Proof.
  revert a. induction m as [|m IH]; intros a Hn.
  - cbn [seq failed_schedule].
    destruct (Z.ltb_spec (Z.of_nat a) (n - 1)); [lia|done].
  - change (seq a (S (S m))) with (a :: seq (S a) (S m)).
    cbn [failed_schedule].
    destruct (Z.ltb_spec (Z.of_nat a) (n - 1)); [|lia].
    change (slept (EvGet url params :: [EvSleep 1] ++ ?l)) with (1 + slept l).
    rewrite (IH (S a)) by lia. lia.
Qed.

(** When [make_api_call] gives up, for [n > 0] attempts.  Against a server
    that limits every request it sends [n] requests, sleeps [2^k] seconds
    after attempt [k], the last one included, [2^n - 1] seconds in all, and
    returns [None].  When every request fails with a [RequestException] it
    sends [n] requests, sleeps one second after each but the last, and
    returns [None]. *)
Theorem make_api_call_gives_up (url : string) (params : PyVal) (n : Z)
    (w : World) :
  0 < n ->
  ((forall h, rate_limited (http_get h)) ->
   exists evs,
     make_api_call url params n w = (Ok VNone, with_events w evs) /\
     length (List.filter is_get evs) = Z.to_nat n /\
     slept evs = 2 ^ n - 1) /\
  ((forall h, request_fails (http_get h)) ->
   exists evs,
     make_api_call url params n w = (Ok VNone, with_events w evs) /\
     length (List.filter is_get evs) = Z.to_nat n /\
     slept evs = n - 1).
Proof.
  intros Hn. unfold make_api_call. split; intros Hall.
  - rewrite api_loop_limited by done. eexists. split; [reflexivity|].
    rewrite gets_limited_schedule, length_seq, slept_limited_schedule.
    split; [done|]. simpl. replace (Z.of_nat (Z.to_nat n)) with n by lia. lia.
  - rewrite api_loop_failed by done. eexists. split; [reflexivity|].
    rewrite gets_failed_schedule, length_seq. split; [done|].
    destruct (Z.to_nat n) as [|m] eqn:Hm; [lia|].
    rewrite slept_failed_schedule by lia. lia.
Qed.

(** *** The cached pair lookup *)

(** A reply the call takes: no 429, no HTTP error, and a body [data]. *)
Lemma make_api_call_first_reply (url : string) (params data : PyVal)
    (w : World) (resp : Solana.HttpResponse) :
  http_get (events w) = Ok resp ->
  Solana.status_code resp <> 429 ->
  raise_for_status resp = Ok tt ->
  Solana.json resp = Ok data ->
  make_api_call url params 3 w = (Ok data, add_event (EvGet url params) w).
Proof.
  intros Hget H429 Hst Hj.
  unfold make_api_call. change (seq 0 (Z.to_nat 3)) with [0; 1; 2]%nat.
  cbn [api_loop]. unfold bind at 1, api_attempt, try_except_of, bind, call_get, lift, ret.
  rewrite Hget. cbv beta iota zeta.
  destruct (Z.eqb_spec (Solana.status_code resp) 429); [done|].
  by rewrite Hst, Hj.
Qed.

(** [get_token_pairs] caches what it fetched, and only that.  On a cache
    miss with a reply whose body is not empty, the pairs are returned after
    one request, and a second call, made while the clock has not passed the
    300 seconds of the entry, returns the same pairs without any request.
    A reply with an empty body gives the empty list and leaves the cache as
    it was, so the next call asks the server again. *)
Theorem get_token_pairs_caches_what_it_fetched
    (chain_id token_address : string) (data : PyVal) (w : World)
    (resp : Solana.HttpResponse) :
  let key := "dex_token_pairs_" +:+ chain_id +:+ "_" +:+ token_address in
  let url := token_pairs_url +:+ "/" +:+ chain_id +:+ "/" +:+ token_address in
  let pairs := match data with VList _ => data | _ => VList [data] end in
  let r := get_token_pairs chain_id token_address w in
  cache w !! key = None ->
  http_get (events w) = Ok resp ->
  Solana.status_code resp <> 429 ->
  raise_for_status resp = Ok tt ->
  Solana.json resp = Ok data ->
  events r.2 = events w ++ [EvGet url VNone] /\
  (truthy data = true ->
   r.1 = Ok pairs /\
   (clock (2 + clock_reads w) <= clock (1 + clock_reads w) + 300 ->
    let r' := get_token_pairs chain_id token_address r.2 in
    r'.1 = Ok pairs /\ events r'.2 = events r.2 /\ cache r'.2 = cache r.2)) /\
  (truthy data = false -> r.1 = Ok (VList []) /\ cache r.2 = cache w).
Proof.
  intros key url pairs r Hmiss Hget H429 Hst Hj.
  assert (Hr : r =
    if truthy data
    then (Ok pairs,
          mkWorld (events w ++ [EvGet url VNone])
            (Cache.cache_data (clock (S (clock_reads w))) key pairs 300 (cache w))
            (S (S (clock_reads w))))
    else (Ok (VList []),
          mkWorld (events w ++ [EvGet url VNone]) (cache w)
            (S (clock_reads w)))).
  { unfold r, get_token_pairs. fold key. fold url.
    unfold bind at 1, get_cached_data, bind at 1, read_clock.
    cbv beta iota zeta. unfold Cache.get_cached_data. cbn [cache].
    rewrite Hmiss. cbn [fst snd truthy].
    unfold try_except, bind at 1.
    rewrite (make_api_call_first_reply url VNone data _ resp) by done.
    fold pairs. destruct (truthy data); [|done].
    cbn [negb]. unfold bind, cache_data, bind, read_clock, modify, ret.
    done. }
  rewrite Hr. destruct (truthy data) eqn:Htr.
  - split; [done|]. split; [|done]. intros _. split; [done|].
    intros Hclock r'.
    assert (Hpairs : truthy pairs = true)
      by (unfold pairs; destruct data; done).
    set (w1 := mkWorld (events w ++ [EvGet url VNone])
                 (Cache.cache_data (clock (S (clock_reads w))) key pairs 300
                    (cache w))
                 (S (S (clock_reads w)))) in *.
    assert (Hr' : r' = (Ok pairs,
                        mkWorld (events w1) (cache w1) (S (clock_reads w1)))).
    { unfold r', get_token_pairs. fold key. cbn [snd].
      unfold bind at 1, get_cached_data, bind at 1, read_clock.
      cbv beta iota zeta. unfold Cache.get_cached_data, w1, Cache.cache_data.
      cbn [cache clock_reads events snd fst]. rewrite lookup_insert_eq.
      cbn [Cache.expiry Cache.data].
      destruct (Z.gtb_spec (clock (S (S (clock_reads w))))
                  (clock (S (clock_reads w)) + 300)) as [Hgt|_];
        [simpl in Hclock; lia|].
      cbn [fst snd]. by rewrite Hpairs. }
    rewrite Hr'. done.
  - split; [done|]. split; [done|]. intros _. done.
Qed.

End Server.

(** Three attempts against a server that limits every request, and
    against one that is down. *)
Lemma make_api_call_gives_up_witness :
  0 < 3 /\
  (forall h, rate_limited (limiting_server h)) /\
  (forall h, request_fails library_errors (server_down h)) /\
  (exists evs,
     make_api_call limiting_server library_errors token_pairs_url VNone 3
       fresh = (Ok VNone, with_events fresh evs) /\
     length (List.filter is_get evs) = 3%nat /\ slept evs = 7) /\
  (exists evs,
     make_api_call server_down library_errors token_pairs_url VNone 3
       fresh = (Ok VNone, with_events fresh evs) /\
     length (List.filter is_get evs) = 3%nat /\ slept evs = 2).
Proof.
  assert (H1 : forall h, rate_limited (limiting_server h))
    by (intros h; eexists; split; reflexivity).
  assert (H2 : forall h, request_fails library_errors (server_down h))
    by (intros h; reflexivity).
  split; [lia|]. split; [exact H1|]. split; [exact H2|]. split.
  - exact (proj1 (make_api_call_gives_up limiting_server library_errors
                    token_pairs_url VNone 3 fresh ltac:(lia)) H1).
  - exact (proj2 (make_api_call_gives_up server_down library_errors
                    token_pairs_url VNone 3 fresh ltac:(lia)) H2).
Defined.

(** One pair on the server, an empty cache, and a clock that advances a
    second per reading: the second call is served from the cache. *)
Lemma get_token_pairs_caches_what_it_fetched_witness :
  let pair := VDict {[ "pairAddress" := VStr "8sLbNZoA1cfnvMJLPfp98ZLAnFSYCFApfJKMbiXNLwxj" ]} in
  let r := get_token_pairs (serving (VList [pair])) library_errors ticking
             "solana" "So11111111111111111111111111111111111111112" fresh in
  r.1 = Ok (VList [pair]) /\
  (get_token_pairs (serving (VList [pair])) library_errors ticking
     "solana" "So11111111111111111111111111111111111111112" r.2).1 =
    Ok (VList [pair]) /\
  events (get_token_pairs (serving (VList [pair])) library_errors ticking
     "solana" "So11111111111111111111111111111111111111112" r.2).2 = events r.2.
Proof.
  intros pair r.
  destruct (get_token_pairs_caches_what_it_fetched (serving (VList [pair]))
              library_errors ticking
              "solana" "So11111111111111111111111111111111111111112"
              (VList [pair]) fresh (Solana.mkHttp 200 (Ok (VList [pair])) "")
              eq_refl eq_refl ltac:(discriminate) eq_refl eq_refl)
    as (_ & Hhit & _).
  destruct (Hhit eq_refl) as (Hr & Hagain).
  destruct (Hagain ltac:(unfold ticking; simpl; lia)) as (H1 & H2 & _).
  split; [exact Hr|]. split; [exact H1|exact H2].
Defined.

End Dex.

(* ===================================================================== *)
(** ** src/data/dexscreener.py: the token filters, and the filter tool of
       src/agent/langgraph_trading_agent.py *)
(* ===================================================================== *)

Module Filters.

(** [r >>= k] on results. *)
Definition and_then {A B} (r : Res A) (k : A -> Res B) : Res B :=
  match r with
  | Ok a => k a
  | Raise e => Raise e
  end.

(** The integer or float behind a number; a [bool] is the integer 0 or 1. *)
Definition as_number (v : PyVal) : option (Z + float) :=
  match v with
  | VInt z => Some (inl z)
  | VBool b => Some (inl (Z.b2z b))
  | VFloat f => Some (inr f)
  | _ => None
  end.

(** An integer against a float, exactly; [None] when the float is a NaN. *)
Definition compare_Z_float (z : Z) (f : float) : option comparison :=
  match Prim2SF f with
  | S754_nan => None
  | S754_infinity s => Some (if s then Gt else Lt)
  | S754_zero _ => Some (z ?= 0)
  | S754_finite s m e =>
      let sm := if s then Z.neg m else Z.pos m in
      if 0 <=? e then Some (z ?= sm * 2 ^ e) else Some (z * 2 ^ (- e) ?= sm)
  end.

Definition compare_floats (f g : float) : option comparison :=
  match PrimFloat.compare f g with
  | FEq => Some Eq
  | FLt => Some Lt
  | FGt => Some Gt
  | FNotComparable => None
  end.

Definition compare_numbers (x y : Z + float) : option comparison :=
  match x, y with
  | inl a, inl b => Some (a ?= b)
  | inl a, inr g => compare_Z_float a g
  | inr f, inl b => option_map CompOpp (compare_Z_float b f)
  | inr f, inr g => compare_floats f g
  end.

(** [type(v).__name__]. *)
Definition type_name (v : PyVal) : string :=
  match v with
  | VNone => "NoneType"
  | VBool _ => "bool"
  | VInt _ => "int"
  | VFloat _ => "float"
  | VStr _ => "str"
  | VList _ => "list"
  | VDict _ => "dict"
  end.

(** The comparison operators of the filters. *)
Inductive Op : Type := OpLt | OpLe | OpGt | OpGe.

Definition op_symbol (op : Op) : string :=
  match op with OpLt => "<" | OpLe => "<=" | OpGt => ">" | OpGe => ">=" end.

(** Whether the operator holds for an ordering; nothing holds for an
    unordered pair. *)
Definition holds (op : Op) (c : option comparison) : bool :=
  match op, c with
  | OpLt, Some Lt => true
  | OpLe, Some (Lt | Eq) => true
  | OpGt, Some Gt => true
  | OpGe, Some (Gt | Eq) => true
  | _, _ => false
  end.

(** [f"{v:,.0f}"] can be rendered for numbers only. *)
Definition format_comma_0f (v : PyVal) : Res unit :=
  match v with
  | VInt _ | VFloat _ | VBool _ => Ok tt
  | VStr _ =>
      Raise (mkExn "ValueError"
               "Unknown format code 'f' for object of type 'str'")
  | _ => Raise (TypeError "unsupported format string passed to __format__")
  end.

Definition is_none (v : PyVal) : bool :=
  match v with VNone => true | _ => false end.

(** [[x for x in l if p(x)]]: the first test that raises ends it. *)
Fixpoint filterM (p : PyVal -> Res bool) (l : list PyVal) : Res (list PyVal) :=
  match l with
  | [] => Ok []
  | x :: rest =>
      and_then (p x) (fun keep =>
      and_then (filterM p rest) (fun kept =>
      Ok (if keep then x :: kept else kept)))
  end.

(** *** A concrete setting *)

(** Lists are ordered by their lengths here, which is enough for tokens
    whose fields are numbers. *)
Definition by_length (l1 l2 : list PyVal) : Res (option comparison) :=
  Ok (Some (Nat.compare (length l1) (length l2))).

Definition token (symbol : string) (liquidity age : Z) : PyVal :=
  VDict (list_to_map [("symbol", VStr symbol);
                      ("liquidity_usd", VInt liquidity);
                      ("age_hours", VInt age)]).

Section Ordering.

(** How Python orders two lists, which compares their elements with [==]
    first. *)
Variable compare_lists : list PyVal -> list PyVal -> Res (option comparison).

(** [a op b] for one of [<], [<=], [>], [>=]: defined between numbers,
    between strings and between lists. *)
Definition py_compare (op : Op) (a b : PyVal) : Res bool :=
  match as_number a, as_number b with
  | Some x, Some y => Ok (holds op (compare_numbers x y))
  | _, _ =>
      match a, b with
      | VStr s, VStr t => Ok (holds op (Some (String.compare s t)))
      | VList l1, VList l2 =>
          and_then (compare_lists l1 l2) (fun c => Ok (holds op c))
      | _, _ =>
          Raise (TypeError
            ("'" +:+ op_symbol op +:+ "' not supported between instances of '"
             +:+ type_name a +:+ "' and '" +:+ type_name b +:+ "'"))
      end
  end.

(** [filter_tokens_by_age(tokens, max_age_hours)]. *)
Definition filter_tokens_by_age (tokens : list PyVal) (max_age_hours : PyVal)
    : Res (list PyVal) :=
  filterM (fun token =>
    and_then (dict_get token "age_hours" (VInt 0)) (fun age =>
    py_compare OpLe age max_age_hours)) tokens.

(** [filter_tokens_by_liquidity(tokens, min_liquidity_usd,
    max_liquidity_usd)]; the log line formats the minimum. *)
Definition filter_tokens_by_liquidity (tokens : list PyVal)
    (min_liquidity_usd max_liquidity_usd : PyVal) : Res (list PyVal) :=
  and_then
    (filterM (fun token =>
       and_then (dict_get token "liquidity_usd" (VInt 0)) (fun liquidity =>
       and_then (py_compare OpGe liquidity min_liquidity_usd) (fun above =>
       if above then
         if is_none max_liquidity_usd then Ok true
         else py_compare OpLe liquidity max_liquidity_usd
       else Ok false))) tokens)
    (fun filtered =>
     and_then (format_comma_0f min_liquidity_usd) (fun _ => Ok filtered)).

(** [filter_tokens_by_volume(tokens, min_volume_24h)]. *)
Definition filter_tokens_by_volume (tokens : list PyVal)
    (min_volume_24h : PyVal) : Res (list PyVal) :=
  and_then
    (filterM (fun token =>
       and_then (dict_get token "volume_24h" (VInt 0)) (fun volume =>
       py_compare OpGe volume min_volume_24h)) tokens)
    (fun filtered =>
     and_then (format_comma_0f min_volume_24h) (fun _ => Ok filtered)).

(** [filter_tokens_by_market_cap(tokens, min_market_cap, max_market_cap)];
    a market cap that is missing or zero is replaced by the [fdv]. *)
Definition filter_tokens_by_market_cap (tokens : list PyVal)
    (min_market_cap max_market_cap : PyVal) : Res (list PyVal) :=
  and_then
    (filterM (fun token =>
       and_then (dict_get token "market_cap" (VInt 0)) (fun cap =>
       and_then (if truthy cap then Ok cap
                 else dict_get token "fdv" (VInt 0)) (fun market_cap =>
       and_then (py_compare OpGe market_cap min_market_cap) (fun above =>
       if above then
         if is_none max_market_cap then Ok true
         else py_compare OpLe market_cap max_market_cap
       else Ok false)))) tokens)
    (fun filtered =>
     and_then (format_comma_0f min_market_cap) (fun _ => Ok filtered)).

(** [filter_tokens_by_price_change(tokens, min_change_24h,
    max_change_24h)]. *)
Definition filter_tokens_by_price_change (tokens : list PyVal)
    (min_change_24h max_change_24h : PyVal) : Res (list PyVal) :=
  filterM (fun token =>
    and_then (dict_get token "price_change_24h" (VInt 0)) (fun change_24h =>
    and_then (if is_none min_change_24h then Ok false
              else py_compare OpLt change_24h min_change_24h) (fun below =>
    and_then (if is_none max_change_24h then Ok false
              else py_compare OpGt change_24h max_change_24h) (fun above =>
    Ok (negb below && negb above))))) tokens.

(** The bounds of one call of the filter tool; [None] for a bound that is
    not given. *)
Record Bounds : Type := mkBounds {
  max_age_hours : PyVal;
  min_liquidity_usd : PyVal;
  max_liquidity_usd : PyVal;
  min_volume_24h : PyVal;
  min_market_cap : PyVal;
  max_market_cap : PyVal;
  min_price_change_24h : PyVal;
  max_price_change_24h : PyVal
}.

(** Lines 157-172 of [filter_tokens_tool]: the filters whose bounds are
    given, in order. *)
Definition apply_filters (tokens : list PyVal) (b : Bounds)
    : Res (list PyVal) :=
  and_then (if is_none (max_age_hours b) then Ok tokens
            else filter_tokens_by_age tokens (max_age_hours b))
    (fun filtered =>
  and_then (if is_none (min_liquidity_usd b) && is_none (max_liquidity_usd b)
            then Ok filtered
            else filter_tokens_by_liquidity filtered (min_liquidity_usd b)
                   (max_liquidity_usd b))
    (fun filtered =>
  and_then (if is_none (min_volume_24h b) then Ok filtered
            else filter_tokens_by_volume filtered (min_volume_24h b))
    (fun filtered =>
  and_then (if is_none (min_market_cap b) && is_none (max_market_cap b)
            then Ok filtered
            else filter_tokens_by_market_cap filtered (min_market_cap b)
                   (max_market_cap b))
    (fun filtered =>
  if is_none (min_price_change_24h b) && is_none (max_price_change_24h b)
  then Ok filtered
  else filter_tokens_by_price_change filtered (min_price_change_24h b)
         (max_price_change_24h b))))).

(** [filter_tokens_tool(tokens, ...)] of the LangGraph agent, called when
    the clock reads [timestamp]. *)
Definition filter_tokens_tool (tokens : list PyVal) (b : Bounds)
    (timestamp : string) : gmap string PyVal :=
  match apply_filters tokens b with
  | Ok filtered =>
      Trade.dict_of
        [("success", VBool true);
         ("tokens", VList filtered);
         ("count", VInt (Z.of_nat (length filtered)));
         ("original_count", VInt (Z.of_nat (length tokens)));
         ("filters_applied", VDict (Trade.dict_of
            [("max_age_hours", max_age_hours b);
             ("min_liquidity_usd", min_liquidity_usd b);
             ("max_liquidity_usd", max_liquidity_usd b);
             ("min_volume_24h", min_volume_24h b);
             ("min_market_cap", min_market_cap b);
             ("max_market_cap", max_market_cap b);
             ("min_price_change_24h", min_price_change_24h b);
             ("max_price_change_24h", max_price_change_24h b)]));
         ("timestamp", VStr timestamp)]
  | Raise e =>
      Trade.dict_of [("success", VBool false); ("error", VStr (exn_msg e))]
  end.

(** *** Properties of the filters *)

Lemma filterM_sublist (p : PyVal -> Res bool) (l kept : list PyVal) :
  filterM p l = Ok kept -> kept `sublist_of` l.
Proof.
  revert kept. induction l as [|x l IH]; intros kept.
  - intros [= <-]. done.
  - cbn [filterM]. unfold and_then.
    destruct (p x) as [keep|e]; [|done].
    destruct (filterM p l) as [k|e]; [|done].
    intros [= <-]. specialize (IH k eq_refl).
    destruct keep; [by apply sublist_skip|by apply sublist_cons].
Qed.

Lemma and_then_format_sublist (r : Res (list PyVal)) (v : PyVal)
    (l kept : list PyVal) :
  (forall k, r = Ok k -> k `sublist_of` l) ->
  and_then r (fun filtered =>
    and_then (format_comma_0f v) (fun _ => Ok filtered)) = Ok kept ->
  kept `sublist_of` l.
Proof.
  intros Hr. unfold and_then. destruct r as [k|e]; [|done].
  destruct (format_comma_0f v); [|done]. intros [= <-]. by apply Hr.
Qed.

Lemma apply_filters_sublist (tokens kept : list PyVal) (b : Bounds) :
  apply_filters tokens b = Ok kept -> kept `sublist_of` tokens.
Proof.
  unfold apply_filters.
  set (s1 := if is_none (max_age_hours b) then _ else _).
  assert (H1 : forall k, s1 = Ok k -> k `sublist_of` tokens).
  { intros k. unfold s1. destruct (is_none _); [by intros [= <-]|].
    apply filterM_sublist. }
  destruct s1 as [f1|e]; [|done]. specialize (H1 f1 eq_refl).
  cbn [and_then].
  set (s2 := if is_none (min_liquidity_usd b) && _ then _ else _).
  assert (H2 : forall k, s2 = Ok k -> k `sublist_of` f1).
  { intros k. unfold s2. destruct (_ && _); [by intros [= <-]|].
    apply and_then_format_sublist. intros k'. apply filterM_sublist. }
  destruct s2 as [f2|e]; [|done]. specialize (H2 f2 eq_refl).
  cbn [and_then].
  set (s3 := if is_none (min_volume_24h b) then _ else _).
  assert (H3 : forall k, s3 = Ok k -> k `sublist_of` f2).
  { intros k. unfold s3. destruct (is_none _); [by intros [= <-]|].
    apply and_then_format_sublist. intros k'. apply filterM_sublist. }
  destruct s3 as [f3|e]; [|done]. specialize (H3 f3 eq_refl).
  cbn [and_then].
  set (s4 := if is_none (min_market_cap b) && _ then _ else _).
  assert (H4 : forall k, s4 = Ok k -> k `sublist_of` f3).
  { intros k. unfold s4. destruct (_ && _); [by intros [= <-]|].
    apply and_then_format_sublist. intros k'. apply filterM_sublist. }
  destruct s4 as [f4|e]; [|done]. specialize (H4 f4 eq_refl).
  cbn [and_then].
  intros H5.
  assert (kept `sublist_of` f4).
  { destruct (_ && _); [by injection H5 as <-|].
    by apply filterM_sublist in H5. }
  by repeat (etrans; [eassumption|]).
Qed.

(** The filter tool only removes tokens.  Whatever the bounds, its answer
    is a failure envelope or a success envelope whose tokens are tokens of
    the input in their original order, with [count] their number, at most
    [original_count]; and with no bound given the tokens come back
    unchanged. *)
Theorem filter_tokens_tool_only_removes (tokens : list PyVal) (b : Bounds)
    (timestamp : string) :
  let env := filter_tokens_tool tokens b timestamp in
  ((exists message,
      env = Trade.dict_of [("success", VBool false);
                           ("error", VStr message)]) \/
   (exists kept,
      kept `sublist_of` tokens /\
      env !! "success" = Some (VBool true) /\
      env !! "tokens" = Some (VList kept) /\
      env !! "count" = Some (VInt (Z.of_nat (length kept))) /\
      env !! "original_count" = Some (VInt (Z.of_nat (length tokens))) /\
      (length kept <= length tokens)%nat)) /\
  (b = mkBounds VNone VNone VNone VNone VNone VNone VNone VNone ->
   env !! "tokens" = Some (VList tokens)).
Proof.
  intros env. subst env. unfold filter_tokens_tool. split.
  - destruct (apply_filters tokens b) as [kept|e] eqn:Hf; [right|left; eauto].
    apply apply_filters_sublist in Hf. exists kept.
    split; [done|]. repeat split; try reflexivity.
    by apply sublist_length.
  - intros ->. reflexivity.
Qed.

Lemma filterM_first_raises (p : PyVal -> Res bool) (x : PyVal)
    (l : list PyVal) :
  is_ok (p x) = false -> is_ok (filterM p (x :: l)) = false.
Proof. cbn [filterM]. unfold and_then. by destruct (p x). Qed.

Lemma py_compare_none (op : Op) (a : PyVal) :
  is_ok (py_compare op a VNone) = false.
Proof. unfold py_compare. destruct (as_number a); by destruct a. Qed.

Lemma filter_tokens_by_liquidity_no_minimum (tokens : list PyVal)
    (upper : PyVal) :
  is_ok (filter_tokens_by_liquidity tokens VNone upper) = false.
Proof.
  unfold filter_tokens_by_liquidity. destruct tokens as [|x l]; [done|].
  match goal with |- is_ok (and_then ?r _) = false =>
    assert (Hr : is_ok r = false); [|by destruct r] end.
  apply filterM_first_raises. unfold and_then.
  destruct (dict_get x "liquidity_usd" (VInt 0)) as [v|e]; [|done].
  pose proof (py_compare_none OpGe v) as Hc.
  by destruct (py_compare OpGe v VNone).
Qed.

Lemma filter_tokens_by_market_cap_no_minimum (tokens : list PyVal)
    (upper : PyVal) :
  is_ok (filter_tokens_by_market_cap tokens VNone upper) = false.
Proof.
  unfold filter_tokens_by_market_cap. destruct tokens as [|x l]; [done|].
  match goal with |- is_ok (and_then ?r _) = false =>
    assert (Hr : is_ok r = false); [|by destruct r] end.
  apply filterM_first_raises. unfold and_then.
  destruct (dict_get x "market_cap" (VInt 0)) as [v|e]; [|done].
  destruct (if truthy v then Ok v else dict_get x "fdv" (VInt 0)) as [v'|e];
    [|done].
  pose proof (py_compare_none OpGe v') as Hc.
  by destruct (py_compare OpGe v' VNone).
Qed.

(** The filter tool cannot apply an upper bound alone.  When a maximum
    liquidity is given without a minimum, or a maximum market cap without a
    minimum, the tool answers with a failure envelope, whatever the tokens
    and the other bounds are: the missing minimum is compared and formatted
    as a number. *)
Theorem filter_tokens_tool_rejects_an_upper_bound_alone (tokens : list PyVal)
    (b : Bounds) (timestamp : string) :
  (min_liquidity_usd b = VNone /\ max_liquidity_usd b <> VNone) \/
  (min_market_cap b = VNone /\ max_market_cap b <> VNone) ->
  filter_tokens_tool tokens b timestamp !! "success" = Some (VBool false).
Proof.
  intros Hb. unfold filter_tokens_tool.
  enough (is_ok (apply_filters tokens b) = false) as Hf
    by (destruct (apply_filters tokens b); [done|reflexivity]).
  unfold apply_filters.
  destruct (if is_none (max_age_hours b) then _ else _) as [f1|e]; [|done].
  cbn [and_then].
  destruct Hb as [[Hmin Hmax]|[Hmin Hmax]].
  - rewrite Hmin. cbn [is_none andb].
    destruct (max_liquidity_usd b) eqn:Hu; [done|..].
    all: cbn [is_none].
    all: pose proof (filter_tokens_by_liquidity_no_minimum f1
                       (max_liquidity_usd b)) as Hl; rewrite Hu in Hl.
    all: match type of Hl with is_ok ?r = false => by destruct r end.
  - destruct (if is_none (min_liquidity_usd b) && _ then _ else _)
      as [f2|e]; [|done].
    cbn [and_then].
    destruct (if is_none (min_volume_24h b) then _ else _) as [f3|e]; [|done].
    cbn [and_then]. rewrite Hmin. cbn [is_none andb].
    destruct (max_market_cap b) eqn:Hu; [done|..].
    all: cbn [is_none].
    all: pose proof (filter_tokens_by_market_cap_no_minimum f3
                       (max_market_cap b)) as Hl; rewrite Hu in Hl.
    all: match type of Hl with is_ok ?r = false => by destruct r end.
Qed.

End Ordering.

(** Two tokens and a ceiling of 50000 USD on the liquidity, with no
    floor. *)
Lemma filter_tokens_tool_rejects_an_upper_bound_alone_witness :
  let b := mkBounds VNone VNone (VInt 50000) VNone VNone VNone VNone VNone in
  let tokens := [token "BONK" 20000 3; token "WIF" 90000 30] in
  ((min_liquidity_usd b = VNone /\ max_liquidity_usd b <> VNone) \/
   (min_market_cap b = VNone /\ max_market_cap b <> VNone)) /\
  filter_tokens_tool by_length tokens b "2025-07-06T03:37:22" !! "success" =
    Some (VBool false).
Proof.
  intros b tokens.
  assert (Hb : (min_liquidity_usd b = VNone /\ max_liquidity_usd b <> VNone) \/
               (min_market_cap b = VNone /\ max_market_cap b <> VNone))
    by (left; split; [reflexivity|discriminate]).
  split; [exact Hb|].
  exact (filter_tokens_tool_rejects_an_upper_bound_alone by_length tokens b
           "2025-07-06T03:37:22" Hb).
Defined.

(** The same ceiling with a floor of 0: the tool keeps the token below the
    ceiling; and the message of the failure above. *)
Lemma filter_tokens_tool_examples :
  let tokens := [token "BONK" 20000 3; token "WIF" 90000 30] in
  filter_tokens_tool by_length tokens
    (mkBounds VNone (VInt 0) (VInt 50000) VNone VNone VNone VNone VNone)
    "2025-07-06T03:37:22" !! "tokens" = Some (VList [token "BONK" 20000 3]) /\
  filter_tokens_tool by_length tokens
    (mkBounds VNone VNone (VInt 50000) VNone VNone VNone VNone VNone)
    "2025-07-06T03:37:22" !! "error" =
    Some (VStr "'>=' not supported between instances of 'int' and 'NoneType'").
Proof. split; reflexivity. Qed.

End Filters.

(* ===================================================================== *)
(** ** The cycle: src/agent/langgraph_trading_agent.py
       (CompleteLangGraphTradingAgent.run_trading_cycle) and
       src/agent/__init__.py (run_trading_agent) *)
(* ===================================================================== *)

Module Cycle.

Local Open Scope py_scope.

(** The agent state is a Python dictionary that both functions update in
    place and hand to each other, so dictionaries live in a heap and the
    code holds references to them. *)
Record World : Type := mkWorld {
  heap : gmap nat (gmap string PyVal);   (* dictionary objects, by identity *)
  next_ref : nat;                        (* next unused reference *)
  store : option (gmap string PyVal);    (* the persisted state document *)
  saves : nat                            (* calls of save_agent_state so far *)
}.

Definition set_heap (f : gmap nat (gmap string PyVal) -> gmap nat (gmap string PyVal))
    (w : World) : World :=
  mkWorld (f (heap w)) (next_ref w) (store w) (saves w).

(** The dictionary behind a reference. *)
Definition deref (w : World) (r : nat) : gmap string PyVal :=
  default ∅ (heap w !! r).

Definition read (r : nat) : @M World (gmap string PyVal) :=
  gets (fun w => deref w r).

(** [state[k] = v] and [del state[k]]. *)
Definition setitem (r : nat) (k : string) (v : PyVal) : @M World unit :=
  modify (fun w => set_heap (insert r (<[k := v]> (deref w r))) w).

Definition delitem (r : nat) (k : string) : @M World unit :=
  modify (fun w => set_heap (insert r (delete k (deref w r))) w).

(** A new dictionary object. *)
Definition alloc (d : gmap string PyVal) : @M World nat :=
  fun w =>
    (Ok (next_ref w),
     mkWorld (<[next_ref w := d]> (heap w)) (S (next_ref w)) (store w) (saves w)).

(** [bool(x)] for a variable holding [None] or a dictionary. *)
Definition ref_truthy (w : World) (r : option nat) : bool :=
  match r with
  | None => false
  | Some l => truthy (VDict (deref w l))
  end.

(** [v + 1]. *)
Definition add1 (v : PyVal) : Res PyVal :=
  match v with
  | VInt z => Ok (VInt (z + 1))
  | VBool b => Ok (VInt (Z.b2z b + 1))
  | VFloat f => Ok (VFloat (PrimFloat.add f 1%float))
  | _ => Raise (TypeError "unsupported operand type(s) for +")
  end.

(** [v + [x]] and [v.append(x)]: both need a list. *)
Definition list_snoc (v x : PyVal) : Res PyVal :=
  match v with
  | VList l => Ok (VList (l ++ [x]))
  | _ => Raise (TypeError "can only concatenate list to list")
  end.

(** [a.update(b)] for two dictionaries. *)
Definition dict_update (a b : PyVal) : Res PyVal :=
  match a, b with
  | VDict da, VDict db => Ok (VDict (db ∪ da))
  | _, _ => Raise (mkExn "AttributeError" "update needs two dictionaries")
  end.

(** Whether [f"{v:.4f}"] can be rendered: the format code [f] is defined
    for numbers only. *)
Definition format_4f (v : PyVal) : Res unit :=
  match v with
  | VInt _ | VFloat _ | VBool _ => Ok tt
  | _ => Raise (TypeError "unsupported format string passed to __format__")
  end.

(** Whether [v[:200]] is defined. *)
Definition sliceable (v : PyVal) : Res unit :=
  match v with
  | VStr _ | VList _ => Ok tt
  | _ => Raise (TypeError "object is not subscriptable")
  end.

(** Whether [', '.join(names)] can be built: every item has to be a
    string, and the first one that is not raises. *)
Fixpoint join_names (i : nat) (names : list PyVal) : Res unit :=
  match names with
  | [] => Ok tt
  | VStr _ :: rest => join_names (S i) rest
  | v :: _ =>
      Raise (TypeError ("sequence item " +:+ pretty (Z.of_nat i) +:+
                        ": expected str instance, " +:+
                        Filters.type_name v +:+ " found"))
  end.

(** A message of the oracle's reply: its [content] and [name] attributes,
    when it has them. *)
Record Message : Type := mkMessage {
  msg_content : option PyVal;
  msg_name : option PyVal
}.

(** *** A concrete setting *)

Definition initial_state0 : gmap string PyVal :=
  list_to_map [("cycles_completed", VInt 0);
               ("wallet_balance_sol", VFloat 0%float);
               ("active_positions", VList []);
               ("trading_mode", VStr "dry_run")].

Definition required_fields0 : list string :=
  ["cycles_completed"; "wallet_balance_sol"; "active_positions"].

Definition metrics0 (d : gmap string PyVal) : Res (gmap string PyVal) :=
  Ok (<["portfolio_metrics" :=
        VDict {[ "total_value_sol" := get_or d "wallet_balance_sol" (VInt 0) ]}]> d).

Definition context0 (d : gmap string PyVal) : Res string := Ok "TRADING CYCLE".

Definition clock0 : World -> string := fun _ => "2025-07-06T03:38:19".

(** An oracle that answers with the request and one reply, neither of
    them sent by a tool: both messages have the attribute [name], set to
    [None]. *)
Definition oracle_holds : string -> World -> Res (list Message) :=
  fun context _ =>
    Ok [mkMessage (Some (VStr context)) (Some VNone);
        mkMessage (Some (VStr "No trade this cycle.")) (Some VNone)].

(** An oracle whose every invocation raises [e]. *)
Definition oracle_raises (e : Exn) : string -> World -> Res (list Message) :=
  fun _ _ => Raise e.

(** A state after [n] cycles, with its balance and open positions, held
    by the caller at reference 0. *)
Definition state_after (n : Z) (balance : float) (positions : list PyVal)
    : gmap string PyVal :=
  list_to_map [("cycles_completed", VInt n);
               ("wallet_balance_sol", VFloat balance);
               ("active_positions", VList positions);
               ("trading_mode", VStr "dry_run")].


Definition world_with (d : gmap string PyVal) : World :=
  mkWorld {[ 0%nat := d ]} 1 None 0.

Section Orchestrator.

(** [src/agent/state.py] is not part of the sources at hand; what the
    cycle needs of it is taken from the specification (section 4.1) or left
    as a parameter. *)

(** The default state document. *)
Variable initial_state : gmap string PyVal.
(** The top-level fields [validate_state_structure] asks for. *)
Variable required_fields : list string.
(** What [update_portfolio_metrics] computes from a state, and whether it
    writes the result into the dictionary it was given or into a new one. *)
Variable portfolio_metrics : gmap string PyVal -> Res (gmap string PyVal).
Variable metrics_in_place : bool.
(** Lines 680-722 of the LangGraph agent: the context message built from
    the state; formatting it can raise. *)
Variable build_context : gmap string PyVal -> Res string.
(** [self.agent.invoke(...)]: the messages of the reply, or an exception.
    The answer may depend on the context and on the world. *)
Variable agent_invoke : string -> World -> Res (list Message).
(** [datetime.now().isoformat()]. *)
Variable clock : World -> string.

(** Modelled from the spec: [load() -> State|absent], never raises; the
    document comes back as a new dictionary. *)
Definition load_agent_state : @M World (option nat) :=
  fun w =>
    match store w with
    | None => (Ok None, w)
    | Some d =>
        match alloc d w with
        | (Ok r, w') => (Ok (Some r), w')
        | (Raise e, w') => (Raise e, w')
        end
    end.

(** Modelled from the spec: the default state created on first run. *)
Definition create_initial_state : @M World nat := alloc initial_state.

(** Modelled from the spec: [save(state)] overwrites the whole persisted
    document. *)
Definition save_agent_state (r : nat) : @M World unit :=
  modify (fun w => mkWorld (heap w) (next_ref w) (Some (deref w r)) (S (saves w))).

(** Modelled from the spec: [validate(state) -> bool] checks that the
    required top-level fields exist. *)
Definition validate_state_structure (d : gmap string PyVal) : bool :=
  forallb (fun k => bool_decide (is_Some (d !! k))) required_fields.

(** Modelled from the spec: [migrate(state) -> state] backfills missing
    fields from the defaults and keeps every other field. *)
Definition migrate_legacy_state (r : nat) : @M World nat :=
  d <- read r ;; alloc (d ∪ initial_state).

(** Modelled from the spec: [update_portfolio_metrics(state)] recomputes
    the derived portfolio metrics and returns the state. *)
Definition update_portfolio_metrics (r : nat) : @M World nat :=
  d <- read r ;;
  d' <- lift (portfolio_metrics d) ;;
  if metrics_in_place
  then modify (set_heap (insert r d')) ;;; ret r
  else alloc d'.

Definition call_agent_invoke (context_message : string)
    : @M World (list Message) :=
  fun w => (agent_invoke context_message w, w).

(** [x or create_initial_state()] for a variable [x] holding [None] or a
    dictionary. *)
Definition or_create_initial_state (x : option nat) : @M World nat :=
  fun w =>
    match x with
    | Some r => if ref_truthy w x then (Ok r, w) else create_initial_state w
    | None => create_initial_state w
    end.

(** Lines 670-759: the body of the [try] of
    [CompleteLangGraphTradingAgent.run_trading_cycle]. *)
Definition cycle_body (initial : option nat) : @M World nat :=
  state <- match initial with
           | None => loaded <- load_agent_state ;;
                     or_create_initial_state loaded
           | Some r => ret r
           end ;;
  state <- update_portfolio_metrics state ;;
  d <- read state ;;
  let cycles_completed := get_or d "cycles_completed" (VInt 0) in
  context_message <- lift (build_context d) ;;
  final_messages <- call_agent_invoke context_message ;;
  match last final_messages with
  | Some final_message =>
      match msg_content final_message with
      | Some content =>
          setitem state "agent_reasoning" content ;;;
          lift (sliceable content)
      | None => ret tt
      end
  | None => ret tt
  end ;;;
  next <- lift (add1 cycles_completed) ;;
  setitem state "cycles_completed" next ;;;
  timestamp <- gets clock ;;
  setitem state "last_update_timestamp" (VStr timestamp) ;;;
  setitem state "ai_strategy" (VStr "complete_langgraph_execution") ;;;
  let tools_used := omap msg_name final_messages in
  setitem state "tools_used_this_cycle" (VList tools_used) ;;;
  (if truthy (VList tools_used)
   then lift (join_names 0 tools_used) ;;;
        setitem state "tools_executed_successfully" (VBool true)
   else setitem state "tools_executed_successfully" (VBool false)) ;;;
  save_agent_state state ;;;
  ret state.

(** The entry appended to [error_log]. *)
Definition error_log_entry (timestamp : string) (e : Exn) : PyVal :=
  VDict (list_to_map
    [("timestamp", VStr timestamp);
     ("error", VStr (exn_msg e));
     ("error_type", VStr "complete_langgraph_execution")]).

(** Lines 761-775: the handler of that [try]. *)
Definition cycle_failed (initial : option nat) (e : Exn) : @M World nat :=
  error_state <- or_create_initial_state initial ;;
  d <- read error_state ;;
  next <- lift (add1 (get_or d "cycles_completed" (VInt 0))) ;;
  setitem error_state "cycles_completed" next ;;;
  timestamp <- gets clock ;;
  error_log <- lift (list_snoc (get_or d "error_log" (VList []))
                       (error_log_entry timestamp e)) ;;
  setitem error_state "error_log" error_log ;;;
  setitem error_state "agent_reasoning"
    (VStr ("Complete LangGraph execution error: " +:+ exn_msg e)) ;;;
  save_agent_state error_state ;;;
  ret error_state.

(** [CompleteLangGraphTradingAgent.run_trading_cycle(initial_state)],
    which is what [run_langgraph_trading_cycle] calls. *)
Definition run_trading_cycle (initial : option nat) : @M World nat :=
  try_except (cycle_body initial) (cycle_failed initial).

(** Lines 54-69 of [run_trading_agent]: which state to run on. *)
Definition load_or_create : @M World nat :=
  loaded <- load_agent_state ;;
  match loaded with
  | None => create_initial_state
  | Some r =>
      d <- read r ;;
      if negb (validate_state_structure d)
      then migrate_legacy_state r
      else ret r
  end.

Definition determine_state (previous_state : option nat) : @M World nat :=
  fun w =>
    match previous_state with
    | Some r => if ref_truthy w previous_state then (Ok r, w) else load_or_create w
    | None => load_or_create w
    end.

(** Lines 71-136 of [run_trading_agent], once [state] is bound.  The cycle
    always hands back a dictionary here, so the [isinstance] test of line
    105 never fires. *)
Definition run_cycle_on (parameters thread_id : PyVal) (state : nat)
    : @M World nat :=
  (if truthy thread_id
   then setitem state "thread_id" thread_id ;;;
        setitem state "session_active" (VBool true)
   else ret tt) ;;;
  (if truthy parameters then
     d <- read state ;;
     current_params <-
       lift (dict_update (get_or d "agent_parameters" (VDict ∅)) parameters) ;;
     setitem state "agent_parameters" current_params ;;;
     has_dry_run <- lift (contains "dry_run" parameters) ;;
     if has_dry_run then
       dry_run <- lift (getitem parameters "dry_run") ;;
       setitem state "trading_mode"
         (VStr (if truthy dry_run then "dry_run" else "live"))
     else ret tt
   else ret tt) ;;;
  d <- read state ;;
  match d !! "error" with
  | Some err =>
      setitem state "previous_errors" (get_or d "previous_errors" (VList [])) ;;;
      previous_errors <-
        lift (list_snoc (get_or d "previous_errors" (VList []))
          (VDict (list_to_map
             [("error", err);
              ("timestamp", get d "error_timestamp");
              ("resolved", VBool true)]))) ;;
      setitem state "previous_errors" previous_errors ;;;
      delitem state "error" ;;;
      delitem state "error_timestamp"
  | None => ret tt
  end ;;;
  updated_state <- run_trading_cycle (Some state) ;;
  u <- read updated_state ;;
  _ <- lift (len (get_or u "active_positions" (VList []))) ;;
  lift (format_4f (get_or u "wallet_balance_sol" (VInt 0))) ;;;
  timestamp <- gets clock ;;
  setitem updated_state "last_cycle_timestamp" (VStr timestamp) ;;;
  setitem updated_state "state_healthy"
    (VBool (negb (truthy (get u "error")))) ;;;
  save_agent_state updated_state ;;;
  ret updated_state.

(** Lines 138-151: the handler of [run_trading_agent].  [bound] is the
    value of the local [state] when it has been assigned. *)
Definition on_failure (previous_state bound : option nat) (e : Exn)
    : @M World nat :=
  error_state <-
    (fun w =>
       match bound with
       | Some state =>
           (Ok (match previous_state with
                | Some r => if ref_truthy w previous_state then r else state
                | None => state
                end), w)
       | None => create_initial_state w
       end) ;;
  setitem error_state "error" (VStr (exn_msg e)) ;;;
  timestamp <- gets clock ;;
  setitem error_state "error_timestamp" (VStr timestamp) ;;;
  setitem error_state "error_type" (VStr "run_trading_agent_failure") ;;;
  d <- read error_state ;;
  next <- lift (add1 (get_or d "cycles_completed" (VInt 0))) ;;
  setitem error_state "cycles_completed" next ;;;
  setitem error_state "state_healthy" (VBool false) ;;;
  save_agent_state error_state ;;;
  ret error_state.

(** [run_trading_agent(parameters, previous_state, thread_id)]. *)
Definition run_trading_agent (parameters : PyVal) (previous_state : option nat)
    (thread_id : PyVal) : @M World nat :=
  fun w =>
    match determine_state previous_state w with
    | (Raise e, w1) => on_failure previous_state None e w1
    | (Ok state, w1) =>
        try_except (run_cycle_on parameters thread_id state)
          (on_failure previous_state (Some state)) w1
    end.

(** *** When the cycle fails inside [run_trading_cycle] *)

(** The fields the failure handling reads or writes. *)
Definition tracked_fields : list string :=
  ["error"; "error_timestamp"; "error_type"; "cycles_completed";
   "error_log"; "active_positions"; "wallet_balance_sol"].

(** [d'] has the tracked fields of [d]. *)
Definition keeps_tracked (d d' : gmap string PyVal) : Prop :=
  Forall (fun k => d' !! k = d !! k) tracked_fields.

(** Lines 72-74: the state once the session markers are set. *)
Definition with_session (thread_id : PyVal) (d : gmap string PyVal)
    : gmap string PyVal :=
  if truthy thread_id
  then <["session_active" := VBool true]> (<["thread_id" := thread_id]> d)
  else d.

(** The cycle started on state [d] fails before the oracle has answered:
    in the portfolio metrics, in the context build, or in the oracle. *)
Inductive cycle_fails (d : gmap string PyVal) : Prop :=
| metrics_fail e :
    portfolio_metrics d = Raise e -> cycle_fails d
| context_fails d' e :
    portfolio_metrics d = Ok d' -> keeps_tracked d d' ->
    build_context d' = Raise e -> cycle_fails d
| oracle_fails d' ctx :
    portfolio_metrics d = Ok d' -> keeps_tracked d d' ->
    build_context d' = Ok ctx ->
    (forall w, is_ok (agent_invoke ctx w) = false) -> cycle_fails d.

(** Lines 90-94: the entry appended to [previous_errors] for a pending
    error. *)
Definition archive_entry (err timestamp : PyVal) : PyVal :=
  VDict (list_to_map
    [("error", err); ("timestamp", timestamp); ("resolved", VBool true)]).

Definition previous_errors_of (d : gmap string PyVal) : list PyVal :=
  match get_or d "previous_errors" (VList []) with
  | VList l => l
  | _ => []
  end.

(** Lines 88-98: the state once a pending error has been moved to
    [previous_errors], when that field is a list or absent. *)
Definition archived (d : gmap string PyVal) : gmap string PyVal :=
  match d !! "error" with
  | Some err =>
      delete "error_timestamp"
        (delete "error"
           (<["previous_errors" :=
              VList (previous_errors_of d ++
                     [archive_entry err (get d "error_timestamp")])]> d))
  | None => d
  end.

(** Lines 100-136: what [run_cycle_on] does once the pending error is
    cleared. *)
Definition finish_cycle (state : nat) : @M World nat :=
  updated_state <- run_trading_cycle (Some state) ;;
  u <- read updated_state ;;
  _ <- lift (len (get_or u "active_positions" (VList []))) ;;
  lift (format_4f (get_or u "wallet_balance_sol" (VInt 0))) ;;;
  timestamp <- gets clock ;;
  setitem updated_state "last_cycle_timestamp" (VStr timestamp) ;;;
  setitem updated_state "state_healthy"
    (VBool (negb (truthy (get u "error")))) ;;;
  save_agent_state updated_state ;;;
  ret updated_state.

(** The state handed back after a cycle that failed inside
    [run_trading_cycle] with [e] on a state [d] that had completed [n]
    cycles and logged the errors [l]. *)
Definition failed_cycle_state (e : Exn) (ts ts' : string) (n : Z)
    (l : list PyVal) (d : gmap string PyVal) : gmap string PyVal :=
  <["state_healthy" := VBool true]>
    (<["last_cycle_timestamp" := VStr ts']>
       (<["agent_reasoning" :=
          VStr ("Complete LangGraph execution error: " +:+ exn_msg e)]>
          (<["error_log" := VList (l ++ [error_log_entry ts e])]>
             (<["cycles_completed" := VInt (n + 1)]> d)))).

Ltac tracked :=
  unfold tracked_fields;
  repeat first [apply list_elem_of_here | apply list_elem_of_further].

Ltac not_tracked H :=
  unfold tracked_fields in H;
  repeat (apply elem_of_cons in H as [H|H]; [discriminate|]);
  by apply elem_of_nil in H.

Lemma truthy_dict_lookup (d : gmap string PyVal) (k : string) (v : PyVal) :
  d !! k = Some v -> truthy (VDict d) = true.
Proof.
  intros Hk. simpl. destruct (size d) eqn:Hs; [|done].
  apply map_size_empty_iff in Hs. subst d. by rewrite lookup_empty in Hk.
Qed.

Lemma keeps_tracked_refl (d : gmap string PyVal) : keeps_tracked d d.
Proof. by apply Forall_forall. Qed.

Lemma keeps_tracked_lookup (d d' : gmap string PyVal) (k : string) :
  keeps_tracked d d' -> k ∈ tracked_fields -> d' !! k = d !! k.
Proof. intros Hk Hin. by apply (proj1 (Forall_forall _ _) Hk). Qed.

Lemma with_session_keeps (thread_id : PyVal) (d : gmap string PyVal) :
  keeps_tracked d (with_session thread_id d).
Proof.
  unfold with_session. destruct (truthy thread_id);
    [|apply keeps_tracked_refl].
  repeat constructor; by rewrite !lookup_insert_ne.
Qed.

Lemma setitem_at (r : nat) (k : string) (v : PyVal) (d : gmap string PyVal)
    (H : gmap nat (gmap string PyVal)) (nr : nat)
    (st : option (gmap string PyVal)) (sv : nat) :
  setitem r k v (mkWorld (<[r := d]> H) nr st sv) =
  (Ok tt, mkWorld (<[r := <[k := v]> d]> H) nr st sv).
Proof.
  unfold setitem, modify, set_heap, deref. simpl.
  by rewrite lookup_insert_eq, insert_insert_eq.
Qed.

Lemma read_at (r : nat) (d : gmap string PyVal)
    (H : gmap nat (gmap string PyVal)) (nr : nat)
    (st : option (gmap string PyVal)) (sv : nat) :
  read r (mkWorld (<[r := d]> H) nr st sv) =
  (Ok d, mkWorld (<[r := d]> H) nr st sv).
Proof. unfold read, gets, deref. simpl. by rewrite lookup_insert_eq. Qed.

Lemma save_at (r : nat) (d : gmap string PyVal)
    (H : gmap nat (gmap string PyVal)) (nr : nat)
    (st : option (gmap string PyVal)) (sv : nat) :
  save_agent_state r (mkWorld (<[r := d]> H) nr st sv) =
  (Ok tt, mkWorld (<[r := d]> H) nr (Some d) (S sv)).
Proof.
  unfold save_agent_state, modify, deref. simpl.
  by rewrite lookup_insert_eq.
Qed.

Lemma ref_truthy_at (r : nat) (d : gmap string PyVal)
    (H : gmap nat (gmap string PyVal)) (nr : nat)
    (st : option (gmap string PyVal)) (sv : nat) :
  ref_truthy (mkWorld (<[r := d]> H) nr st sv) (Some r) = truthy (VDict d).
Proof. unfold ref_truthy, deref. cbn [heap]. by rewrite lookup_insert_eq. Qed.

(** The handler of [run_trading_cycle] on the caller's state: the cycle is
    counted, the failure goes to [error_log], and the state is saved. *)
Lemma cycle_failed_at (r : nat) (e : Exn) (d : gmap string PyVal) (n : Z)
    (l : list PyVal) (H : gmap nat (gmap string PyVal)) (nr : nat)
    (st : option (gmap string PyVal)) (sv : nat) :
  d !! "cycles_completed" = Some (VInt n) ->
  get_or d "error_log" (VList []) = VList l ->
  exists ts,
    let d' := <["agent_reasoning" :=
                VStr ("Complete LangGraph execution error: " +:+ exn_msg e)]>
              (<["error_log" := VList (l ++ [error_log_entry ts e])]>
               (<["cycles_completed" := VInt (n + 1)]> d)) in
    cycle_failed (Some r) e (mkWorld (<[r := d]> H) nr st sv) =
    (Ok r, mkWorld (<[r := d']> H) nr (Some d') (S sv)).
Proof.
  intros Hc Hl. eexists. cbv zeta.
  unfold cycle_failed. unfold bind at 1. unfold or_create_initial_state.
  rewrite ref_truthy_at, (truthy_dict_lookup _ _ _ Hc).
  unfold bind at 1. rewrite read_at.
  rewrite (get_or_Some _ _ _ _ Hc), Hl.
  unfold bind at 1, lift at 1. cbn [add1]. cbv beta iota.
  unfold bind at 1. rewrite setitem_at.
  unfold bind at 1, gets at 1. cbv beta iota.
  unfold bind at 1, lift at 1. cbn [list_snoc]. cbv beta iota.
  unfold bind at 1. rewrite setitem_at.
  unfold bind at 1. rewrite setitem_at.
  unfold bind at 1. rewrite save_at.
  reflexivity.
Qed.

Lemma get_or_eq (d d' : gmap string PyVal) (k : string) (dflt : PyVal) :
  d' !! k = d !! k -> get_or d' k dflt = get_or d k dflt.
Proof. unfold get_or. by intros ->. Qed.

(** A cycle that fails before the oracle has answered raises out of the
    body of the [try], leaving the tracked fields of the caller's state as
    they were. *)
Lemma cycle_body_fails_at (r : nat) (d : gmap string PyVal)
    (H : gmap nat (gmap string PyVal)) (nr : nat)
    (st : option (gmap string PyVal)) (sv : nat) :
  r <> nr ->
  cycle_fails d ->
  exists e d' H' nr',
    cycle_body (Some r) (mkWorld (<[r := d]> H) nr st sv) =
      (Raise e, mkWorld (<[r := d']> H') nr' st sv) /\
    keeps_tracked d d'.
Proof.
  intros Hne Hfail.
  unfold cycle_body. unfold bind at 1, ret at 1. cbv beta iota.
  unfold update_portfolio_metrics. unfold bind at 1. unfold bind at 1.
  rewrite read_at. unfold bind at 1, lift at 1.
  destruct Hfail as [e He|d2 e Hm Hk Hc|d2 ctx Hm Hk Hc Ho].
  - rewrite He. exists e, d, H, nr. split; [done|apply keeps_tracked_refl].
  - rewrite Hm. destruct metrics_in_place.
    + unfold bind at 1, modify at 1, set_heap. cbn [heap next_ref store saves].
      rewrite insert_insert_eq. unfold ret at 1.
      unfold bind at 1. rewrite read_at.
      unfold bind at 1, lift at 1. rewrite Hc.
      exists e, d2, H, nr. done.
    + unfold alloc. cbn [heap next_ref store saves].
      unfold bind at 1. unfold read, gets, deref. cbn [heap].
      rewrite lookup_insert_eq. cbn [default]. unfold id at 1.
      unfold bind at 1, lift at 1. rewrite Hc.
      exists e, d, (<[nr := d2]> H), (S nr).
      rewrite (insert_insert_ne _ nr r) by done. split; [done|apply keeps_tracked_refl].
  - rewrite Hm. destruct metrics_in_place.
    + unfold bind at 1, modify at 1, set_heap. cbn [heap next_ref store saves].
      rewrite insert_insert_eq. unfold ret at 1.
      unfold bind at 1. rewrite read_at.
      unfold bind at 1, lift at 1. rewrite Hc.
      unfold bind at 1, call_agent_invoke.
      specialize (Ho (mkWorld (<[r := d2]> H) nr st sv)).
      destruct (agent_invoke ctx _) as [msgs|e]; [done|].
      exists e, d2, H, nr. done.
    + unfold alloc. cbn [heap next_ref store saves].
      unfold bind at 1. unfold read, gets, deref. cbn [heap].
      rewrite lookup_insert_eq. cbn [default]. unfold id at 1.
      unfold bind at 1, lift at 1. rewrite Hc.
      unfold bind at 1, call_agent_invoke.
      specialize (Ho (mkWorld (<[nr := d2]> (<[r := d]> H)) (S nr) st sv)).
      destruct (agent_invoke ctx _) as [msgs|e]; [done|].
      exists e, d, (<[nr := d2]> H), (S nr).
      rewrite (insert_insert_ne _ nr r) by done. split; [done|apply keeps_tracked_refl].
Qed.

(** C3 on the code, in general.  The caller passes a state [s0] that
    carries no pending error, has completed [n] cycles and can be logged.
    If the cycle fails before the oracle has answered (in the portfolio
    metrics, the context build or the oracle call itself), then
    [run_trading_agent] returns the caller's state with the cycle counted
    and the failure appended to [error_log], marked healthy and persisted:
    [error] stays unset, and [error_timestamp] and [error_type] are what
    they were in [s0]. *)
Theorem cycle_failure_leaves_error_fields_unset (w : World) (r : nat)
    (s0 : gmap string PyVal) (thread_id : PyVal) (n : Z) (l : list PyVal) :
  heap w !! r = Some s0 ->
  r <> next_ref w ->
  s0 !! "error" = None ->
  s0 !! "cycles_completed" = Some (VInt n) ->
  get_or s0 "error_log" (VList []) = VList l ->
  is_ok (len (get_or s0 "active_positions" (VList []))) = true ->
  is_ok (format_4f (get_or s0 "wallet_balance_sol" (VInt 0))) = true ->
  cycle_fails (with_session thread_id s0) ->
  let res := run_trading_agent VNone (Some r) thread_id w in
  let s := deref res.2 r in
  res.1 = Ok r /\
  s !! "error" = None /\
  s !! "error_timestamp" = s0 !! "error_timestamp" /\
  s !! "error_type" = s0 !! "error_type" /\
  s !! "state_healthy" = Some (VBool true) /\
  s !! "cycles_completed" = Some (VInt (n + 1)) /\
  (exists ts e, s !! "error_log" = Some (VList (l ++ [error_log_entry ts e]))) /\
  store res.2 = Some s.
Proof.
  intros Hr Hfresh Herr Hcycles Hlog Hpos Hbal Hfail.
  destruct w as [H nr st sv]. cbn [heap next_ref] in Hr, Hfresh.
  rewrite <- (insert_id H r s0 Hr).
  set (S1 := with_session thread_id s0).
  pose proof (with_session_keeps thread_id s0) as HS1. fold S1 in HS1.
  destruct (cycle_body_fails_at r S1 H nr st sv Hfresh Hfail)
    as (e & d' & H' & nr' & Hbody & Hk').
  assert (Hd' : forall k, k ∈ tracked_fields -> d' !! k = s0 !! k).
  { intros k Hin. rewrite (keeps_tracked_lookup _ _ _ Hk' Hin).
    by apply keeps_tracked_lookup. }
  assert (Hc' : d' !! "cycles_completed" = Some (VInt n))
    by (rewrite Hd'; [done|tracked]).
  assert (Hl' : get_or d' "error_log" (VList []) = VList l)
    by (rewrite <- Hlog; apply get_or_eq, Hd'; tracked).
  destruct (cycle_failed_at r e d' n l H' nr' st sv Hc' Hl') as [ts Hfailed].
  cbv zeta in Hfailed.
  set (D := <["agent_reasoning" :=
               VStr ("Complete LangGraph execution error: " +:+ exn_msg e)]>
             (<["error_log" := VList (l ++ [error_log_entry ts e])]>
              (<["cycles_completed" := VInt (n + 1)]> d'))) in Hfailed.
  assert (HD : forall k, k ∈ tracked_fields -> k <> "cycles_completed" ->
                 k <> "error_log" -> D !! k = s0 !! k).
  { intros k Hin H1 H2. unfold D.
    rewrite !lookup_insert_ne; [by apply Hd'|done|done|].
    intros <-. not_tracked Hin. }
  assert (Hrun : exists F,
    run_trading_agent VNone (Some r) thread_id
      (mkWorld (<[r := s0]> H) nr st sv) =
      (Ok r, mkWorld (<[r := F]> H') nr' (Some F) (S (S sv))) /\
    exists ts', F = <["state_healthy" := VBool true]>
                    (<["last_cycle_timestamp" := VStr ts']> D)).
  { eexists. split; [|eexists; reflexivity].
    unfold run_trading_agent, determine_state.
    rewrite ref_truthy_at, (truthy_dict_lookup _ _ _ Hcycles).
    unfold try_except, run_cycle_on.
    unfold bind at 1.
    assert (Hsess :
      (if truthy thread_id
       then setitem r "thread_id" thread_id ;;;
            setitem r "session_active" (VBool true)
       else ret tt)%py (mkWorld (<[r := s0]> H) nr st sv) =
      (Ok tt, mkWorld (<[r := S1]> H) nr st sv)).
    { unfold S1, with_session. destruct (truthy thread_id); [|done].
      unfold bind. by rewrite !setitem_at. }
    rewrite Hsess. cbn [truthy].
    unfold bind at 1, ret at 1. cbv beta iota.
    unfold bind at 1. rewrite read_at.
    assert (HS1e : S1 !! "error" = None)
      by (rewrite (keeps_tracked_lookup _ _ _ HS1); [done|tracked]).
    rewrite HS1e.
    unfold bind at 1, ret at 1. cbv beta iota.
    unfold bind at 1. unfold run_trading_cycle, try_except.
    rewrite Hbody, Hfailed.
    unfold bind at 1. rewrite read_at.
    rewrite (get_or_eq s0 D "active_positions") by (apply HD; [tracked|done..]).
    rewrite (get_or_eq s0 D "wallet_balance_sol") by (apply HD; [tracked|done..]).
    destruct (len (get_or s0 "active_positions" (VList []))); [|done].
    destruct (format_4f (get_or s0 "wallet_balance_sol" (VInt 0))); [|done].
    unfold bind at 1, lift at 1. cbv beta iota.
    unfold bind at 1, lift at 1. cbv beta iota.
    unfold bind at 1, gets at 1. cbv beta iota.
    unfold bind at 1. rewrite setitem_at.
    unfold bind at 1. rewrite setitem_at.
    unfold bind at 1. rewrite save_at.
    rewrite (get_None D "error") by (rewrite HD; [done|tracked|done..]).
    reflexivity. }
  destruct Hrun as (F & -> & ts' & ->). cbv zeta. cbn [fst snd store].
  unfold deref. cbn [heap]. rewrite lookup_insert_eq. cbn [default].
  unfold id.
  set (F := <["state_healthy" := VBool true]>
              (<["last_cycle_timestamp" := VStr ts']> D)).
  assert (HF : forall k, k <> "state_healthy" -> k <> "last_cycle_timestamp" ->
                 F !! k = D !! k)
    by (intros k H1 H2; unfold F; by rewrite !lookup_insert_ne).
  split; [done|]. split; [|split; [|split; [|split; [|split; [|split]]]]].
  - rewrite HF by done. rewrite HD by (done || tracked). done.
  - rewrite HF by done. apply HD; (done || tracked).
  - rewrite HF by done. apply HD; (done || tracked).
  - unfold F. apply lookup_insert_eq.
  - rewrite HF by done. unfold D. rewrite !lookup_insert_ne by done.
    apply lookup_insert_eq.
  - exists ts, e. rewrite HF by done. unfold D.
    rewrite lookup_insert_ne by done. apply lookup_insert_eq.
  - done.
Qed.

(** *** A pending error and a cycle that fails again *)

Lemma delitem_at (r : nat) (k : string) (d : gmap string PyVal)
    (H : gmap nat (gmap string PyVal)) (nr : nat)
    (st : option (gmap string PyVal)) (sv : nat) :
  delitem r k (mkWorld (<[r := d]> H) nr st sv) =
  (Ok tt, mkWorld (<[r := delete k d]> H) nr st sv).
Proof.
  unfold delitem, modify, set_heap, deref. simpl.
  by rewrite lookup_insert_eq, insert_insert_eq.
Qed.

Lemma with_session_lookup (thread_id : PyVal) (d : gmap string PyVal)
    (k : string) :
  k <> "thread_id" -> k <> "session_active" ->
  with_session thread_id d !! k = d !! k.
Proof.
  intros H1 H2. unfold with_session. destruct (truthy thread_id); [|done].
  by rewrite !lookup_insert_ne.
Qed.

Lemma archived_lookup (d : gmap string PyVal) (k : string) :
  k <> "error" -> k <> "error_timestamp" -> k <> "previous_errors" ->
  archived d !! k = d !! k.
Proof.
  intros H1 H2 H3. unfold archived. destruct (d !! "error"); [|done].
  by rewrite !lookup_delete_ne, lookup_insert_ne.
Qed.

Lemma archived_error (d : gmap string PyVal) : archived d !! "error" = None.
Proof.
  unfold archived. destruct (d !! "error") eqn:He; [|done].
  by rewrite lookup_delete_ne, lookup_delete_eq.
Qed.

Lemma failed_cycle_state_lookup (e : Exn) (ts ts' : string) (n : Z)
    (l : list PyVal) (d : gmap string PyVal) (k : string) :
  k <> "state_healthy" -> k <> "last_cycle_timestamp" ->
  k <> "agent_reasoning" -> k <> "error_log" -> k <> "cycles_completed" ->
  failed_cycle_state e ts ts' n l d !! k = d !! k.
Proof. intros. unfold failed_cycle_state. by rewrite !lookup_insert_ne. Qed.

(** As [cycle_body_fails_at], telling also which dictionary the caller's
    reference holds afterwards: the one it held, or the one the portfolio
    metrics returned. *)
Lemma cycle_body_fails_with (r : nat) (d : gmap string PyVal)
    (H : gmap nat (gmap string PyVal)) (nr : nat)
    (st : option (gmap string PyVal)) (sv : nat) :
  r <> nr ->
  cycle_fails d ->
  exists e d' H' nr',
    cycle_body (Some r) (mkWorld (<[r := d]> H) nr st sv) =
      (Raise e, mkWorld (<[r := d']> H') nr' st sv) /\
    keeps_tracked d d' /\
    (d' = d \/ portfolio_metrics d = Ok d').
Proof.
  intros Hne Hfail.
  unfold cycle_body. unfold bind at 1, ret at 1. cbv beta iota.
  unfold update_portfolio_metrics. unfold bind at 1. unfold bind at 1.
  rewrite read_at. unfold bind at 1, lift at 1.
  destruct Hfail as [e He|d2 e Hm Hk Hc|d2 ctx Hm Hk Hc Ho].
  - rewrite He. exists e, d, H, nr.
    split; [done|]. split; [apply keeps_tracked_refl|by left].
  - rewrite Hm. destruct metrics_in_place.
    + unfold bind at 1, modify at 1, set_heap. cbn [heap next_ref store saves].
      rewrite insert_insert_eq. unfold ret at 1.
      unfold bind at 1. rewrite read_at.
      unfold bind at 1, lift at 1. rewrite Hc.
      exists e, d2, H, nr. split; [done|]. split; [done|by right].
    + unfold alloc. cbn [heap next_ref store saves].
      unfold bind at 1. unfold read, gets, deref. cbn [heap].
      rewrite lookup_insert_eq. cbn [default]. unfold id at 1.
      unfold bind at 1, lift at 1. rewrite Hc.
      exists e, d, (<[nr := d2]> H), (S nr).
      rewrite (insert_insert_ne _ nr r) by done.
      split; [done|]. split; [apply keeps_tracked_refl|by left].
  - rewrite Hm. destruct metrics_in_place.
    + unfold bind at 1, modify at 1, set_heap. cbn [heap next_ref store saves].
      rewrite insert_insert_eq. unfold ret at 1.
      unfold bind at 1. rewrite read_at.
      unfold bind at 1, lift at 1. rewrite Hc.
      unfold bind at 1, call_agent_invoke.
      specialize (Ho (mkWorld (<[r := d2]> H) nr st sv)).
      destruct (agent_invoke ctx _) as [msgs|e]; [done|].
      exists e, d2, H, nr. split; [done|]. split; [done|by right].
    + unfold alloc. cbn [heap next_ref store saves].
      unfold bind at 1. unfold read, gets, deref. cbn [heap].
      rewrite lookup_insert_eq. cbn [default]. unfold id at 1.
      unfold bind at 1, lift at 1. rewrite Hc.
      unfold bind at 1, call_agent_invoke.
      specialize (Ho (mkWorld (<[nr := d2]> (<[r := d]> H)) (S nr) st sv)).
      destruct (agent_invoke ctx _) as [msgs|e]; [done|].
      exists e, d, (<[nr := d2]> H), (S nr).
      rewrite (insert_insert_ne _ nr r) by done.
      split; [done|]. split; [apply keeps_tracked_refl|by left].
Qed.

(** The rest of [run_cycle_on] on a state without a pending error whose
    cycle fails before the oracle has answered. *)
Lemma finish_cycle_failing (r : nat) (s1 : gmap string PyVal) (n : Z)
    (l : list PyVal) (H : gmap nat (gmap string PyVal)) (nr : nat)
    (st : option (gmap string PyVal)) (sv : nat) :
  r <> nr ->
  s1 !! "error" = None ->
  s1 !! "cycles_completed" = Some (VInt n) ->
  get_or s1 "error_log" (VList []) = VList l ->
  is_ok (len (get_or s1 "active_positions" (VList []))) = true ->
  is_ok (format_4f (get_or s1 "wallet_balance_sol" (VInt 0))) = true ->
  cycle_fails s1 ->
  exists e d' H' nr' ts ts',
    finish_cycle r (mkWorld (<[r := s1]> H) nr st sv) =
      (Ok r, mkWorld (<[r := failed_cycle_state e ts ts' n l d']> H') nr'
                     (Some (failed_cycle_state e ts ts' n l d')) (S (S sv))) /\
    keeps_tracked s1 d' /\
    (d' = s1 \/ portfolio_metrics s1 = Ok d').
Proof.
  intros Hne Herr Hc Hl Hpos Hbal Hfail.
  destruct (cycle_body_fails_with r s1 H nr st sv Hne Hfail)
    as (e & d' & H' & nr' & Hbody & Hk' & Hd).
  assert (Hd' : forall k, k ∈ tracked_fields -> d' !! k = s1 !! k)
    by (intros k Hin; by apply keeps_tracked_lookup).
  assert (Hc' : d' !! "cycles_completed" = Some (VInt n))
    by (rewrite Hd'; [done|tracked]).
  assert (Hl' : get_or d' "error_log" (VList []) = VList l)
    by (rewrite <- Hl; apply get_or_eq, Hd'; tracked).
  destruct (cycle_failed_at r e d' n l H' nr' st sv Hc' Hl') as [ts Hfailed].
  cbv zeta in Hfailed.
  set (D := <["agent_reasoning" :=
               VStr ("Complete LangGraph execution error: " +:+ exn_msg e)]>
             (<["error_log" := VList (l ++ [error_log_entry ts e])]>
              (<["cycles_completed" := VInt (n + 1)]> d'))) in Hfailed.
  assert (HD : forall k, k ∈ tracked_fields -> k <> "cycles_completed" ->
                 k <> "error_log" -> D !! k = s1 !! k).
  { intros k Hin H1 H2. unfold D.
    rewrite !lookup_insert_ne; [by apply Hd'|done|done|].
    intros <-. not_tracked Hin. }
  exists e, d', H', nr', ts. eexists. split; [|done].
  unfold finish_cycle. unfold bind at 1. unfold run_trading_cycle, try_except.
  rewrite Hbody, Hfailed.
  unfold bind at 1. rewrite read_at.
  rewrite (get_or_eq s1 D "active_positions") by (apply HD; [tracked|done..]).
  rewrite (get_or_eq s1 D "wallet_balance_sol") by (apply HD; [tracked|done..]).
  destruct (len (get_or s1 "active_positions" (VList []))); [|done].
  destruct (format_4f (get_or s1 "wallet_balance_sol" (VInt 0))); [|done].
  unfold bind at 1, lift at 1. cbv beta iota.
  unfold bind at 1, lift at 1. cbv beta iota.
  unfold bind at 1, gets at 1. cbv beta iota.
  unfold bind at 1. rewrite setitem_at.
  unfold bind at 1. rewrite setitem_at.
  unfold bind at 1. rewrite save_at.
  rewrite (get_None D "error") by (rewrite HD; [done|tracked|done..]).
  reflexivity.
Qed.

(** [run_cycle_on] without parameter overrides, on a state whose pending
    error (if any) can be archived and whose cycle then fails before the
    oracle has answered. *)
Lemma run_cycle_on_failing (parameters thread_id : PyVal) (r : nat)
    (s0 : gmap string PyVal) (n : Z) (l : list PyVal)
    (H : gmap nat (gmap string PyVal)) (nr : nat)
    (st : option (gmap string PyVal)) (sv : nat) :
  truthy parameters = false ->
  r <> nr ->
  (is_Some (s0 !! "error") ->
   exists pl, get_or s0 "previous_errors" (VList []) = VList pl) ->
  s0 !! "cycles_completed" = Some (VInt n) ->
  get_or s0 "error_log" (VList []) = VList l ->
  is_ok (len (get_or s0 "active_positions" (VList []))) = true ->
  is_ok (format_4f (get_or s0 "wallet_balance_sol" (VInt 0))) = true ->
  let s1 := archived (with_session thread_id s0) in
  cycle_fails s1 ->
  exists e d' H' nr' ts ts',
    run_cycle_on parameters thread_id r (mkWorld (<[r := s0]> H) nr st sv) =
      (Ok r, mkWorld (<[r := failed_cycle_state e ts ts' n l d']> H') nr'
                     (Some (failed_cycle_state e ts ts' n l d')) (S (S sv))) /\
    keeps_tracked s1 d' /\
    (d' = s1 \/ portfolio_metrics s1 = Ok d').
Proof.
  intros Hp Hne Hpl Hc Hl Hpos Hbal s1 Hfail.
  set (S1 := with_session thread_id s0) in *.
  assert (HS1 : forall k, k <> "thread_id" -> k <> "session_active" ->
                  S1 !! k = s0 !! k)
    by (intros; by apply with_session_lookup).
  assert (Hs1 : forall k, k <> "thread_id" -> k <> "session_active" ->
                  k <> "error" -> k <> "error_timestamp" ->
                  k <> "previous_errors" -> s1 !! k = s0 !! k).
  { intros. unfold s1. rewrite archived_lookup by done. by apply HS1. }
  destruct (finish_cycle_failing r s1 n l H nr st sv Hne)
    as (e & d' & H' & nr' & ts & ts' & Hfin & Hk & Hd).
  { apply archived_error. }
  { by rewrite Hs1. }
  { rewrite <- Hl. apply get_or_eq. by rewrite Hs1. }
  { rewrite (get_or_eq s0 s1) by (by rewrite Hs1). done. }
  { rewrite (get_or_eq s0 s1) by (by rewrite Hs1). done. }
  { done. }
  exists e, d', H', nr', ts, ts'. split; [|done].
  unfold run_cycle_on. unfold bind at 1.
  assert (Hsess :
    (if truthy thread_id
     then setitem r "thread_id" thread_id ;;;
          setitem r "session_active" (VBool true)
     else ret tt)%py (mkWorld (<[r := s0]> H) nr st sv) =
    (Ok tt, mkWorld (<[r := S1]> H) nr st sv)).
  { unfold S1, with_session. destruct (truthy thread_id); [|done].
    unfold bind. by rewrite !setitem_at. }
  rewrite Hsess, Hp.
  unfold bind at 1, ret at 1. cbv beta iota.
  unfold bind at 1. rewrite read_at.
  unfold bind at 1.
  unfold s1, archived in Hfin.
  destruct (S1 !! "error") as [err|] eqn:He.
  - destruct Hpl as [pl Hpl]; [by rewrite <- HS1|].
    assert (Hpl1 : get_or S1 "previous_errors" (VList []) = VList pl)
      by (rewrite <- Hpl; apply get_or_eq; by rewrite HS1).
    unfold previous_errors_of in Hfin. rewrite Hpl1 in Hfin.
    unfold bind at 1. rewrite setitem_at. rewrite Hpl1.
    unfold bind at 1, lift at 1. cbn [list_snoc]. cbv beta iota.
    unfold bind at 1. rewrite setitem_at.
    unfold bind at 1. rewrite delitem_at. rewrite delitem_at.
    rewrite insert_insert_eq. exact Hfin.
  - unfold ret at 1. exact Hfin.
Qed.

(** [run_trading_agent] on the caller's state, once [run_cycle_on] has
    returned. *)
Lemma run_trading_agent_on_previous (parameters thread_id : PyVal) (r x : nat)
    (s0 : gmap string PyVal) (k : string) (v : PyVal)
    (H : gmap nat (gmap string PyVal)) (nr : nat)
    (st : option (gmap string PyVal)) (sv : nat) (w' : World) :
  s0 !! k = Some v ->
  run_cycle_on parameters thread_id r (mkWorld (<[r := s0]> H) nr st sv) =
    (Ok x, w') ->
  run_trading_agent parameters (Some r) thread_id
    (mkWorld (<[r := s0]> H) nr st sv) = (Ok x, w').
Proof.
  intros Hk Hrun. unfold run_trading_agent, determine_state.
  rewrite ref_truthy_at, (truthy_dict_lookup _ _ _ Hk).
  unfold try_except. by rewrite Hrun.
Qed.

(** [run_trading_agent] without a previous state when nothing is
    persisted: it runs on a new default state. *)
Lemma run_trading_agent_first_run (parameters thread_id : PyVal) (x : nat)
    (H : gmap nat (gmap string PyVal)) (nr sv : nat) (w' : World) :
  run_cycle_on parameters thread_id nr
    (mkWorld (<[nr := initial_state]> H) (S nr) None sv) = (Ok x, w') ->
  run_trading_agent parameters None thread_id (mkWorld H nr None sv) =
    (Ok x, w').
Proof.
  intros Hrun. unfold run_trading_agent, determine_state, load_or_create.
  unfold bind, load_agent_state, create_initial_state, alloc.
  cbn [store heap next_ref saves]. unfold try_except. by rewrite Hrun.
Qed.


End Orchestrator.

(** The oracle is down: the cycle is counted, the state is reported
    healthy, and no error field is set. *)
Lemma cycle_failure_leaves_error_fields_unset_witness :
  let s0 := state_after 7 1%float [] in
  let e := mkExn "APIStatusError" "overloaded" in
  let res := run_trading_agent initial_state0 required_fields0 metrics0 true
               context0 (oracle_raises e) clock0
               VNone (Some 0%nat) (VStr "trading_session_20250706_033819")
               (world_with s0) in
  cycle_fails metrics0 context0 (oracle_raises e)
    (with_session (VStr "trading_session_20250706_033819") s0) /\
  res.1 = Ok 0%nat /\
  deref res.2 0 !! "error" = None /\
  deref res.2 0 !! "error_timestamp" = None /\
  deref res.2 0 !! "error_type" = None /\
  deref res.2 0 !! "state_healthy" = Some (VBool true) /\
  deref res.2 0 !! "cycles_completed" = Some (VInt 8).
Proof.
  intros s0 e res.
  assert (Hfail : cycle_fails metrics0 context0 (oracle_raises e)
            (with_session (VStr "trading_session_20250706_033819") s0)).
  { eapply oracle_fails; [reflexivity| |reflexivity|reflexivity].
    repeat constructor. }
  split; [exact Hfail|].
  destruct (cycle_failure_leaves_error_fields_unset initial_state0
              required_fields0 metrics0 true context0 (oracle_raises e) clock0
              (world_with s0) 0%nat s0
              (VStr "trading_session_20250706_033819") 7 []
              eq_refl ltac:(discriminate) eq_refl eq_refl eq_refl eq_refl
              eq_refl Hfail)
    as (H1 & H2 & H3 & H4 & H5 & H6 & _).
  repeat split; assumption.
Defined.


(** The same by evaluation.  The caller passes a state that has completed
    [n] cycles, and the oracle raises [e].  The exception is caught inside
    [run_trading_cycle], whose handler counts the cycle and appends to
    [error_log]; [run_trading_agent] then gets a state without an [error]
    field, marks it healthy and persists it a second time. *)
Lemma oracle_failure_evaluated (n : Z) (balance : float)
    (positions : list PyVal) (e : Exn) (in_place : bool) :
  let r := run_trading_agent initial_state0 required_fields0 metrics0 in_place
             context0 (oracle_raises e) clock0
             VNone (Some 0%nat) (VStr "trading_session_20250706_033819")
             (world_with (state_after n balance positions)) in
  let s := deref r.2 0 in
  r.1 = Ok 0%nat /\
  s !! "error" = None /\
  s !! "error_timestamp" = None /\
  s !! "error_type" = None /\
  s !! "state_healthy" = Some (VBool true) /\
  s !! "cycles_completed" = Some (VInt (n + 1)) /\
  s !! "active_positions" = Some (VList positions) /\
  s !! "error_log" =
    Some (VList [error_log_entry "2025-07-06T03:38:19" e]) /\
  store r.2 = Some s /\
  saves r.2 = 2%nat.
Proof. destruct in_place; repeat split; reflexivity. Qed.

(** The sibling path: when the exception is raised in [run_trading_agent]
    itself (here by parameter overrides that are not a dictionary), its
    own handler does set the three fields. *)
Lemma run_trading_agent_failure_sets_error_fields (n : Z) :
  let r := run_trading_agent initial_state0 required_fields0 metrics0 true
             context0 (oracle_raises (mkExn "APIStatusError" "overloaded"))
             clock0
             (VInt 5) (Some 0%nat) VNone
             (world_with (state_after n 1%float [])) in
  let s := deref r.2 0 in
  r.1 = Ok 0%nat /\
  s !! "error" = Some (VStr "update needs two dictionaries") /\
  s !! "error_timestamp" = Some (VStr "2025-07-06T03:38:19") /\
  s !! "error_type" = Some (VStr "run_trading_agent_failure") /\
  s !! "state_healthy" = Some (VBool false) /\
  s !! "cycles_completed" = Some (VInt (n + 1)) /\
  store r.2 = Some s.
Proof. repeat split; reflexivity. Qed.

(** When the oracle answers without a tool message, the names collected
    at lines 745-746 are [None]s, the log line of line 750 cannot join
    them, and the cycle ends in the handler of [run_trading_cycle] after
    its body has counted it: the cycle is counted twice and logged as a
    failure, and the state still comes back healthy. *)
Lemma unnamed_messages_end_in_the_handler (n : Z) :
  let r := run_trading_agent initial_state0 required_fields0 metrics0 true
             context0 oracle_holds clock0
             VNone (Some 0%nat) (VStr "trading_session_20250706_033819")
             (world_with (state_after n 1%float [])) in
  let s := deref r.2 0 in
  r.1 = Ok 0%nat /\
  s !! "cycles_completed" = Some (VInt (n + 1 + 1)) /\
  s !! "tools_used_this_cycle" = Some (VList [VNone; VNone]) /\
  s !! "tools_executed_successfully" = None /\
  s !! "error_log" =
    Some (VList [error_log_entry "2025-07-06T03:38:19"
                   (TypeError
                      "sequence item 0: expected str instance, NoneType found")]) /\
  s !! "error" = None /\
  s !! "state_healthy" = Some (VBool true).
Proof. repeat split; reflexivity. Qed.

End Cycle.

(* ===================================================================== *)
(** ** The background runner: src/agent/__init__.py *)
(* ===================================================================== *)

Module Runner.

Local Open Scope py_scope.

(** The module-level variables of [src/agent/__init__.py].  A thread is
    named by the order in which it was created. *)
Record Globals : Type := mkGlobals {
  _agent_thread : option nat;
  _agent_running : bool;
  _agent_stop_flag : bool;
  _current_thread_id : option string;
  _current_state : option (gmap string PyVal)
}.

(** What the worker thread sees and changes while it loops: the globals,
    its local [consecutive_errors], and counters of what it has done. *)
Record LoopWorld : Type := mkLoop {
  globals : Globals;
  consecutive_errors : nat;
  cycles_run : nat;      (* calls of run_trading_agent so far *)
  flag_reads : nat;      (* reads of _agent_stop_flag so far *)
  seconds_slept : Z      (* seconds spent in time.sleep *)
}.

Definition max_consecutive_errors : nat := 3.

(** Lines 173-181: the first statements of the worker; lines 265-267: its
    [finally] block. *)
Definition enter_session (session_name : string) (g : Globals) : Globals :=
  mkGlobals (_agent_thread g) true false (Some session_name) None.

Definition leave_session (g : Globals) : Globals :=
  mkGlobals (_agent_thread g) false (_agent_stop_flag g) None None.

(** How one pass through the body of the [while] loop ends. *)
Inductive Ctl : Type := Next | Break.

(** [max(v, floor)] for an integer [floor]. *)
Definition py_max (v : PyVal) (floor : Z) : Res PyVal :=
  match v with
  | VInt z => Ok (VInt (Z.max z floor))
  | VBool b => Ok (if Z.b2z b <? floor then VInt floor else VBool b)
  | VFloat f =>
      Ok (if PrimFloat.ltb f (float_of_Z floor) then VInt floor else VFloat f)
  | _ => Raise (TypeError "'>' not supported between these types")
  end.

(** The number of values in [range(v)]. *)
Definition range_len (v : PyVal) : Res nat :=
  match v with
  | VInt z => Ok (Z.to_nat z)
  | VBool b => Ok (if b then 1%nat else 0%nat)
  | _ => Raise (TypeError "object cannot be interpreted as an integer")
  end.

(** [parameters.get("cycle_time_seconds", 300) if parameters else 300]. *)
Definition cycle_time_of (parameters : PyVal) : Res PyVal :=
  if truthy parameters
  then dict_get parameters "cycle_time_seconds" (VInt 300)
  else Ok (VInt 300).

(** *** Concrete runs *)

Definition never_stop : nat -> bool := fun _ => false.

Definition errored_state (k : nat) : gmap string PyVal :=
  list_to_map [("error", VStr "oracle unavailable");
               ("cycles_completed", VInt (Z.of_nat (S k)))].

Definition clean_state (k : nat) : gmap string PyVal :=
  list_to_map [("cycles_completed", VInt (Z.of_nat (S k)));
               ("tools_used_this_cycle", VList [VStr "get_wallet_balance_tool"])].

(** An orchestrator whose every cycle returns an errored state. *)
Definition failing_agent (k : nat) (prev : option (gmap string PyVal))
    : Res (gmap string PyVal) :=
  Ok (errored_state k).

(** Two failures, one clean cycle, then failures only. *)
Definition recovering_agent (k : nat) (prev : option (gmap string PyVal))
    : Res (gmap string PyVal) :=
  if (k =? 2)%nat then Ok (clean_state k) else Ok (errored_state k).

(** An orchestrator whose every cycle returns an errored state with no
    balance: [wallet_balance_sol] is [None], which the log line of the loop
    cannot format. *)
Definition unloggable_state (k : nat) : gmap string PyVal :=
  list_to_map [("error", VStr "oracle unavailable");
               ("cycles_completed", VInt (Z.of_nat (S k)));
               ("wallet_balance_sol", VNone)].

Definition unloggable_agent (k : nat) (prev : option (gmap string PyVal))
    : Res (gmap string PyVal) :=
  Ok (unloggable_state k).

(** A stop requested between the [k]-th and the next look at the flag. *)
Definition stop_from (k : nat) : nat -> bool := fun i => (k <=? i)%nat.

Definition idle : Globals := mkGlobals None false false None None.

Definition fresh_loop : LoopWorld := mkLoop idle 0 0 0 0.

Section Worker.

(** The [k]-th call of [run_trading_agent] made by the worker, given the
    state it passes as [previous_state]: the state returned, or an
    exception. *)
Variable run_trading_agent :
  nat -> option (gmap string PyVal) -> Res (gmap string PyVal).
(** [_agent_stop_flag] is written by other threads; the [n]-th read of it
    by the worker sees [stop_requested n]. *)
Variable stop_requested : nat -> bool.
(** The session name built from the clock, and the argument of
    [start_agent_background]. *)
Variable session_name : string.
Variable parameters : PyVal.

Definition call_run_trading_agent : @M LoopWorld (gmap string PyVal) :=
  fun w =>
    (run_trading_agent (cycles_run w) (_current_state (globals w)),
     mkLoop (globals w) (consecutive_errors w) (S (cycles_run w))
            (flag_reads w) (seconds_slept w)).

Definition read_stop_flag : @M LoopWorld bool :=
  fun w =>
    (Ok (stop_requested (flag_reads w)),
     mkLoop (globals w) (consecutive_errors w) (cycles_run w)
            (S (flag_reads w)) (seconds_slept w)).

Definition sleep (secs : Z) : @M LoopWorld unit :=
  modify (fun w =>
    mkLoop (globals w) (consecutive_errors w) (cycles_run w)
           (flag_reads w) (seconds_slept w + secs)).

(** [consecutive_errors += 1], then the test
    [consecutive_errors >= max_consecutive_errors]. *)
Definition count_error : @M LoopWorld bool :=
  fun w =>
    (Ok (max_consecutive_errors <=? S (consecutive_errors w))%nat,
     mkLoop (globals w) (S (consecutive_errors w)) (cycles_run w)
            (flag_reads w) (seconds_slept w)).

(** [consecutive_errors = 0]. *)
Definition reset_errors : @M LoopWorld unit :=
  modify (fun w =>
    mkLoop (globals w) 0 (cycles_run w) (flag_reads w) (seconds_slept w)).

(** [_current_state = new_state]. *)
Definition set_current_state (new_state : gmap string PyVal)
    : @M LoopWorld unit :=
  modify (fun w =>
    mkLoop (mkGlobals (_agent_thread (globals w)) (_agent_running (globals w))
              (_agent_stop_flag (globals w)) (_current_thread_id (globals w))
              (Some new_state))
           (consecutive_errors w) (cycles_run w) (flag_reads w)
           (seconds_slept w)).

(** Lines 245-249: sleep one second at a time, looking at the stop flag
    before each second. *)
Fixpoint sleep_loop (cycle_time : nat) : @M LoopWorld unit :=
  match cycle_time with
  | O => ret tt
  | S rest =>
      stop <- read_stop_flag ;;
      if stop then ret tt else sleep 1 ;;; sleep_loop rest
  end.

(** Lines 188-249: the body of the inner [try]. *)
Definition cycle_and_sleep : @M LoopWorld Ctl :=
  new_state <- call_run_trading_agent ;;
  tripped <- (if truthy (get new_state "error")
              then count_error
              else reset_errors ;;; ret false) ;;
  if tripped then ret Break else
  if truthy (get new_state "should_stop") || truthy (get new_state "fatal_error")
  then ret Break else
  set_current_state new_state ;;;
  let tools_used := get_or new_state "tools_used_this_cycle" (VList []) in
  _ <- lift (len (get_or new_state "active_positions" (VList []))) ;;
  lift (Cycle.format_4f (get_or new_state "wallet_balance_sol" (VInt 0))) ;;;
  stop <- read_stop_flag ;;
  if stop then ret Break else
  cycle_time <- lift (cycle_time_of parameters) ;;
  cycle_time <- lift (if truthy (get new_state "error")
                      then py_max cycle_time 600
                      else if negb (truthy tools_used)
                           then py_max cycle_time 450
                           else Ok cycle_time) ;;
  seconds <- lift (range_len cycle_time) ;;
  sleep_loop seconds ;;;
  ret Next.

(** Lines 187-260: one pass through the body of the [while] loop. *)
Definition iteration : @M LoopWorld Ctl :=
  try_except cycle_and_sleep
    (fun cycle_error =>
       tripped <- count_error ;;
       if tripped then ret Break else sleep 60 ;;; ret Next).

(** Lines 186-260: [while not _agent_stop_flag: ...], run for at most
    [fuel] passes.  [true]: the loop was left; [false]: it is still
    looping when the fuel is spent. *)
Fixpoint worker_loop (fuel : nat) : @M LoopWorld bool :=
  match fuel with
  | O => ret false
  | S fuel' =>
      stop <- read_stop_flag ;;
      if stop then ret true else
      c <- iteration ;;
      match c with
      | Break => ret true
      | Next => worker_loop fuel'
      end
  end.

(** Lines 173-183 and 264-267: what the worker does before and after the
    loop. *)
Definition prologue (w : LoopWorld) : LoopWorld :=
  mkLoop (enter_session session_name (globals w))
         0 (cycles_run w) (flag_reads w) (seconds_slept w).

Definition epilogue (w : LoopWorld) : LoopWorld :=
  mkLoop (leave_session (globals w))
         (consecutive_errors w) (cycles_run w) (flag_reads w)
         (seconds_slept w).

(** [background_trading_loop()], the target of the worker thread. *)
Definition background_trading_loop (fuel : nat) : @M LoopWorld bool :=
  modify prologue ;;;
  exited <- try_except (worker_loop fuel) (fun e => ret true) ;;
  (if exited then modify epilogue else ret tt) ;;;
  ret exited.

(** *** The circuit breaker *)

(** The state can be logged by line 224 of the loop. *)
Definition loggable (d : gmap string PyVal) : Prop :=
  is_ok (len (get_or d "active_positions" (VList []))) = true /\
  is_ok (Cycle.format_4f (get_or d "wallet_balance_sol" (VInt 0))) = true.

(** The state asks for no stop of its own. *)
Definition no_stop_marker (d : gmap string PyVal) : Prop :=
  truthy (get d "should_stop") = false /\
  truthy (get d "fatal_error") = false.

(** A cycle that failed: the call raised, or returned a state with an
    [error]. *)
Definition errored_cycle (r : Res (gmap string PyVal)) : Prop :=
  match r with
  | Raise _ => True
  | Ok d => truthy (get d "error") = true /\ no_stop_marker d /\ loggable d
  end.

(** A cycle that went through. *)
Definition clean_cycle (r : Res (gmap string PyVal)) : Prop :=
  match r with
  | Raise _ => False
  | Ok d => truthy (get d "error") = false /\ no_stop_marker d /\ loggable d
  end.

(** The cycle time in the parameters, or the default, is an integer. *)
Definition cycle_time_ok : Prop :=
  exists n, cycle_time_of parameters = Ok (VInt n).

(** The worker leaves the thread handle, the running flag and the session
    name of the globals as they are. *)
Definition same_session (g g' : Globals) : Prop :=
  _agent_thread g' = _agent_thread g /\
  _agent_running g' = _agent_running g /\
  _current_thread_id g' = _current_thread_id g.

(** A computation of the worker that leaves them as they are, whatever it
    returns or raises. *)
Definition keeps_session {A} (m : @M LoopWorld A) : Prop :=
  forall w, same_session (globals w) (globals (m w).2).

(** The wait that follows a failed cycle when the loop goes on: 60 seconds
    after an exception, the cycle time raised to 600 seconds or more after
    a state with an [error]. *)
Definition retry_wait (cycle_time : Z) (r : Res (gmap string PyVal)) : Z :=
  match r with
  | Raise _ => 60
  | Ok _ => Z.max cycle_time 600
  end.

(** [_current_state] after a cycle after which the loop goes on. *)
Definition carried_state (r : Res (gmap string PyVal))
    (current : option (gmap string PyVal)) : option (gmap string PyVal) :=
  match r with
  | Raise _ => current
  | Ok d => Some d
  end.

Lemma sleep_loop_quiet (n : nat) (w : LoopWorld) :
  (forall i, stop_requested i = false) ->
  sleep_loop n w =
  (Ok tt, mkLoop (globals w) (consecutive_errors w) (cycles_run w)
                 (n + flag_reads w) (seconds_slept w + Z.of_nat n)).
Proof.
  intros Hstop. revert w. induction n as [|n IH]; intros [g ce cr fr ss].
  - simpl. unfold ret. do 2 f_equal. lia.
  - cbn [sleep_loop]. unfold bind, read_stop_flag. rewrite Hstop.
    unfold sleep, modify. rewrite IH. simpl. do 2 f_equal; lia.
Qed.

(** A failed cycle adds one to the counter, and the pass ends the loop
    exactly when the counter reaches the threshold. *)
Lemma iteration_errored (w : LoopWorld) :
  (forall i, stop_requested i = false) ->
  cycle_time_ok ->
  errored_cycle
    (run_trading_agent (cycles_run w) (_current_state (globals w))) ->
  exists w',
    iteration w =
      (Ok (if (max_consecutive_errors <=? S (consecutive_errors w))%nat
           then Break else Next), w') /\
    consecutive_errors w' = S (consecutive_errors w) /\
    cycles_run w' = S (cycles_run w) /\
    _agent_running (globals w') = _agent_running (globals w).
Proof.
  intros Hstop [n Hct] Herr. destruct w as [g ce cr fr ss]. simpl in Herr.
  unfold iteration, try_except, cycle_and_sleep, bind, call_run_trading_agent.
  simpl. destruct (run_trading_agent cr (_current_state g)) as [d|e].
  - destruct Herr as (He & [Hs Hf] & [Hl Hb]). rewrite He.
    unfold count_error.
    destruct ce as [|[|ce]]; simpl; [| |eexists; eauto].
    all: rewrite Hs, Hf; simpl.
    all: destruct (len (get_or d "active_positions" (VList []))); [|done].
    all: destruct (Cycle.format_4f (get_or d "wallet_balance_sol" (VInt 0)));
           [|done].
    all: unfold lift, read_stop_flag; simpl; rewrite Hstop, Hct; simpl.
    all: rewrite sleep_loop_quiet by done; simpl; eexists; eauto.
  - unfold count_error.
    destruct ce as [|[|ce]]; simpl; eexists; eauto.
Qed.

(** A cycle that went through sets the counter back to zero, whatever it
    was, and the loop goes on. *)
Lemma iteration_clean (w : LoopWorld) :
  (forall i, stop_requested i = false) ->
  cycle_time_ok ->
  clean_cycle
    (run_trading_agent (cycles_run w) (_current_state (globals w))) ->
  exists w',
    iteration w = (Ok Next, w') /\
    consecutive_errors w' = 0%nat /\
    cycles_run w' = S (cycles_run w) /\
    _agent_running (globals w') = _agent_running (globals w).
Proof.
  intros Hstop [n Hct] Hclean. destruct w as [g ce cr fr ss]. simpl in Hclean.
  unfold iteration, try_except, cycle_and_sleep, bind, call_run_trading_agent.
  simpl. destruct (run_trading_agent cr (_current_state g)) as [d|e]; [|done].
  destruct Hclean as (He & [Hs Hf] & [Hl Hb]). rewrite He. simpl.
  rewrite Hs, Hf. simpl.
  destruct (len (get_or d "active_positions" (VList []))); [|done].
  destruct (Cycle.format_4f (get_or d "wallet_balance_sol" (VInt 0)));
    [|done].
  unfold lift, read_stop_flag. simpl. rewrite Hstop, Hct. simpl.
  destruct (negb (truthy (get_or d "tools_used_this_cycle" (VList []))));
    simpl; rewrite sleep_loop_quiet by done; simpl; eexists; eauto.
Qed.

Lemma worker_loop_errored (fuel : nat) (w : LoopWorld) :
  (forall i, stop_requested i = false) ->
  cycle_time_ok ->
  (forall k prev, errored_cycle (run_trading_agent k prev)) ->
  (consecutive_errors w < max_consecutive_errors)%nat ->
  exists w',
    worker_loop fuel w =
      (Ok (max_consecutive_errors - consecutive_errors w <=? fuel)%nat, w') /\
    cycles_run w' =
      (cycles_run w +
       Nat.min fuel (max_consecutive_errors - consecutive_errors w))%nat /\
    consecutive_errors w' =
      (consecutive_errors w +
       Nat.min fuel (max_consecutive_errors - consecutive_errors w))%nat /\
    _agent_running (globals w') = _agent_running (globals w).
Proof.
  intros Hstop Hct Herr. unfold max_consecutive_errors.
  revert w. induction fuel as [|fuel IH]; intros w Hlt.
  - exists w. simpl. unfold ret.
    destruct (Nat.leb_spec (3 - consecutive_errors w) 0); [lia|].
    repeat split; lia.
  - cbn [worker_loop]. unfold bind at 1. unfold read_stop_flag at 1.
    rewrite Hstop. unfold bind.
    set (w1 := mkLoop (globals w) (consecutive_errors w) (cycles_run w)
                      (S (flag_reads w)) (seconds_slept w)).
    destruct (iteration_errored w1 Hstop Hct (Herr _ _))
      as (w2 & Hit & Hce & Hcr & Hrun).
    rewrite Hit. unfold max_consecutive_errors.
    subst w1. cbn [consecutive_errors cycles_run globals] in *.
    destruct (Nat.leb_spec 3 (S (consecutive_errors w))) as [Hge|Hless].
    + exists w2. unfold ret.
      destruct (Nat.leb_spec (3 - consecutive_errors w) (S fuel)); [|lia].
      repeat split; [lia|lia|done].
    + destruct (IH w2) as (w3 & Hw & Hcr3 & Hce3 & Hrun3); [lia|].
      exists w3. rewrite Hw, Hce.
      split; [|repeat split; [lia|lia|congruence]].
      do 2 f_equal.
      destruct (Nat.leb_spec (3 - S (consecutive_errors w)) fuel),
               (Nat.leb_spec (3 - consecutive_errors w) (S fuel));
        (done || lia).
Qed.

(** C4, as the code has it.  With no stop requested and an integer cycle
    time: when every cycle fails (the call raises, or returns a state with
    an [error] that can be logged and carries no stop marker of its own),
    the worker leaves the loop after exactly three cycles: with fuel for
    fewer than three passes it is still looping, with fuel for three or
    more it has stopped after the third and has run no fourth.  And a
    cycle that goes through, with a state that can be logged, sets the
    counter back to zero from any value. *)
Theorem circuit_breaker_trips_at_three :
  (forall i, stop_requested i = false) ->
  cycle_time_ok ->
  ((forall k prev, errored_cycle (run_trading_agent k prev)) ->
   forall fuel w,
     let r := background_trading_loop fuel w in
     ((3 <= fuel)%nat ->
        r.1 = Ok true /\
        cycles_run r.2 = (cycles_run w + 3)%nat /\
        consecutive_errors r.2 = 3%nat /\
        _agent_running (globals r.2) = false) /\
     ((fuel < 3)%nat ->
        r.1 = Ok false /\
        cycles_run r.2 = (cycles_run w + fuel)%nat /\
        consecutive_errors r.2 = fuel /\
        _agent_running (globals r.2) = true)) /\
  (forall w,
     clean_cycle
       (run_trading_agent (cycles_run w) (_current_state (globals w))) ->
     exists w',
       iteration w = (Ok Next, w') /\ consecutive_errors w' = 0%nat).
Proof.
  intros Hstop Hct. split.
  - intros Herr fuel w r. subst r.
    unfold background_trading_loop, bind, modify, try_except.
    destruct (worker_loop_errored fuel (prologue w) Hstop Hct Herr)
      as (w' & Hw & Hcr & Hce & Hrun);
      [unfold max_consecutive_errors; simpl; lia|].
    rewrite Hw. unfold max_consecutive_errors in *. simpl in Hcr, Hce, Hrun.
    change (consecutive_errors (prologue w)) with 0%nat.
    split; intros Hfuel.
    + destruct (Nat.leb_spec (3 - 0) fuel); [|lia]. simpl.
      repeat split; lia.
    + destruct (Nat.leb_spec (3 - 0) fuel); [lia|]. simpl.
      repeat split; [lia|lia|done].
  - intros w Hclean.
    destruct (iteration_clean w Hstop Hct Hclean) as (w' & Hit & Hce & _).
    eauto.
Qed.

(** *** The worker always cleans up *)

Lemma same_session_refl (g : Globals) : same_session g g.
Proof. by repeat split. Qed.

Lemma same_session_trans (g1 g2 g3 : Globals) :
  same_session g1 g2 -> same_session g2 g3 -> same_session g1 g3.
Proof. intros (?&?&?) (?&?&?). repeat split; congruence. Qed.

Lemma keeps_ret {A} (a : A) : keeps_session (ret a).
Proof. intros w. apply same_session_refl. Qed.

Lemma keeps_lift {A} (r : Res A) : keeps_session (lift r).
Proof. intros w. apply same_session_refl. Qed.

Lemma keeps_bind {A B} (m : @M LoopWorld A) (k : A -> @M LoopWorld B) :
  keeps_session m -> (forall a, keeps_session (k a)) ->
  keeps_session (bind m k).
Proof.
  intros Hm Hk w. unfold bind. specialize (Hm w).
  destruct (m w) as [[a|e] w1]; [|done].
  eapply same_session_trans; [exact Hm|apply Hk].
Qed.

Lemma keeps_try_except {A} (m : @M LoopWorld A) (h : Exn -> @M LoopWorld A) :
  keeps_session m -> (forall e, keeps_session (h e)) ->
  keeps_session (try_except m h).
Proof.
  intros Hm Hh w. unfold try_except. specialize (Hm w).
  destruct (m w) as [[a|e] w1]; [done|].
  eapply same_session_trans; [exact Hm|apply Hh].
Qed.

Lemma keeps_if {A} (b : bool) (m1 m2 : @M LoopWorld A) :
  keeps_session m1 -> keeps_session m2 ->
  keeps_session (if b then m1 else m2).
Proof. by destruct b. Qed.

Lemma keeps_basic :
  keeps_session call_run_trading_agent /\ keeps_session read_stop_flag /\
  keeps_session count_error /\ keeps_session reset_errors /\
  (forall s, keeps_session (sleep s)) /\
  (forall d, keeps_session (set_current_state d)).
Proof. repeat split. Qed.

Lemma keeps_sleep_loop (n : nat) : keeps_session (sleep_loop n).
Proof.
  induction n as [|n IH]; [apply keeps_ret|]. cbn [sleep_loop].
  apply keeps_bind; [apply keeps_basic|]. intros stop.
  apply keeps_if; [apply keeps_ret|].
  apply keeps_bind; [apply keeps_basic|done].
Qed.

Lemma keeps_iteration : keeps_session iteration.
Proof.
  destruct keeps_basic as (Hrun & Hflag & Hcount & Hreset & Hsleep & Hset).
  unfold iteration, cycle_and_sleep.
  apply keeps_try_except.
  - apply keeps_bind; [done|]. intros new_state.
    apply keeps_bind.
    { apply keeps_if; [done|]. apply keeps_bind; [done|].
      intros _. apply keeps_ret. }
    intros tripped. apply keeps_if; [apply keeps_ret|].
    apply keeps_if; [apply keeps_ret|].
    apply keeps_bind; [done|]. intros _.
    apply keeps_bind; [apply keeps_lift|]. intros _.
    apply keeps_bind; [apply keeps_lift|]. intros _.
    apply keeps_bind; [done|]. intros stop.
    apply keeps_if; [apply keeps_ret|].
    apply keeps_bind; [apply keeps_lift|]. intros ct.
    apply keeps_bind; [apply keeps_lift|]. intros ct'.
    apply keeps_bind; [apply keeps_lift|]. intros secs.
    apply keeps_bind; [apply keeps_sleep_loop|]. intros _. apply keeps_ret.
  - intros e. apply keeps_bind; [done|]. intros tripped.
    apply keeps_if; [apply keeps_ret|].
    apply keeps_bind; [done|]. intros _. apply keeps_ret.
Qed.

Lemma iteration_returns (w : LoopWorld) : exists c, (iteration w).1 = Ok c.
Proof.
  unfold iteration, try_except.
  destruct (cycle_and_sleep w) as [[c|e] w1]; [by exists c|].
  unfold bind, count_error. cbv beta iota zeta.
  destruct (_ <=? _)%nat; cbv beta iota; eauto.
Qed.

Lemma worker_loop_returns (fuel : nat) (w : LoopWorld) :
  exists b w', worker_loop fuel w = (Ok b, w') /\
               same_session (globals w) (globals w').
Proof.
  revert w. induction fuel as [|fuel IH]; intros w.
  - exists false, w. split; [done|apply same_session_refl].
  - cbn [worker_loop]. unfold bind at 1, read_stop_flag at 1.
    cbv beta iota zeta.
    destruct (stop_requested (flag_reads w)).
    { eexists true, _. split; [done|apply same_session_refl]. }
    set (w1 := mkLoop _ _ _ _ _). unfold bind.
    destruct (iteration_returns w1) as [c Hc].
    pose proof (keeps_iteration w1) as Hk.
    destruct (iteration w1) as [r w2]. simpl in Hc, Hk. subst r.
    destruct c.
    + destruct (IH w2) as (b & w3 & Hb & Hs). exists b, w3. split; [done|].
      eapply same_session_trans; [exact Hk|exact Hs].
    + exists true, w2. split; [done|exact Hk].
Qed.

(** The worker always cleans up.  Whatever the cycles return or raise and
    whenever a stop is requested, [background_trading_loop] never raises;
    when it has returned, the running flag is down and the current state
    and the session name are cleared; while it has not, the flag is up and
    the session name is set.  The thread handle is never touched. *)
Theorem background_trading_loop_always_cleans_up (fuel : nat)
    (w : LoopWorld) :
  exists exited,
    (background_trading_loop fuel w).1 = Ok exited /\
    let g := globals (background_trading_loop fuel w).2 in
    _agent_thread g = _agent_thread (globals w) /\
    if exited
    then _agent_running g = false /\ _current_state g = None /\
         _current_thread_id g = None
    else _agent_running g = true /\
         _current_thread_id g = Some session_name.
Proof.
  unfold background_trading_loop, bind, modify, try_except.
  destruct (worker_loop_returns fuel (prologue w))
    as (b & w1 & Hb & Ht & Hr & Hi).
  rewrite Hb. exists b. cbv beta iota zeta. split; [by destruct b|].
  simpl in Ht, Hr, Hi. destruct b; simpl; repeat split; done.
Qed.

(** *** Waiting between cycles *)

(** The wait between two cycles ends within a second of a stop request:
    when the first [j] looks at the flag see no request and the next one
    does, the worker has slept [j] seconds of the [n] it was to wait. *)
Theorem stop_request_ends_the_wait (n j : nat) (w : LoopWorld) :
  (j < n)%nat ->
  (forall i, (i < j)%nat -> stop_requested (flag_reads w + i) = false) ->
  stop_requested (flag_reads w + j) = true ->
  sleep_loop n w =
  (Ok tt, mkLoop (globals w) (consecutive_errors w) (cycles_run w)
                 (flag_reads w + j + 1) (seconds_slept w + Z.of_nat j)).
Proof.
  revert n w. induction j as [|j IH]; intros n w Hn Hbefore Hstop.
  - destruct n as [|n]; [lia|]. cbn [sleep_loop].
    unfold bind, read_stop_flag. rewrite Nat.add_0_r in Hstop. rewrite Hstop.
    unfold ret. do 2 f_equal; lia.
  - destruct n as [|n]; [lia|]. cbn [sleep_loop].
    unfold bind at 1, read_stop_flag at 1.
    rewrite <- (Nat.add_0_r (flag_reads w)), (Hbefore 0%nat) by lia.
    unfold bind, sleep, modify. cbv beta iota zeta.
    rewrite IH; cbn [flag_reads seconds_slept].
    + rewrite Nat.add_0_r. do 2 f_equal; lia.
    + lia.
    + intros i Hi. rewrite Nat.add_0_r.
      replace (S (flag_reads w) + i)%nat with (flag_reads w + S i)%nat by lia.
      apply Hbefore. lia.
    + rewrite Nat.add_0_r.
      by replace (S (flag_reads w) + j)%nat with (flag_reads w + S j)%nat
        by lia.
Qed.

(** A failed cycle after which the loop goes on is followed by its
    [retry_wait]; the cycle that trips the breaker is followed by none. *)
Lemma iteration_errored_wait (w : LoopWorld) (c : Z) :
  (forall i, stop_requested i = false) ->
  cycle_time_of parameters = Ok (VInt c) ->
  let r := run_trading_agent (cycles_run w) (_current_state (globals w)) in
  errored_cycle r ->
  exists w',
    iteration w =
      (Ok (if (max_consecutive_errors <=? S (consecutive_errors w))%nat
           then Break else Next), w') /\
    consecutive_errors w' = S (consecutive_errors w) /\
    cycles_run w' = S (cycles_run w) /\
    if (max_consecutive_errors <=? S (consecutive_errors w))%nat
    then seconds_slept w' = seconds_slept w
    else seconds_slept w' = seconds_slept w + retry_wait c r /\
         _current_state (globals w') =
           carried_state r (_current_state (globals w)).
Proof.
  intros Hstop Hct r Herr. subst r. destruct w as [g ce cr fr ss].
  simpl in Herr.
  unfold iteration, try_except, cycle_and_sleep, bind, call_run_trading_agent.
  simpl. destruct (run_trading_agent cr (_current_state g)) as [d|e].
  - destruct Herr as (He & [Hs Hf] & [Hl Hb]). rewrite He.
    unfold count_error.
    destruct ce as [|[|ce]]; simpl; [| |eexists; eauto].
    all: rewrite Hs, Hf; simpl.
    all: destruct (len (get_or d "active_positions" (VList []))); [|done].
    all: destruct (Cycle.format_4f (get_or d "wallet_balance_sol" (VInt 0)));
           [|done].
    all: unfold lift, read_stop_flag; simpl; rewrite Hstop, Hct; simpl.
    all: rewrite sleep_loop_quiet by done; simpl.
    all: eexists; repeat split; simpl; lia.
  - unfold count_error.
    destruct ce as [|[|ce]]; simpl; eexists; eauto.
Qed.

(** One pass of the loop while no stop is requested. *)
Lemma worker_loop_step (fuel : nat) (w : LoopWorld) :
  (forall i, stop_requested i = false) ->
  worker_loop (S fuel) w =
  (let w1 := mkLoop (globals w) (consecutive_errors w) (cycles_run w)
                    (S (flag_reads w)) (seconds_slept w) in
   match iteration w1 with
   | (Ok Next, w2) => worker_loop fuel w2
   | (Ok Break, w2) => (Ok true, w2)
   | (Raise e, w2) => (Raise e, w2)
   end).
Proof.
  intros Hstop. cbn [worker_loop]. unfold bind at 1, read_stop_flag at 1.
  rewrite Hstop. cbv beta iota zeta. unfold bind.
  by destruct (iteration _) as [[[|]|e] w2].
Qed.

(** How long three failures take.  No stop is requested, the cycle time
    is an integer, and every cycle fails in one of two ways: the call
    raises, or it returns a state with an [error] that the loop can log (a
    numeric balance, positions that have a length) and that carries no stop
    marker.  Then the worker leaves the loop at the third cycle, having
    slept the [retry_wait] of the first two cycles and nothing after the
    third: two minutes when both raised, twice the cycle time (twenty
    minutes at least) when both returned such a state. *)
Theorem three_failures_take_two_waits (fuel : nat) (c : Z) (w : LoopWorld) :
  (forall i, stop_requested i = false) ->
  cycle_time_of parameters = Ok (VInt c) ->
  (forall k prev, errored_cycle (run_trading_agent k prev)) ->
  consecutive_errors w = 0%nat ->
  (3 <= fuel)%nat ->
  let r0 := run_trading_agent (cycles_run w) (_current_state (globals w)) in
  let r1 := run_trading_agent (S (cycles_run w))
              (carried_state r0 (_current_state (globals w))) in
  exists w',
    worker_loop fuel w = (Ok true, w') /\
    cycles_run w' = (cycles_run w + 3)%nat /\
    seconds_slept w' = seconds_slept w + retry_wait c r0 + retry_wait c r1.
Proof.
  intros Hstop Hct Herr Hce Hfuel r0 r1.
  destruct fuel as [|[|[|fuel]]]; [lia..|].
  destruct w as [g ce cr fr ss]. simpl in Hce. subst ce.
  cbn [cycles_run globals seconds_slept] in *.
  rewrite worker_loop_step by done. cbv zeta.
  cbn [cycles_run globals seconds_slept consecutive_errors flag_reads].
  destruct (iteration_errored_wait (mkLoop g 0 cr (S fr) ss) c Hstop Hct
              (Herr _ _)) as ([g1 ce1 cr1 fr1 ss1] & -> & Hce1 & Hcr1 & Hs1).
  simpl in Hce1, Hcr1, Hs1. destruct Hs1 as [Hs1 Hst1]. subst ce1 cr1.
  cbn [max_consecutive_errors Nat.leb]. cbv iota.
  rewrite worker_loop_step by done. cbv zeta.
  cbn [cycles_run globals seconds_slept consecutive_errors flag_reads].
  destruct (iteration_errored_wait (mkLoop g1 1 (S cr) (S fr1) ss1) c Hstop
              Hct (Herr _ _))
    as ([g2 ce2 cr2 fr2 ss2] & -> & Hce2 & Hcr2 & Hs2).
  simpl in Hce2, Hcr2, Hs2. destruct Hs2 as [Hs2 Hst2]. subst ce2 cr2.
  cbn [max_consecutive_errors Nat.leb]. cbv iota.
  rewrite worker_loop_step by done. cbv zeta.
  cbn [cycles_run globals seconds_slept consecutive_errors flag_reads].
  destruct (iteration_errored_wait (mkLoop g2 2 (S (S cr)) (S fr2) ss2) c
              Hstop Hct (Herr _ _))
    as ([g3 ce3 cr3 fr3 ss3] & -> & Hce3 & Hcr3 & Hs3).
  simpl in Hce3, Hcr3, Hs3. subst ce3 cr3.
  cbn [max_consecutive_errors Nat.leb]. cbv iota.
  eexists. split; [reflexivity|]. simpl. split; [lia|].
  subst r0 r1. rewrite Hs3, Hs2, Hs1, Hst1. reflexivity.
Qed.

(** A cycle that went through hands its state to the next one. *)
Lemma iteration_clean_carries (w : LoopWorld) (d : gmap string PyVal) :
  (forall i, stop_requested i = false) ->
  cycle_time_ok ->
  run_trading_agent (cycles_run w) (_current_state (globals w)) = Ok d ->
  clean_cycle (Ok d) ->
  exists w',
    iteration w = (Ok Next, w') /\
    consecutive_errors w' = 0%nat /\
    cycles_run w' = S (cycles_run w) /\
    _current_state (globals w') = Some d.
Proof.
  intros Hstop [n Hct] Hrun Hclean. destruct w as [g ce cr fr ss].
  simpl in Hrun.
  unfold iteration, try_except, cycle_and_sleep, bind, call_run_trading_agent.
  simpl. rewrite Hrun.
  destruct Hclean as (He & [Hs Hf] & [Hl Hb]). rewrite He. simpl.
  rewrite Hs, Hf. simpl.
  destruct (len (get_or d "active_positions" (VList []))); [|done].
  destruct (Cycle.format_4f (get_or d "wallet_balance_sol" (VInt 0)));
    [|done].
  unfold lift, read_stop_flag. simpl. rewrite Hstop, Hct. simpl.
  destruct (negb (truthy (get_or d "tools_used_this_cycle" (VList []))));
    simpl; rewrite sleep_loop_quiet by done; simpl; eexists; eauto.
Qed.

End Worker.

Lemma circuit_breaker_trips_at_three_witness :
  (forall i, never_stop i = false) /\
  cycle_time_ok VNone /\
  (forall k prev, errored_cycle (failing_agent k prev)) /\
  (background_trading_loop failing_agent never_stop
     "trading_session_20250706_033819" VNone 10 fresh_loop).1 = Ok true /\
  cycles_run (background_trading_loop failing_agent never_stop
     "trading_session_20250706_033819" VNone 10 fresh_loop).2 = 3%nat.
Proof.
  assert (H1 : forall i, never_stop i = false) by reflexivity.
  assert (H2 : cycle_time_ok VNone) by (exists 300; reflexivity).
  assert (H3 : forall k prev, errored_cycle (failing_agent k prev))
    by (intros k prev; repeat split; reflexivity).
  split; [exact H1|]. split; [exact H2|]. split; [exact H3|].
  destruct (circuit_breaker_trips_at_three failing_agent never_stop
              "trading_session_20250706_033819" VNone H1 H2) as [Hall _].
  destruct (Hall H3 10%nat fresh_loop) as [Hge _].
  destruct (Hge ltac:(lia)) as (Hr & Hc & _).
  split; [exact Hr|exact Hc].
Defined.

(** C4 as the specification words it (never before the third errored
    cycle) fails: an errored state whose log line raises is counted twice,
    as a state with an [error] (line 199) and again by the handler of the
    loop (line 252).  The worker then stops in the second cycle, with the
    counter at three, after one wait of 60 seconds. *)
Lemma unloggable_error_is_counted_twice :
  let r := background_trading_loop unloggable_agent never_stop
             "trading_session_20250706_033819" VNone 10 fresh_loop in
  truthy (get (unloggable_state 0) "error") = true /\
  r.1 = Ok true /\
  cycles_run r.2 = 2%nat /\
  consecutive_errors r.2 = 3%nat /\
  seconds_slept r.2 = 60.
Proof. vm_compute. repeat split. Qed.

Lemma stop_request_ends_the_wait_witness :
  sleep_loop (stop_from 2) 300 fresh_loop = (Ok tt, mkLoop idle 0 0 3 2).
Proof.
  apply (stop_request_ends_the_wait (stop_from 2) 300 2 fresh_loop).
  - lia.
  - intros [|[|i]] Hi; [reflexivity..|lia].
  - reflexivity.
Defined.

Lemma three_failures_take_two_waits_witness :
  exists w',
    worker_loop failing_agent never_stop VNone 5 fresh_loop = (Ok true, w') /\
    cycles_run w' = 3%nat /\ seconds_slept w' = 1200.
Proof.
  apply (three_failures_take_two_waits failing_agent never_stop VNone 5 300
           fresh_loop).
  - reflexivity.
  - reflexivity.
  - intros k prev. repeat split; reflexivity.
  - reflexivity.
  - lia.
Defined.

(** A clean third cycle resets the count: the worker then stops after the
    sixth cycle, the third failure in a row. *)
Lemma circuit_breaker_counts_consecutive_errors :
  let r := background_trading_loop recovering_agent never_stop
             "trading_session_20250706_033819" VNone 10 fresh_loop in
  r.1 = Ok true /\ cycles_run r.2 = 6%nat /\ consecutive_errors r.2 = 3%nat.
Proof. vm_compute. repeat split. Qed.

End Runner.

(* ===================================================================== *)
(** ** The worker on top of the orchestrator *)
(* ===================================================================== *)

(** [src/agent/__init__.py], [background_trading_loop] calling
    [run_trading_agent]: the loop of [Runner] run on the orchestrator of
    [Cycle]. *)
Module Session.

Local Open Scope py_scope.

Definition session0 : string := "trading_session_20250706_033819".

(** An oracle that is down at every call. *)
Definition oracle_down0 (k : nat) : string -> Cycle.World -> Res (list Cycle.Message) :=
  Cycle.oracle_raises (mkExn "APIStatusError" "overloaded").

Section Worker.

Variable initial_state : gmap string PyVal.
Variable required_fields : list string.
Variable portfolio_metrics : gmap string PyVal -> Res (gmap string PyVal).
Variable metrics_in_place : bool.
Variable build_context : gmap string PyVal -> Res string.
(** The oracle and the clock at the [k]-th call of [run_trading_agent]. *)
Variable agent_invoke : nat -> string -> Cycle.World -> Res (list Cycle.Message).
Variable clock : nat -> Cycle.World -> string.
(** The state document persisted when the worker starts. *)
Variable persisted : option (gmap string PyVal).
Variable parameters : PyVal.
Variable session_name : string.

(** Lines 189-193: the [k]-th call
    [run_trading_agent(parameters, _current_state, _current_thread_id)] of
    the worker.  [_current_state] is [None] at first and then the
    dictionary the call before returned, which is also the document it
    saved last. *)
Definition cycle_agent (k : nat) (prev : option (gmap string PyVal))
    : Res (gmap string PyVal) :=
  let run := Cycle.run_trading_agent initial_state required_fields
               portfolio_metrics metrics_in_place build_context
               (agent_invoke k) (clock k) parameters in
  let res :=
    match prev with
    | Some d =>
        run (Some 0%nat) (VStr session_name)
            (Cycle.mkWorld (<[0%nat := d]> ∅) 1 (Some d) 0)
    | None =>
        run None (VStr session_name) (Cycle.mkWorld ∅ 0 persisted 0)
    end in
  match res.1 with
  | Ok r => Ok (Cycle.deref res.2 r)
  | Raise e => Raise e
  end.

(** A state without a pending error that has completed [n] cycles, can be
    logged and asks for no stop. *)
Definition ready (n : Z) (d : gmap string PyVal) : Prop :=
  d !! "error" = None /\
  d !! "cycles_completed" = Some (VInt n) /\
  (exists l, get_or d "error_log" (VList []) = VList l) /\
  Runner.loggable d /\
  Runner.no_stop_marker d.

(** The portfolio metrics write their own field and nothing else. *)
Definition metrics_write_their_field : Prop :=
  forall d, exists v, portfolio_metrics d = Ok (<["portfolio_metrics" := v]> d).

(** The oracle raises whenever it is invoked. *)
Definition oracle_down : Prop :=
  forall k ctx w, is_ok (agent_invoke k ctx w) = false.

(** What the worker holds after [j] cycles of a run that started on a
    default state with [n0] cycles. *)
Definition holds_after (n0 : Z) (j : nat) (g : Runner.Globals) : Prop :=
  match j with
  | O => Runner._current_state g = None
  | S _ =>
      exists d, Runner._current_state g = Some d /\
                ready (n0 + Z.of_nat j) d /\
                d !! "state_healthy" = Some (VBool true)
  end.

Lemma cycle_fails_when_down (k : nat) (d : gmap string PyVal) :
  metrics_write_their_field -> oracle_down ->
  Cycle.cycle_fails portfolio_metrics build_context (agent_invoke k) d.
Proof.
  intros Hm Hdown. destruct (Hm d) as [v Hv].
  assert (Hk : Cycle.keeps_tracked d (<["portfolio_metrics" := v]> d))
    by (repeat constructor; by rewrite lookup_insert_ne).
  destruct (build_context (<["portfolio_metrics" := v]> d)) as [ctx|e] eqn:Hc.
  - eapply Cycle.oracle_fails; [exact Hv|exact Hk|exact Hc|apply Hdown].
  - eapply Cycle.context_fails; [exact Hv|exact Hk|exact Hc].
Qed.

(** During an outage [run_cycle_on] turns a ready state into a ready
    state that is marked healthy. *)
Lemma run_cycle_on_outage (k r : nat) (s0 : gmap string PyVal) (n : Z)
    (H : gmap nat (gmap string PyVal)) (nr : nat)
    (st : option (gmap string PyVal)) (sv : nat) :
  truthy parameters = false ->
  metrics_write_their_field -> oracle_down ->
  r <> nr ->
  ready n s0 ->
  exists F w',
    Cycle.run_cycle_on initial_state portfolio_metrics
      metrics_in_place build_context (agent_invoke k) (clock k)
      parameters (VStr session_name) r
      (Cycle.mkWorld (<[r := s0]> H) nr st sv) = (Ok r, w') /\
    Cycle.deref w' r = F /\
    ready (n + 1) F /\
    F !! "state_healthy" = Some (VBool true).
Proof.
  intros Hp Hm Hdown Hne (Herr & Hc & [l Hl] & [Hpos Hbal] & [Hs Hf]).
  destruct (Cycle.run_cycle_on_failing initial_state
              portfolio_metrics metrics_in_place build_context
              (agent_invoke k) (clock k) parameters (VStr session_name)
              r s0 n l H nr st sv Hp Hne)
    as (e & d' & H' & nr' & ts & ts' & Hrun & Hk & Hd); try done.
  { intros [x Hx]. congruence. }
  { by apply cycle_fails_when_down. }
  exists (Cycle.failed_cycle_state e ts ts' n l d'). eexists.
  split; [exact Hrun|]. split.
  { unfold Cycle.deref. cbn [Cycle.heap]. by rewrite lookup_insert_eq. }
  set (S1 := Cycle.with_session (VStr session_name) s0) in *.
  assert (HS1 : Cycle.archived S1 = S1).
  { unfold Cycle.archived.
    assert (S1 !! "error" = None) as ->; [|done].
    unfold S1. by rewrite Cycle.with_session_lookup. }
  rewrite HS1 in Hk, Hd.
  assert (Hd' : forall f, f <> "portfolio_metrics" -> f <> "thread_id" ->
                  f <> "session_active" -> d' !! f = s0 !! f).
  { intros f H1 H2 H3.
    assert (d' !! f = S1 !! f) as ->.
    { destruct Hd as [->|Hd]; [done|]. destruct (Hm S1) as [v Hv].
      rewrite Hv in Hd. injection Hd as <-. by rewrite lookup_insert_ne. }
    unfold S1. by apply Cycle.with_session_lookup. }
  assert (HF : forall f, f <> "portfolio_metrics" -> f <> "thread_id" ->
                 f <> "session_active" -> f <> "state_healthy" ->
                 f <> "last_cycle_timestamp" -> f <> "agent_reasoning" ->
                 f <> "error_log" -> f <> "cycles_completed" ->
                 Cycle.failed_cycle_state e ts ts' n l d' !! f = s0 !! f).
  { intros. rewrite Cycle.failed_cycle_state_lookup by done. by apply Hd'. }
  split; [|unfold Cycle.failed_cycle_state; apply lookup_insert_eq].
  split; [by rewrite HF|]. split.
  { unfold Cycle.failed_cycle_state. rewrite !lookup_insert_ne by done.
    apply lookup_insert_eq. }
  split.
  { eexists. apply get_or_Some. unfold Cycle.failed_cycle_state.
    rewrite !lookup_insert_ne by done. apply lookup_insert_eq. }
  split; [split|split].
  - rewrite (Cycle.get_or_eq s0) by (by apply HF). done.
  - rewrite (Cycle.get_or_eq s0) by (by apply HF). done.
  - unfold get. rewrite HF by done. exact Hs.
  - unfold get. rewrite HF by done. exact Hf.
Qed.

(** During an outage every call of the worker returns a ready, healthy
    state with one cycle more. *)
Lemma cycle_agent_outage (n0 : Z) (j : nat) (g : Runner.Globals) :
  truthy parameters = false ->
  metrics_write_their_field -> oracle_down ->
  persisted = None ->
  ready n0 initial_state ->
  holds_after n0 j g ->
  forall k, exists d,
    cycle_agent k (Runner._current_state g) = Ok d /\
    ready (n0 + Z.of_nat (S j)) d /\
    d !! "state_healthy" = Some (VBool true).
Proof.
  intros Hp Hm Hdown Hnone Hinit Hprev k. unfold cycle_agent.
  destruct j as [|j]; cbn [holds_after] in Hprev.
  - rewrite Hprev, Hnone.
    destruct (run_cycle_on_outage k 0 initial_state n0 ∅ 1 None 0 Hp Hm Hdown
                ltac:(done) Hinit) as (F & w' & Hrun & HF & Hready & Hh).
    erewrite Cycle.run_trading_agent_first_run; [|exact Hrun].
    cbn [fst snd]. exists F. rewrite HF.
    replace (n0 + Z.of_nat 1) with (n0 + 1) by lia. done.
  - destruct Hprev as (d & -> & Hready & _).
    destruct (run_cycle_on_outage k 0 d _ ∅ 1 (Some d) 0 Hp Hm Hdown
                ltac:(done) Hready) as (F & w' & Hrun & HF & Hready' & Hh).
    destruct Hready as (_ & Hc & _).
    erewrite Cycle.run_trading_agent_on_previous; [|exact Hc|exact Hrun].
    cbn [fst snd]. exists F. rewrite HF.
    replace (n0 + Z.of_nat (S (S j))) with (n0 + Z.of_nat (S j) + 1) by lia.
    done.
Qed.

Lemma worker_loop_outage (stop_requested : nat -> bool) (n0 : Z)
    (fuel j : nat) (w : Runner.LoopWorld) :
  (forall i, stop_requested i = false) ->
  truthy parameters = false ->
  metrics_write_their_field -> oracle_down ->
  persisted = None ->
  ready n0 initial_state ->
  Runner.consecutive_errors w = 0%nat ->
  holds_after n0 j (Runner.globals w) ->
  exists w',
    Runner.worker_loop cycle_agent stop_requested parameters fuel w =
      (Ok false, w') /\
    Runner.consecutive_errors w' = 0%nat /\
    Runner.cycles_run w' = (Runner.cycles_run w + fuel)%nat /\
    holds_after n0 (j + fuel) (Runner.globals w').
Proof.
  intros Hstop Hp Hm Hdown Hnone Hinit. revert j w.
  induction fuel as [|fuel IH]; intros j w Hce Hprev.
  - exists w. rewrite !Nat.add_0_r. done.
  - rewrite Runner.worker_loop_step by done. cbv zeta.
    set (w1 := Runner.mkLoop _ _ _ _ _).
    destruct (cycle_agent_outage n0 j (Runner.globals w1) Hp Hm Hdown Hnone
                Hinit Hprev (Runner.cycles_run w1))
      as (d & Hrun & Hready & Hh).
    destruct (Runner.iteration_clean_carries cycle_agent stop_requested
                parameters w1 d Hstop) as (w2 & -> & Hce2 & Hcr2 & Hst2).
    { exists 300. unfold Runner.cycle_time_of. by rewrite Hp. }
    { exact Hrun. }
    { destruct Hready as (He & _ & _ & Hlog & Hno).
      split; [by rewrite (get_None _ _ He)|done]. }
    destruct (IH (S j) w2 Hce2) as (w3 & Hloop & Hce3 & Hcr3 & Hst3).
    { cbn [holds_after]. by exists d. }
    exists w3. split; [exact Hloop|]. split; [exact Hce3|].
    split; [rewrite Hcr3, Hcr2; simpl; lia|].
    by replace (j + S fuel)%nat with (S j + fuel)%nat by lia.
Qed.

(** An outage of the oracle never trips the circuit breaker.  The worker
    starts with nothing persisted and without parameter overrides, the
    default state is in order, the portfolio metrics write their own field
    only, no stop is requested, and the oracle raises at every call.  Then
    however many cycles the worker runs, every one of them fails, none is
    counted as an error, and the worker is still looping with a state that
    is marked healthy and carries no [error]. *)
Theorem oracle_outage_never_trips_the_breaker
    (stop_requested : nat -> bool) (n0 : Z) (fuel : nat)
    (w : Runner.LoopWorld) :
  (forall i, stop_requested i = false) ->
  truthy parameters = false ->
  metrics_write_their_field -> oracle_down ->
  persisted = None ->
  ready n0 initial_state ->
  let res := Runner.background_trading_loop cycle_agent stop_requested
               session_name parameters fuel w in
  res.1 = Ok false /\
  Runner.consecutive_errors res.2 = 0%nat /\
  Runner.cycles_run res.2 = (Runner.cycles_run w + fuel)%nat /\
  match fuel with
  | O => True
  | S _ =>
      exists d,
        Runner._current_state (Runner.globals res.2) = Some d /\
        d !! "error" = None /\
        d !! "state_healthy" = Some (VBool true) /\
        d !! "cycles_completed" = Some (VInt (n0 + Z.of_nat fuel))
  end.
Proof.
  intros Hstop Hp Hm Hdown Hnone Hinit.
  unfold Runner.background_trading_loop, bind, modify, try_except.
  destruct (worker_loop_outage stop_requested n0 fuel 0
              (Runner.prologue session_name w) Hstop Hp Hm Hdown Hnone Hinit
              eq_refl eq_refl) as (w' & -> & Hce & Hcr & Hst).
  cbv zeta. cbn [fst snd]. unfold ret. cbn [fst snd].
  split; [done|]. split; [done|]. split; [exact Hcr|].
  destruct fuel as [|fuel]; [done|]. cbn [Nat.add holds_after] in Hst.
  destruct Hst as (d & Hd & (He & Hc & _) & Hh). by exists d.
Qed.

End Worker.

(** Four cycles with the oracle down: the worker has counted no error and
    holds a healthy state with four cycles completed. *)
Lemma oracle_outage_never_trips_the_breaker_witness :
  let res := Runner.background_trading_loop
               (cycle_agent Cycle.initial_state0 Cycle.required_fields0
                  Cycle.metrics0 true Cycle.context0 oracle_down0
                  (fun _ => Cycle.clock0) None VNone session0)
               Runner.never_stop session0 VNone 4 Runner.fresh_loop in
  res.1 = Ok false /\
  Runner.consecutive_errors res.2 = 0%nat /\
  Runner.cycles_run res.2 = 4%nat /\
  exists d,
    Runner._current_state (Runner.globals res.2) = Some d /\
    d !! "error" = None /\
    d !! "state_healthy" = Some (VBool true) /\
    d !! "cycles_completed" = Some (VInt 4).
Proof.
  apply (oracle_outage_never_trips_the_breaker Cycle.initial_state0
           Cycle.required_fields0 Cycle.metrics0 true Cycle.context0
           oracle_down0 (fun _ => Cycle.clock0) None VNone session0
           Runner.never_stop 0 4 Runner.fresh_loop).
  - reflexivity.
  - reflexivity.
  - intros d. eexists. reflexivity.
  - intros k ctx w. reflexivity.
  - reflexivity.
  - repeat split; try reflexivity. by exists [].
Defined.

End Session.


(* ===================================================================== *)
(** ** [start_agent_background]: the guard on the running flag *)
(* ===================================================================== *)

Module Starter.

Import Runner.
Local Open Scope py_scope.

(** The life of a thread created by [start_agent_background]: created but
    never started, started but not yet at its first statement, inside
    [background_trading_loop], done. *)
Inductive Phase : Type := Unstarted | Spawned | Looping | Finished.

Definition phase_eqb (a b : Phase) : bool :=
  match a, b with
  | Unstarted, Unstarted | Spawned, Spawned
  | Looping, Looping | Finished, Finished => true
  | _, _ => false
  end.

(** The process: the module globals and the threads created so far. *)
Record Process : Type := mkProcess {
  proc_globals : Globals;
  threads : list Phase
}.

(** [start_agent_background(parameters)].  [can_start] tells whether
    [Thread.start()] succeeds.  The function itself never sets
    [_agent_running] to [True]: the worker does, as its first statement. *)
Definition start_agent_background (can_start : bool) (p : Process)
    : bool * Process :=
  let g := proc_globals p in
  if _agent_running g then (false, p)
  else
    let handle := length (threads p) in
    if can_start
    then (true,
          mkProcess (mkGlobals (Some handle) (_agent_running g)
                       (_agent_stop_flag g) (_current_thread_id g)
                       (_current_state g))
                    (threads p ++ [Spawned]))
    else (false,
          mkProcess (mkGlobals (Some handle) false
                       (_agent_stop_flag g) (_current_thread_id g)
                       (_current_state g))
                    (threads p ++ [Unstarted])).

(** Thread [i] runs the first statements of [background_trading_loop]. *)
Definition worker_begins (i : nat) (session_name : string) (p : Process)
    : Process :=
  match threads p !! i with
  | Some Spawned =>
      mkProcess (enter_session session_name (proc_globals p))
                (<[i := Looping]> (threads p))
  | _ => p
  end.

(** Thread [i] leaves the loop and runs its [finally] block. *)
Definition worker_ends (i : nat) (p : Process) : Process :=
  match threads p !! i with
  | Some Looping =>
      mkProcess (leave_session (proc_globals p))
                (<[i := Finished]> (threads p))
  | _ => p
  end.

(** What can happen next in the process. *)
Inductive Action : Type :=
| CallStart (can_start : bool)
| WorkerBegins (i : nat) (session_name : string)
| WorkerEnds (i : nat).

(** One action; a call of [start_agent_background] also gives its
    result. *)
Definition step (a : Action) (p : Process) : option bool * Process :=
  match a with
  | CallStart can_start =>
      let r := start_agent_background can_start p in (Some r.1, r.2)
  | WorkerBegins i session_name => (None, worker_begins i session_name p)
  | WorkerEnds i => (None, worker_ends i p)
  end.

(** A schedule: the results of the calls of [start_agent_background], in
    order, and the process at the end. *)
Fixpoint run (actions : list Action) (p : Process) : list bool * Process :=
  match actions with
  | [] => ([], p)
  | a :: rest =>
      let s := step a p in
      let r := run rest s.2 in
      (match s.1 with Some b => b :: r.1 | None => r.1 end, r.2)
  end.

Fixpoint count_phase (ph : Phase) (l : list Phase) : nat :=
  match l with
  | [] => 0
  | x :: rest => (if phase_eqb x ph then 1 else 0) + count_phase ph rest
  end.

(** The sessions alive in the process: threads started and not done. *)
Definition live_workers (p : Process) : nat :=
  count_phase Spawned (threads p) + count_phase Looping (threads p).

(** A schedule in which [start_agent_background] is never called while a
    thread it started has not yet reached its first statement. *)
Fixpoint patient (actions : list Action) (p : Process) : Prop :=
  match actions with
  | [] => True
  | a :: rest =>
      match a with
      | CallStart _ => count_phase Spawned (threads p) = 0%nat
      | _ => True
      end /\ patient rest (step a p).2
  end.

Definition idle_process : Process := mkProcess idle [].

(** The flag says [running] exactly when one thread is in the loop, and
    at most one thread is alive. *)
Definition consistent (p : Process) : Prop :=
  (live_workers p <= 1)%nat /\
  (_agent_running (proc_globals p) = true <->
   count_phase Looping (threads p) = 1%nat).

Lemma count_phase_app (ph x : Phase) (l : list Phase) :
  count_phase ph (l ++ [x]) =
  (count_phase ph l + (if phase_eqb x ph then 1 else 0))%nat.
Proof. induction l as [|y l IH]; simpl; [lia|]. rewrite IH. lia. Qed.

Lemma count_phase_insert (ph x y : Phase) (l : list Phase) (i : nat) :
  l !! i = Some x ->
  (count_phase ph (<[i := y]> l) + (if phase_eqb x ph then 1 else 0) =
   count_phase ph l + (if phase_eqb y ph then 1 else 0))%nat.
Proof.
  revert i. induction l as [|z l IH]; intros [|i] Hi; simpl in *; try done.
  - injection Hi as ->. lia.
  - specialize (IH i Hi). lia.
Qed.

Lemma step_consistent (a : Action) (p : Process) :
  consistent p ->
  match a with
  | CallStart _ => count_phase Spawned (threads p) = 0%nat
  | _ => True
  end ->
  consistent (step a p).2.
Proof.
  unfold consistent, live_workers.
  intros [Hlive Hrun] Hpat. destruct a as [can_start|i s|i]; simpl.
  - unfold start_agent_background.
    destruct (_agent_running (proc_globals p)) eqn:Hr;
      [simpl; rewrite Hr; by split|].
    assert (count_phase Looping (threads p) = 0%nat) as HL.
    { destruct (count_phase Looping (threads p)) as [|[|n]]; [done| |lia].
      destruct Hrun as [_ Hrun]. by specialize (Hrun eq_refl). }
    destruct can_start; simpl; rewrite !count_phase_app; simpl;
      rewrite ?Hr; split; try lia; split; (done || lia).
  - unfold worker_begins.
    destruct (threads p !! i) as [[]|] eqn:Hi; try done. simpl.
    pose proof (count_phase_insert Spawned Spawned Looping _ _ Hi) as HS.
    pose proof (count_phase_insert Looping Spawned Looping _ _ Hi) as HL.
    simpl in HS, HL. split; [lia|]. split; [lia|done].
  - unfold worker_ends.
    destruct (threads p !! i) as [[]|] eqn:Hi; try done. simpl.
    pose proof (count_phase_insert Spawned Looping Finished _ _ Hi) as HS.
    pose proof (count_phase_insert Looping Looping Finished _ _ Hi) as HL.
    simpl in HS, HL. split; [lia|]. split; [done|lia].
Qed.

Lemma run_consistent (actions : list Action) (p : Process) :
  consistent p -> patient actions p -> consistent (run actions p).2.
Proof.
  revert p. induction actions as [|a rest IH]; intros p Hc Hp; [done|].
  destruct Hp as [Ha Hrest]. cbn [run]. simpl.
  apply IH; [by apply step_consistent|done].
Qed.

(** C8, as the code has it.  While the running flag is set, a call of
    [start_agent_background] returns [False] and changes nothing, so it
    creates no thread.  From a process that is not running, a successful
    start, the worker's first statements, and a second start give [True]
    then [False] and one thread in the loop.  And on every schedule in
    which no start is called while a started worker has not yet reached
    its first statement, at most one session is alive. *)
Theorem start_is_guarded_by_the_running_flag :
  (forall can_start p,
     _agent_running (proc_globals p) = true ->
     start_agent_background can_start p = (false, p)) /\
  (forall p session_name,
     _agent_running (proc_globals p) = false ->
     let r := run [CallStart true;
                   WorkerBegins (length (threads p)) session_name;
                   CallStart true] p in
     r.1 = [true; false] /\ threads r.2 = threads p ++ [Looping]) /\
  (forall actions,
     patient actions idle_process ->
     (live_workers (run actions idle_process).2 <= 1)%nat).
Proof.
  split; [|split].
  - intros can_start p Hrun. unfold start_agent_background. by rewrite Hrun.
  - intros p s Hrun.
    assert (Hs : start_agent_background true p =
      (true, mkProcess (mkGlobals (Some (length (threads p)))
                          (_agent_running (proc_globals p))
                          (_agent_stop_flag (proc_globals p))
                          (_current_thread_id (proc_globals p))
                          (_current_state (proc_globals p)))
                       (threads p ++ [Spawned])))
      by (unfold start_agent_background; by rewrite Hrun).
    cbn [run step]. rewrite Hs. cbn [fst snd]. unfold worker_begins.
    cbn [threads proc_globals].
    rewrite lookup_app_r by lia. rewrite Nat.sub_diag. cbn [lookup list_lookup].
    unfold start_agent_background.
    cbn [proc_globals enter_session _agent_running fst snd threads].
    split; [done|].
    rewrite insert_app_r_alt by lia. by rewrite Nat.sub_diag.
  - intros actions Hp.
    apply (run_consistent actions idle_process); [|done].
    split; [cbv; lia|]. split; done.
Qed.

(** Back to back, with the worker's first statements in between. *)
Lemma start_is_guarded_by_the_running_flag_witness :
  _agent_running (proc_globals idle_process) = false /\
  (run [CallStart true; WorkerBegins 0 "trading_session_20250706_033819";
        CallStart true] idle_process).1 = [true; false] /\
  patient [CallStart true; WorkerBegins 0 "trading_session_20250706_033819";
           CallStart true; WorkerEnds 0; CallStart true] idle_process /\
  (live_workers
     (run [CallStart true; WorkerBegins 0 "trading_session_20250706_033819";
           CallStart true; WorkerEnds 0; CallStart true] idle_process).2
   <= 1)%nat.
Proof.
  destruct start_is_guarded_by_the_running_flag as (_ & Htwice & Hone).
  split; [reflexivity|].
  split; [exact (proj1 (Htwice idle_process
                          "trading_session_20250706_033819" eq_refl))|].
  assert (Hp : patient
    [CallStart true; WorkerBegins 0 "trading_session_20250706_033819";
     CallStart true; WorkerEnds 0; CallStart true] idle_process)
    by (repeat split; reflexivity).
  split; [exact Hp|]. exact (Hone _ Hp).
Defined.

(** C8 as the specification words it fails: two calls back to back, the
    second made before the first worker has run its first statement, both
    return [True], and two sessions are alive. *)
Lemma start_twice_before_worker_begins :
  let r := run [CallStart true; CallStart true] idle_process in
  r.1 = [true; true] /\ live_workers r.2 = 2%nat /\
  r.1 <> [true; false].
Proof. split; [reflexivity|]. split; [reflexivity|discriminate]. Qed.

End Starter.

(* ===================================================================== *)
(** ** [get_agent_status]: the status snapshot *)
(* ===================================================================== *)

Module Status.

Import Runner.
Local Open Scope py_scope.

(** The names bound at module level in [src/agent/__init__.py]: its
    imports, its globals and its functions. *)
Definition module_names : list string :=
  ["threading"; "time"; "logging"; "datetime"; "Dict"; "Any"; "Optional";
   "run_langgraph_trading_cycle"; "build_pure_ai_trading_graph";
   "AgentState"; "TokenData"; "Position"; "create_initial_state";
   "save_agent_state"; "load_agent_state"; "update_portfolio_metrics";
   "migrate_legacy_state"; "validate_state_structure"; "get_state_summary";
   "logger"; "_agent_thread"; "_agent_running"; "_agent_stop_flag";
   "_current_thread_id"; "_current_state"; "run_trading_agent";
   "start_agent_background"; "stop_agent_background"; "get_agent_status";
   "_determine_status"; "run_trading_cycle"; "build_trading_agent";
   "run_pure_ai_trading_agent"; "__all__"].

(** Looking up a name that is not a local of the function: it has to be
    bound at module level (no builtin is called [self]). *)
Definition resolve (name : string) : Res unit :=
  if existsb (String.eqb name) module_names
  then Ok tt
  else Raise (mkExn "NameError" ("name '" +:+ name +:+ "' is not defined")).

Definition rbind {A B} (r : Res A) (k : A -> Res B) : Res B :=
  match r with
  | Ok a => k a
  | Raise e => Raise e
  end.

(** [_determine_status(state)]. *)
Definition _determine_status (state : gmap string PyVal) : Res string :=
  if truthy (get state "error") then Ok "error"
  else if num_eqb (get_or state "cycles_completed" (VInt 0)) (VInt 0)
  then Ok "initialized"
  else if negb (truthy (get_or state "tools_used_this_cycle" (VList [])))
  then Ok "idle"
  else rbind (len (get_or state "active_positions" (VList [])))
         (fun n => Ok (if 0 <? n then "trading" else "active")).

(** [len([e for e in state.get("previous_errors", [])
          if not e.get("resolved", True)])]. *)
Fixpoint count_unresolved (errors : list PyVal) : Res Z :=
  match errors with
  | [] => Ok 0
  | e :: rest =>
      rbind (dict_get e "resolved" (VBool true)) (fun resolved =>
      rbind (count_unresolved rest) (fun n =>
      Ok (if truthy resolved then n else n + 1)))
  end.

Definition unresolved_errors (state : gmap string PyVal) : Res Z :=
  match get_or state "previous_errors" (VList []) with
  | VList errors => count_unresolved errors
  | VDict d =>
      if Nat.eqb (size d) 0 then Ok 0
      else Raise (mkExn "AttributeError" "'str' object has no attribute 'get'")
  | VStr s =>
      if String.eqb s "" then Ok 0
      else Raise (mkExn "AttributeError" "'str' object has no attribute 'get'")
  | _ => Raise (TypeError "object is not iterable")
  end.

(** [a or b]. *)
Definition py_or (a b : PyVal) : PyVal := if truthy a then a else b.

(** What [get_agent_status] reads: the globals and the persisted state
    document. *)
Record StatusWorld : Type := mkStatusWorld {
  st_globals : Globals;
  st_store : option (gmap string PyVal)
}.

(** *** A concrete status query *)

Definition summary0 (state : gmap string PyVal) : Res PyVal :=
  Ok (VDict {[ "cycles" := get_or state "cycles_completed" (VInt 0) ]}).

Definition healthy_state : gmap string PyVal :=
  list_to_map [("cycles_completed", VInt 4);
               ("wallet_balance_sol", VFloat 1%float);
               ("active_positions", VList []);
               ("tools_used_this_cycle", VList [VStr "get_wallet_balance_tool"]);
               ("state_healthy", VBool true)].

Section Query.

(** [get_state_summary] of the absent [state.py], and whether a thread is
    alive. *)
Variable get_state_summary : gmap string PyVal -> Res PyVal.
Variable is_alive : nat -> bool.

(** Modelled from the spec: [load() -> State|absent], never raises. *)
Definition load_agent_state : @M StatusWorld (option (gmap string PyVal)) :=
  gets st_store.

Definition thread_alive (g : Globals) : bool :=
  match _agent_thread g with
  | Some th => is_alive th
  | None => false
  end.

Definition opt_str (s : option string) : PyVal :=
  match s with Some x => VStr x | None => VNone end.

(** The dictionary display of lines 333-362, its entries evaluated in
    order. *)
Definition full_snapshot (g : Globals) (state : gmap string PyVal)
    : Res (gmap string PyVal) :=
  rbind (get_state_summary state) (fun summary =>
  rbind (len (get_or state "active_positions" (VList []))) (fun positions =>
  rbind (unresolved_errors state) (fun errors =>
  rbind (resolve "self") (fun _ =>
  rbind (_determine_status state) (fun status =>
  Ok (list_to_map
    [("running", VBool (_agent_running g));
     ("thread_alive", VBool (thread_alive g));
     ("current_thread_id", opt_str (_current_thread_id g));
     ("cycles_completed", get_or state "cycles_completed" (VInt 0));
     ("last_update", py_or (get state "last_cycle_timestamp")
                           (get state "last_update_timestamp"));
     ("wallet_balance_sol", get_or state "wallet_balance_sol" (VInt 0));
     ("active_positions", VInt positions);
     ("tools_used_last_cycle",
        get_or state "tools_used_this_cycle" (VList []));
     ("agent_type", VStr "LangGraph_Enhanced");
     ("session_active", get_or state "session_active" (VBool false));
     ("state_healthy", get_or state "state_healthy" (VBool true));
     ("consecutive_errors", VInt errors);
     ("status", VStr status);
     ("summary", summary);
     ("agent_health", get_or state "agent_health" (VDict ∅));
     ("trading_mode", get_or state "trading_mode" (VStr "dry_run"));
     ("ai_strategy", get_or state "ai_strategy" (VStr "unknown"));
     ("current_error", get state "error");
     ("error_timestamp", get state "error_timestamp")])))))).

(** Lines 366-378: the snapshot when there is no state. *)
Definition initial_snapshot (g : Globals) : gmap string PyVal :=
  list_to_map
    [("running", VBool (_agent_running g));
     ("thread_alive", VBool (thread_alive g));
     ("current_thread_id", opt_str (_current_thread_id g));
     ("cycles_completed", VInt 0);
     ("last_update", VNone);
     ("wallet_balance_sol", VInt 0);
     ("active_positions", VInt 0);
     ("tools_used_last_cycle", VList []);
     ("agent_type", VStr "LangGraph_Enhanced");
     ("status", VStr "initialized");
     ("state_healthy", VBool true)].

(** Lines 382-387: the snapshot of the handler. *)
Definition error_snapshot (g : Globals) (e : Exn) : gmap string PyVal :=
  list_to_map
    [("running", VBool (_agent_running g));
     ("status", VStr "error");
     ("error", VStr (exn_msg e));
     ("state_healthy", VBool false)].

(** [get_agent_status()]. *)
Definition get_agent_status : @M StatusWorld (gmap string PyVal) :=
  g <- gets st_globals ;;
  try_except
    (state <- match _current_state g with
              | Some s =>
                  if truthy (VDict s) then ret (Some s) else load_agent_state
              | None => load_agent_state
              end ;;
     match state with
     | Some s =>
         if truthy (VDict s)
         then lift (full_snapshot g s)
         else ret (initial_snapshot g)
     | None => ret (initial_snapshot g)
     end)
    (fun e => ret (error_snapshot g e)).

(** The state [get_agent_status] finds, when there is one: the one in
    memory, or else the persisted one. *)
Definition state_document (w : StatusWorld) : option (gmap string PyVal) :=
  match _current_state (st_globals w) with
  | Some s => if truthy (VDict s) then Some s else st_store w
  | None => st_store w
  end.

(** C9 on the code.  Whenever a (non-empty) state document exists, in
    memory or persisted, [get_agent_status] leaves the world as it is but
    returns the four-entry snapshot of its exception handler: evaluating
    the entry ["status": self._determine_status(state)] fails, since the
    module-level function has no [self].  The snapshot reports status
    [error] and an unhealthy state, and has no worker-alive flag, session
    id, cycle count, balance, position count or tool names. *)
Theorem get_agent_status_reports_error_snapshot (w : StatusWorld)
    (state : gmap string PyVal) :
  state_document w = Some state ->
  truthy (VDict state) = true ->
  exists e,
    get_agent_status w = (Ok (error_snapshot (st_globals w) e), w) /\
    let snap := error_snapshot (st_globals w) e in
    snap !! "status" = Some (VStr "error") /\
    snap !! "state_healthy" = Some (VBool false) /\
    snap !! "running" = Some (VBool (_agent_running (st_globals w))) /\
    snap !! "thread_alive" = None /\
    snap !! "current_thread_id" = None /\
    snap !! "cycles_completed" = None /\
    snap !! "wallet_balance_sol" = None /\
    snap !! "active_positions" = None /\
    snap !! "tools_used_last_cycle" = None.
Proof.
  intros Hdoc Htruthy.
  assert (Hfull : exists e, full_snapshot (st_globals w) state = Raise e).
  { unfold full_snapshot, rbind.
    destruct (get_state_summary state); [|eauto].
    destruct (len _); [|eauto].
    destruct (unresolved_errors state); [|eauto].
    simpl. eauto. }
  destruct Hfull as [e He]. exists e. split; [|repeat split; reflexivity].
  unfold get_agent_status, bind, gets, try_except, load_agent_state, gets,
    state_document in *.
  destruct (_current_state (st_globals w)) as [s|].
  - destruct (truthy (VDict s)) eqn:Hs.
    + injection Hdoc as ->. unfold ret, lift. by rewrite Hs, He.
    + rewrite Hdoc. unfold lift. by rewrite Htruthy, He.
  - rewrite Hdoc. unfold lift. by rewrite Htruthy, He.
Qed.

End Query.

(** A session is running on a healthy state of four cycles; the status
    query answers with the error snapshot. *)
Lemma get_agent_status_reports_error_snapshot_witness :
  let w := mkStatusWorld
             (mkGlobals (Some 0%nat) true false
                (Some "trading_session_20250706_033819") (Some healthy_state))
             None in
  state_document w = Some healthy_state /\
  truthy (VDict healthy_state) = true /\
  exists e,
    get_agent_status summary0 (fun _ => true) w =
      (Ok (error_snapshot (st_globals w) e), w).
Proof.
  intros w. split; [reflexivity|]. split; [reflexivity|].
  destruct (get_agent_status_reports_error_snapshot summary0 (fun _ => true)
              w healthy_state eq_refl eq_refl) as (e & He & _).
  exists e. exact He.
Defined.

(** The same query, evaluated: the message is the [NameError]. *)
Lemma get_agent_status_name_error :
  let w := mkStatusWorld
             (mkGlobals (Some 0%nat) true false
                (Some "trading_session_20250706_033819") (Some healthy_state))
             None in
  (get_agent_status summary0 (fun _ => true) w).1 =
  Ok (list_to_map
        [("running", VBool true);
         ("status", VStr "error");
         ("error", VStr "name 'self' is not defined");
         ("state_healthy", VBool false)]).
Proof. reflexivity. Qed.

End Status.
